(** * Kernel console (kconsole.c): command registry, parser and line editor

    A shallow embedding of [kernel/generic/src/console/kconsole.c] and the
    properties its specification states about it.

    - The file-level statics of the translation unit ([cmd_lock],
      [cmd_head], [history], [histposition], [tmp], [output], [symname]),
      the descriptors in memory and the two ends of the console form one
      state record, threaded through a state and error monad.
    - [int] variables are integers; arithmetic on the unsigned native word
      is reduced modulo its size with [wrap].
    - Spinlocks are booleans; taking a lock that is held is the error
      [Deadlock], an access outside an array the error [OutOfBounds].
    - What the file takes from the rest of the kernel (limits, error codes,
      the symbol table, the handlers) is the class [platform].

    The definitions come first, then the vocabulary of the specification,
    then the properties, and at the end the properties at work on a sample
    configuration. *)

From Stdlib Require Import ZArith Lia String Ascii.
From stdpp Require Import base tactics option list gmap.

Local Open Scope Z_scope.

(** ** C strings *)

(** A [char] is its integer value.  A string handed over by pointer and only
    read ([const char *]) is the list of the bytes found from the pointer on;
    bytes past the represented extent read as NUL, so the list may or may not
    spell out the terminator. *)
Definition char_at (s : list Z) (i : nat) : Z := default 0 (s !! i).

(** The bytes of a Rocq string literal, for messages and test inputs. *)
Definition chars (s : string) : list Z :=
  map (fun a => Z.of_nat (nat_of_ascii a)) (list_ascii_of_string s).

(** The characters before the first NUL. *)
Fixpoint cstr (s : list Z) : list Z :=
  match s with
  | [] => []
  | c :: s' => if c =? 0 then [] else c :: cstr s'
  end.

(** Modelled from the spec: [strlen] belongs to the kernel's string library,
    another file; the number of bytes before the terminator. *)
Definition strlen (s : list Z) : Z := Z.of_nat (length (cstr s)).

(** Modelled from the spec: [strncmp] belongs to the kernel's string
    library, another file.  The spec calls it a comparison "truncated to" a
    length: the two strings are walked in step for at most [len] bytes, the
    first differing byte decides, and a string that ends first is the
    smaller one. *)
Fixpoint strncmp (src dst : list Z) (len : nat) : Z :=
  match len with
  | O => 0
  | S len' =>
      let a := char_at src 0 in
      let b := char_at dst 0 in
      if (a =? 0) || (b =? 0) then
        if a =? b then 0 else if a =? 0 then -1 else 1
      else if a <? b then -1
      else if b <? a then 1
      else strncmp (tail src) (tail dst) len'
  end.

(** ** Errors and the state monad *)

Inductive error : Type :=
  | OutOfBounds      (* access outside the object pointed into *)
  | BadPointer       (* no descriptor at that address *)
  | Deadlock         (* spinning on a lock that is already held *)
  | InputExhausted.  (* _getc blocks: no more bytes *)

Inductive result (A : Type) : Type :=
  | Ok (a : A)
  | Err (e : error).
Arguments Ok {A} a.
Arguments Err {A} e.

(** ** Command descriptors *)

Inductive cmd_arg_type : Type :=
  | ARG_TYPE_INVALID
  | ARG_TYPE_INT
  | ARG_TYPE_STRING
  | ARG_TYPE_VAR.

(** [cmd_arg_t].  [buffer] is the caller's buffer the [buffer] pointer refers
    to, [buffer_addr] the value of that pointer. *)
Record cmd_arg : Type := mk_cmd_arg {
  type : cmd_arg_type;
  buffer : list Z;
  buffer_addr : Z;
  len : Z;
  intval : Z;
  vartype : cmd_arg_type
}.

(** [cmd_info_t] without its [link]: the list links are kept in [cmd_head].
    [func] is the address of the handler. *)
Record cmd_info : Type := mk_cmd_info {
  lock : bool;
  name : list Z;
  description : list Z;
  func : Z;
  argc : Z;
  argv : list cmd_arg
}.

Definition set_lock (b : bool) (d : cmd_info) : cmd_info :=
  mk_cmd_info b (name d) (description d) (func d) (argc d) (argv d).

Definition set_argv (a : list cmd_arg) (d : cmd_info) : cmd_info :=
  mk_cmd_info (lock d) (name d) (description d) (func d) (argc d) a.

(** ** The state of the translation unit *)

Record kstate : Type := mk_kstate {
  cmd_lock : bool;            (* SPINLOCK_INITIALIZE(cmd_lock) *)
  cmd_head : list Z;          (* addresses of the linked descriptors, in order *)
  cmds : gmap Z cmd_info;     (* the descriptor objects, by address *)
  history : list Z;           (* history[KCONSOLE_HISTORY][MAX_CMDLINE], row-major *)
  histposition : Z;           (* static in clever_readline *)
  tmp : list Z;               (* static in clever_readline *)
  output : list Z;            (* static in cmdtab_compl *)
  symname : list Z;           (* static in parse_int_arg *)
  stdin : list Z;             (* bytes the input device will deliver *)
  console : list Z            (* bytes written with putchar and printf *)
}.

Definition set_cmd_lock (b : bool) (s : kstate) : kstate :=
  mk_kstate b (cmd_head s) (cmds s) (history s) (histposition s) (tmp s)
    (output s) (symname s) (stdin s) (console s).
Definition set_cmd_head (l : list Z) (s : kstate) : kstate :=
  mk_kstate (cmd_lock s) l (cmds s) (history s) (histposition s) (tmp s)
    (output s) (symname s) (stdin s) (console s).
Definition set_cmds (m : gmap Z cmd_info) (s : kstate) : kstate :=
  mk_kstate (cmd_lock s) (cmd_head s) m (history s) (histposition s) (tmp s)
    (output s) (symname s) (stdin s) (console s).
Definition set_history (h : list Z) (s : kstate) : kstate :=
  mk_kstate (cmd_lock s) (cmd_head s) (cmds s) h (histposition s) (tmp s)
    (output s) (symname s) (stdin s) (console s).
Definition set_histposition (p : Z) (s : kstate) : kstate :=
  mk_kstate (cmd_lock s) (cmd_head s) (cmds s) (history s) p (tmp s)
    (output s) (symname s) (stdin s) (console s).
Definition set_tmp (t : list Z) (s : kstate) : kstate :=
  mk_kstate (cmd_lock s) (cmd_head s) (cmds s) (history s) (histposition s) t
    (output s) (symname s) (stdin s) (console s).
Definition set_output (o : list Z) (s : kstate) : kstate :=
  mk_kstate (cmd_lock s) (cmd_head s) (cmds s) (history s) (histposition s)
    (tmp s) o (symname s) (stdin s) (console s).
Definition set_symname (n : list Z) (s : kstate) : kstate :=
  mk_kstate (cmd_lock s) (cmd_head s) (cmds s) (history s) (histposition s)
    (tmp s) (output s) n (stdin s) (console s).
Definition set_stdin (i : list Z) (s : kstate) : kstate :=
  mk_kstate (cmd_lock s) (cmd_head s) (cmds s) (history s) (histposition s)
    (tmp s) (output s) (symname s) i (console s).
Definition set_console (c : list Z) (s : kstate) : kstate :=
  mk_kstate (cmd_lock s) (cmd_head s) (cmds s) (history s) (histposition s)
    (tmp s) (output s) (symname s) (stdin s) c.

(** A computation reads and writes the state and may fail. *)
Definition M (A : Type) : Type := kstate -> result (A * kstate).

Definition ret {A} (a : A) : M A := fun s => Ok (a, s).
Definition bind {A B} (m : M A) (k : A -> M B) : M B :=
  fun s => match m s with
           | Ok (a, s') => k a s'
           | Err e => Err e
           end.
Definition fail {A} (e : error) : M A := fun _ => Err e.
Definition gets {A} (f : kstate -> A) : M A := fun s => Ok (f s, s).
Definition modify (f : kstate -> kstate) : M unit := fun s => Ok (tt, f s).

Declare Scope kmonad_scope.
Delimit Scope kmonad_scope with kmonad.
Notation "'do' x <- m ;; k" := (bind m (fun x => k))
  (at level 10, x name, m at level 99, k at level 200) : kmonad_scope.
Notation "m ;; k" := (bind m (fun _ => k))
  (at level 100, k at level 200, right associativity) : kmonad_scope.
Local Open Scope kmonad_scope.

(** ** Spinlocks

    Execution is sequential here, so taking a lock that is held can only spin
    for ever; that is the [Deadlock] error. *)

Definition spinlock_lock_cmd_lock : M unit := fun s =>
  if cmd_lock s then Err Deadlock else Ok (tt, set_cmd_lock true s).

Definition spinlock_unlock_cmd_lock : M unit := modify (set_cmd_lock false).

Definition get_cmd (a : Z) : M cmd_info := fun s =>
  match cmds s !! a with
  | Some d => Ok (d, s)
  | None => Err BadPointer
  end.

Definition put_cmd (a : Z) (d : cmd_info) : M unit :=
  modify (fun s => set_cmds (<[a := d]> (cmds s)) s).

(** [spinlock_lock(&a->lock)] *)
Definition spinlock_lock (a : Z) : M unit :=
  do d <- get_cmd a ;;
  if lock d then fail Deadlock else put_cmd a (set_lock true d).

(** [spinlock_unlock(&a->lock)] *)
Definition spinlock_unlock (a : Z) : M unit :=
  do d <- get_cmd a ;;
  put_cmd a (set_lock false d).

(** ** cmd_register *)

(** The scan of [cmd_register] from list position [cur] on.  [Some r]: the
    function returned [r] from inside the loop; [None]: the loop ran out. *)
Fixpoint cmd_register_scan (cmd : Z) (cur : list Z) : M (option Z) :=
  match cur with
  | [] => ret None
  | hlp :: next =>
      if hlp =? cmd then
        (* The command is already there. *)
        spinlock_unlock_cmd_lock ;;
        ret (Some 0)
      else
        (* Avoid deadlock. *)
        (if hlp <? cmd then spinlock_lock hlp ;; spinlock_lock cmd
         else spinlock_lock cmd ;; spinlock_lock hlp) ;;
        do h <- get_cmd hlp ;;
        do c <- get_cmd cmd ;;
        if strncmp (name h) (name c)
             (Z.to_nat (Z.max (strlen (name c)) (strlen (name h)))) =? 0
        then
          (* The command is already there. *)
          spinlock_unlock hlp ;;
          spinlock_unlock cmd ;;
          spinlock_unlock_cmd_lock ;;
          ret (Some 0)
        else
          spinlock_unlock hlp ;;
          spinlock_unlock cmd ;;
          cmd_register_scan cmd next
  end.

(** [list_append(&cmd->link, &cmd_head)] *)
Definition list_append (cmd : Z) : M unit :=
  modify (fun s => set_cmd_head (cmd_head s ++ [cmd]) s).

Definition cmd_register (cmd : Z) : M Z :=
  spinlock_lock_cmd_lock ;;
  do l <- gets cmd_head ;;
  do r <- cmd_register_scan cmd l ;;
  match r with
  | Some v => ret v
  | None =>
      (* Now the command can be added. *)
      list_append cmd ;;
      spinlock_unlock_cmd_lock ;;
      ret 1
  end.

(** ** Memory objects

    The statics that are written through pointers ([history], [tmp],
    [output], [symname]) and the callers' argument buffers are byte arrays;
    an access outside the array is an error. *)

Definition load (mem : list Z) (i : Z) : result Z :=
  if i <? 0 then Err OutOfBounds
  else match mem !! Z.to_nat i with
       | Some c => Ok c
       | None => Err OutOfBounds
       end.

Definition store (mem : list Z) (i : Z) (c : Z) : result (list Z) :=
  if (0 <=? i) && (i <? Z.of_nat (length mem))
  then Ok (<[Z.to_nat i := c]> mem)
  else Err OutOfBounds.

(** [strlen(mem + off)]: the scan must meet a NUL inside the array. *)
Definition strlen_at (mem : list Z) (off : Z) : result Z :=
  if off <? 0 then Err OutOfBounds
  else
    let rest := drop (Z.to_nat off) mem in
    if (length (cstr rest) <? length rest)%nat then Ok (strlen rest)
    else Err OutOfBounds.

(** Modelled from the spec: [strncpy] belongs to the kernel's string
    library, another file.  The callers pass the number of bytes wanted plus
    one and use the destination as a string afterwards, and the spec
    describes such copies as "truncated to its capacity minus one,
    NUL/sentinel-terminated": bytes are copied up to and including a NUL, at
    most [len] of them, and when no NUL was met the last byte copied is
    replaced by one.  [rd] reads the source. *)
Fixpoint strncpy_loop (dest : list Z) (rd : Z -> result Z) (i : Z)
    (fuel : nat) : result (list Z) :=
  match fuel with
  | O => store dest (i - 1) 0
  | S fuel' =>
      match rd i with
      | Err e => Err e
      | Ok c =>
          match store dest i c with
          | Err e => Err e
          | Ok dest' =>
              if c =? 0 then Ok dest'
              else strncpy_loop dest' rd (i + 1) fuel'
          end
      end
  end.

(** A copy of more than [length dest] bytes ends at a NUL or leaves the
    array, so the count is cut there. *)
Definition strncpy (dest : list Z) (rd : Z -> result Z) (len : Z) :
    result (list Z) :=
  strncpy_loop dest rd 0
    (Z.to_nat (Z.min len (Z.of_nat (length dest) + 1))).

(** Reading a string that was passed by value. *)
Definition from_string (src : list Z) (i : Z) : result Z :=
  Ok (char_at src (Z.to_nat i)).

Definition lift {A} (r : result A) : M A := fun s =>
  match r with
  | Ok a => Ok (a, s)
  | Err e => Err e
  end.

(** [printf] and [putchar] append to the console. *)
Definition print (text : list Z) : M unit :=
  modify (fun s => set_console (console s ++ text) s).

Definition putchar (c : Z) : M unit := print [c].

(** [for (i = from; i < from + count; i++) body(i)] for a body that leaves the
    bounds alone. *)
Fixpoint for_up (count : nat) (i : Z) (body : Z -> M unit) : M unit :=
  match count with
  | O => ret tt
  | S count' => body i ;; for_up count' (i + 1) body
  end.

Definition set_buffer (b : list Z) (a : cmd_arg) : cmd_arg :=
  mk_cmd_arg (type a) b (buffer_addr a) (len a) (intval a) (vartype a).
Definition set_intval (v : Z) (a : cmd_arg) : cmd_arg :=
  mk_cmd_arg (type a) (buffer a) (buffer_addr a) (len a) v (vartype a).
Definition set_vartype (t : cmd_arg_type) (a : cmd_arg) : cmd_arg :=
  mk_cmd_arg (type a) (buffer a) (buffer_addr a) (len a) (intval a) t.

(** [cmd->argv[i]] *)
Definition get_arg (cmd : Z) (i : Z) : M cmd_arg :=
  do d <- get_cmd cmd ;;
  match argv d !! Z.to_nat i with
  | Some a => ret a
  | None => fail OutOfBounds
  end.

Definition put_arg (cmd : Z) (i : Z) (a : cmd_arg) : M unit :=
  do d <- get_cmd cmd ;;
  put_cmd cmd (set_argv (<[Z.to_nat i := a]> (argv d)) d).

(** Messages of the parser. *)
Definition msg_symbol_not_found (symname : list Z) : list Z :=
  chars "Symbol " ++ cstr symname ++ chars " not found." ++ [10].
Definition msg_duplicate_symbol (symname : list Z) : list Z :=
  chars "Duplicate symbol " ++ cstr symname ++ chars "." ++ [10].
Definition msg_no_symbol_information : list Z :=
  chars "No symbol information available." ++ [10].
Definition msg_unknown_command : list Z := chars "Unknown command." ++ [10].
Definition msg_too_few_arguments : list Z := chars "Too few arguments." ++ [10].
Definition msg_too_many_arguments : list Z :=
  chars "Too many arguments." ++ [10].
Definition msg_unrecognized_variable_argument : list Z :=
  chars "Unrecognized variable argument." ++ [10].
Definition msg_invalid_argument_type : list Z :=
  chars "invalid argument type" ++ [10].

(** ** The rest of the kernel

    What kconsole.c takes from other files: limits and error codes of the
    headers, and the functions of the string library, the symbol table and
    the command handlers that it calls. *)
Class platform : Type := {
  (** width of [unative_t], [size_t], [index_t] and [count_t] *)
  word_bits : Z;
  (** console/kconsole.h *)
  MAX_CMDLINE : Z;
  KCONSOLE_HISTORY : Z;
  (** symtab.h *)
  MAX_SYMBOL_NAME : Z;
  (** errno.h *)
  ENOENT : Z;
  EOVERFLOW : Z;
  isspace : Z -> bool;
  (** [symtab_addr_lookup(name, &symaddr)]: the return code and [symaddr] *)
  symtab_addr_lookup : list Z -> Z * Z;
  (** [symtab_print_search(name)]: what it prints *)
  symtab_print_search : list Z -> list Z;
  (** [symtab_compl(name)]: the count, the new contents of the buffer
      [name] and what it prints *)
  symtab_compl : list Z -> Z * list Z * list Z;
  atoi : list Z -> Z;
  (** the word stored at an address of kernel memory *)
  peek : Z -> Z;
  (** [cmd_info->func(cmd_info->argv)], by the address of the handler *)
  call_handler : Z -> list cmd_arg -> M Z
}.

Section Kconsole.

Context {P : platform}.

(** Arithmetic on [size_t], [index_t], [count_t] and [unative_t]. *)
Definition wrap (x : Z) : Z := x mod 2 ^ word_bits.

(** ** parse_argument *)

(** The loop of [parse_argument] with [fuel] iterations left before [i]
    reaches [len]; it gives [i], [*start] and [found_start]. *)
Fixpoint parse_argument_loop (cmdline : list Z) (fuel : nat) (i start : Z)
    (found_start : bool) : Z * Z * bool :=
  match fuel with
  | O => (i, start, found_start)
  | S fuel' =>
      if negb found_start then
        if isspace (char_at cmdline (Z.to_nat i))
        then parse_argument_loop cmdline fuel' (i + 1) (start + 1) false
        else parse_argument_loop cmdline fuel' (i + 1) start true
      else
        if isspace (char_at cmdline (Z.to_nat i))
        then (i, start, found_start)
        else parse_argument_loop cmdline fuel' (i + 1) start found_start
  end.

(** [parse_argument(cmdline, len, &start, &end)]: the return value and the
    new [*start] and [*end]. *)
Definition parse_argument (cmdline : list Z) (len start : Z) : bool * Z * Z :=
  let '(i, start', found_start) :=
    parse_argument_loop cmdline (Z.to_nat (len - start)) start start false in
  (found_start, start', wrap (i - 1)).

(** ** parse_int_arg *)

(** The [switch (rc)] of [parse_int_arg]: [Some r] when a case returns [r],
    [None] when control leaves the switch. *)
Definition parse_int_arg_switch (rc : Z) (symname : list Z) : M (option Z) :=
  if rc =? ENOENT then
    print (msg_symbol_not_found symname) ;;
    ret (Some (-1))
  else if rc =? EOVERFLOW then
    print (msg_duplicate_symbol symname) ;;
    print (symtab_print_search (cstr symname)) ;;
    ret (Some (-1))
  else
    (* default: *)
    print msg_no_symbol_information ;;
    ret (Some (-1)).

(** [parse_int_arg(text, len, &result)]: the return value and [*result],
    which enters as [result]. *)
Definition parse_int_arg (text : list Z) (len : Z) (result : Z) : M (Z * Z) :=
  let isaddr := char_at text 0 =? 38 (* & *) in
  let isptr := negb isaddr && (char_at text 0 =? 42 (* * *)) in
  let text1 := if isaddr || isptr then tail text else text in
  let len1 := if isaddr || isptr then wrap (len - 1) else len in
  if (char_at text1 0 <? 48) || (57 <? char_at text1 0) then
    do buf <- gets symname ;;
    do buf' <-
      lift (strncpy buf (from_string text1)
              (Z.min (wrap (len1 + 1)) MAX_SYMBOL_NAME)) ;;
    modify (set_symname buf') ;;
    let '(rc, symaddr) := symtab_addr_lookup (cstr buf') in
    do r <- parse_int_arg_switch rc buf' ;;
    match r with
    | Some v => ret (v, result)
    | None =>
        if isaddr then ret (0, symaddr)
        else if isptr then ret (0, peek (peek symaddr))
        else ret (0, peek symaddr)
    end
  else
    (* It's a number - convert it *)
    let r := atoi text1 in
    ret (0, if isptr then peek r else r).

(** ** parse_cmdline *)

(** The search for the command named by the first word.  The descriptor that
    is returned is left locked. *)
Fixpoint parse_cmdline_find (cmdline : list Z) (start end_ : Z)
    (cur : list Z) : M (option Z) :=
  match cur with
  | [] => ret None
  | hlp :: next =>
      spinlock_lock hlp ;;
      do h <- get_cmd hlp ;;
      if strncmp (name h) (drop (Z.to_nat start) cmdline)
           (Z.to_nat (Z.max (strlen (name h)) (wrap (wrap (end_ - start) + 1))))
         =? 0
      then ret (Some hlp)
      else
        spinlock_unlock hlp ;;
        parse_cmdline_find cmdline start end_ next
  end.

(** The body of the argument loop after the word was found: the [switch] on
    the declared type.  It gives the value of [error]. *)
Definition parse_cmdline_convert (cmdline : list Z) (cmd i start end_ : Z) :
    M Z :=
  do a <- get_arg cmd i ;;
  match type a with
  | ARG_TYPE_STRING =>
      do buf <-
        lift (strncpy (buffer a) (from_string (drop (Z.to_nat start) cmdline))
                (Z.min (wrap (wrap (end_ - start) + 2)) (len a))) ;;
      do buf' <-
        lift (store buf
                (Z.min (wrap (wrap (end_ - start) + 1)) (wrap (len a - 1))) 0) ;;
      put_arg cmd i (set_buffer buf' a) ;;
      ret 0
  | ARG_TYPE_INT =>
      do r <- parse_int_arg (drop (Z.to_nat start) cmdline)
                (wrap (wrap (end_ - start) + 1)) (intval a) ;;
      put_arg cmd i (set_intval (snd r) a) ;;
      ret (if fst r =? 0 then 0 else 1)
  | ARG_TYPE_VAR =>
      if negb (start =? end_)
         && (char_at cmdline (Z.to_nat start) =? 34)
         && (char_at cmdline (Z.to_nat end_) =? 34)
      then
        do buf <-
          lift (strncpy (buffer a)
                  (from_string (drop (Z.to_nat (wrap (start + 1))) cmdline))
                  (Z.min (wrap (end_ - start)) (len a))) ;;
        do buf' <-
          lift (store buf
                  (Z.min (wrap (end_ - start)) (wrap (len a - 1))) 0) ;;
        put_arg cmd i
          (set_vartype ARG_TYPE_STRING
             (set_intval (buffer_addr a) (set_buffer buf' a))) ;;
        ret 0
      else
        do r <- parse_int_arg (drop (Z.to_nat start) cmdline)
                  (wrap (wrap (end_ - start) + 1)) (intval a) ;;
        if fst r =? 0 then
          put_arg cmd i (set_vartype ARG_TYPE_INT (set_intval (snd r) a)) ;;
          ret 0
        else
          put_arg cmd i (set_intval (snd r) a) ;;
          print msg_unrecognized_variable_argument ;;
          ret 1
  | ARG_TYPE_INVALID =>
      print msg_invalid_argument_type ;;
      ret 1
  end.

(** The argument loop, [fuel] declared arguments from index [i] on.  [None]:
    the function returned NULL from inside the loop; [Some (end, error)]: the
    loop ran out with these values. *)
Fixpoint parse_cmdline_args (cmdline : list Z) (len cmd : Z) (fuel : nat)
    (i end_ error : Z) : M (option (Z * Z)) :=
  match fuel with
  | O => ret (Some (end_, error))
  | S fuel' =>
      let '(found, start', end') :=
        parse_argument cmdline len (wrap (end_ + 1)) in
      if negb found then
        print msg_too_few_arguments ;;
        spinlock_unlock cmd ;;
        ret None
      else
        do error' <- parse_cmdline_convert cmdline cmd i start' end' ;;
        parse_cmdline_args cmdline len cmd fuel' (i + 1) end' error'
  end.

(** [parse_cmdline(cmdline, len)]: NULL or the address of the descriptor. *)
Definition parse_cmdline (cmdline : list Z) (len : Z) : M (option Z) :=
  let '(found, start, end_) := parse_argument cmdline len 0 in
  if negb found then
    (* Command line did not contain alphanumeric word. *)
    ret None
  else
    spinlock_lock_cmd_lock ;;
    do l <- gets cmd_head ;;
    do r <- parse_cmdline_find cmdline start end_ l ;;
    spinlock_unlock_cmd_lock ;;
    match r with
    | None =>
        (* Unknown command. *)
        print msg_unknown_command ;;
        ret None
    | Some cmd =>
        (* cmd == hlp is locked *)
        do d <- get_cmd cmd ;;
        do a <- parse_cmdline_args cmdline len cmd (Z.to_nat (argc d)) 0 end_ 0 ;;
        match a with
        | None => ret None
        | Some (end1, error) =>
            if negb (error =? 0) then
              spinlock_unlock cmd ;;
              ret None
            else
              let '(extra, _, _) :=
                parse_argument cmdline len (wrap (end1 + 1)) in
              if extra then
                print msg_too_many_arguments ;;
                spinlock_unlock cmd ;;
                ret None
              else
                spinlock_unlock cmd ;;
                ret (Some cmd)
        end
    end.

(** ** The line editor *)

Definition load_history (i : Z) : M Z :=
  do h <- gets history ;; lift (load h i).
Definition store_history (i c : Z) : M unit :=
  do h <- gets history ;;
  do h' <- lift (store h i c) ;;
  modify (set_history h').
Definition strlen_history (off : Z) : M Z :=
  do h <- gets history ;; lift (strlen_at h off).

Definition load_tmp (i : Z) : M Z :=
  do t <- gets tmp ;; lift (load t i).
Definition store_tmp (i c : Z) : M unit :=
  do t <- gets tmp ;;
  do t' <- lift (store t i c) ;;
  modify (set_tmp t').
Definition strlen_tmp : M Z :=
  do t <- gets tmp ;; lift (strlen_at t 0).

Definition load_output (i : Z) : M Z :=
  do o <- gets output ;; lift (load o i).
Definition store_output (i c : Z) : M unit :=
  do o <- gets output ;;
  do o' <- lift (store o i c) ;;
  modify (set_output o').

(** [_getc(input)] *)
Definition _getc : M Z := fun s =>
  match stdin s with
  | [] => Err InputExhausted
  | c :: rest => Ok (c, set_stdin rest s)
  end.

(** Print count times a character *)
Definition rdln_print_c (ch : Z) (count : Z) : M unit :=
  print (repeat ch (Z.to_nat count)).

(** [for (i = from; i < to; i++) putchar(str[i]);] on the history. *)
Definition put_range (str from to : Z) : M unit :=
  for_up (Z.to_nat (to - from)) from
    (fun i => do c <- load_history (str + i) ;; putchar c).

(** [printf("%s", str)] for a string in the history. *)
Definition put_string (str : Z) : M unit :=
  do n <- strlen_history str ;; put_range str 0 n.

(** The loop of [insert_char], [for (; i > pos; i--) str[i] = str[i - 1];],
    with [fuel] the number of passes [i - pos]. *)
Fixpoint insert_char_shift (str : Z) (fuel : nat) (i : Z) : M unit :=
  match fuel with
  | O => ret tt
  | S fuel' =>
      do c <- load_history (str + (i - 1)) ;;
      store_history (str + i) c ;;
      insert_char_shift str fuel' (i - 1)
  end.

(** Insert character to string *)
Definition insert_char (str ch pos : Z) : M unit :=
  do n <- strlen_history str ;;
  insert_char_shift str (Z.to_nat (n - pos)) n ;;
  store_history (str + pos) ch.

(** *** Command completion *)

(** [cmdtab_search_one(name, &startpos)].  The cursor [startpos] is [None]
    for NULL and otherwise the links from [*startpos] to the list head.  The
    result is the rest of the name found, and the cursor. *)
Fixpoint cmdtab_search_scan (name0 : list Z) (cur : list Z) :
    M (option (list Z) * list Z) :=
  match cur with
  | [] => ret (None, [])
  | hlp :: next =>
      do h <- get_cmd hlp ;;
      let curname := name h in
      let namelen := strlen name0 in
      if strlen curname <? namelen then cmdtab_search_scan name0 next
      else if strncmp curname name0 (Z.to_nat namelen) =? 0
      then ret (Some (drop (Z.to_nat namelen) curname), cur)
      else cmdtab_search_scan name0 next
  end.

Definition cmdtab_search_one (name0 : list Z) (startpos : option (list Z)) :
    M (option (list Z) * list Z) :=
  spinlock_lock_cmd_lock ;;
  do l <- gets cmd_head ;;
  do r <- cmdtab_search_scan name0 (default l startpos) ;;
  spinlock_unlock_cmd_lock ;;
  ret r.

(** [for (i = 0; output[i] && foundtxt[i] && output[i] == foundtxt[i]; i++);] *)
Fixpoint common_prefix_scan (foundtxt : list Z) (fuel : nat) (i : Z) : M Z :=
  do o <- load_output i ;;
  let f := char_at foundtxt (Z.to_nat i) in
  if negb (o =? 0) && negb (f =? 0) && (o =? f) then
    match fuel with
    | O => fail OutOfBounds
    | S fuel' => common_prefix_scan foundtxt fuel' (i + 1)
    end
  else ret i.

(** The first loop of [cmdtab_compl]; it gives [found]. *)
Fixpoint cmdtab_compl_collect (name0 : list Z) (fuel : nat)
    (startpos : option (list Z)) (found : Z) : M Z :=
  match fuel with
  | O => ret found
  | S fuel' =>
      do r <- cmdtab_search_one name0 startpos ;;
      match r with
      | (None, _) => ret found
      | (Some foundtxt, cur) =>
          (if found =? 0 then
             do o <- gets output ;;
             do o' <- lift (strncpy o (from_string foundtxt)
                              (wrap (strlen foundtxt + 1))) ;;
             modify (set_output o')
           else
             do o <- gets output ;;
             do i <- common_prefix_scan foundtxt (length o) 0 ;;
             store_output i 0) ;;
          cmdtab_compl_collect name0 fuel' (Some (tail cur)) (found + 1)
      end
  end.

(** The second loop of [cmdtab_compl]: the table of the candidates. *)
Fixpoint cmdtab_compl_list (name0 : list Z) (fuel : nat)
    (startpos : option (list Z)) : M unit :=
  match fuel with
  | O => ret tt
  | S fuel' =>
      do r <- cmdtab_search_one name0 startpos ;;
      match r with
      | (None, _) => ret tt
      | (Some _, cur) =>
          do hlp <- get_cmd (default 0 (head cur)) ;;
          print (cstr (name hlp) ++ chars " - " ++ cstr (description hlp)
                 ++ [10]) ;;
          cmdtab_compl_list name0 fuel' (Some (tail cur))
      end
  end.

(** Command completion of the commands, on the buffer [tmp]. *)
Definition cmdtab_compl : M Z :=
  store_output 0 0 ;;
  strlen_tmp ;;
  do t <- gets tmp ;;
  let name0 := cstr t in
  do l <- gets cmd_head ;;
  do found <- cmdtab_compl_collect name0 (S (length l)) None 0 ;;
  if found =? 0 then ret 0
  else
    (if 1 <? found then
       do o <- gets output ;;
       do olen <- lift (strlen_at o 0) ;;
       if olen =? 0 then
         print [10] ;;
         cmdtab_compl_list name0 (S (length l)) None
       else ret tt
     else ret tt) ;;
    do o <- gets output ;;
    do t' <- lift (strncpy t (load o) 128) ;;
    modify (set_tmp t') ;;
    ret found.

(** *** clever_readline *)

(** The locals of [clever_readline] that live across iterations; [current]
    is the offset of [history[histposition]] in [history]. *)
Record rl_vars : Type := mk_rl_vars {
  current : Z;
  curlen : Z;
  position : Z
}.

Inductive rl_next : Type :=
  | Continue (v : rl_vars)   (* back to the head of [while (1)] *)
  | Break (v : rl_vars).     (* the newline *)

(** Move to the end of the word: [for (; position < curlen &&
    current[position] != ' '; position++) putchar(current[position]);] with
    [fuel] the distance to [curlen]. *)
Fixpoint rl_word_end (cur : Z) (fuel : nat) (pos : Z) : M Z :=
  match fuel with
  | O => ret pos
  | S fuel' =>
      do c <- load_history (cur + pos) ;;
      if negb (c =? 32) then putchar c ;; rl_word_end cur fuel' (pos + 1)
      else ret pos
  end.

(** [for (i = position - 1; i >= 0 && current[i] != ' '; i--);] *)
Fixpoint rl_word_start (cur : Z) (fuel : nat) (i : Z) : M Z :=
  match fuel with
  | O => ret i
  | S fuel' =>
      do c <- load_history (cur + i) ;;
      if negb (c =? 32) then rl_word_start cur fuel' (i - 1) else ret i
  end.

(** [for (i = 1; tmp[i]; i++) tmp[i - 1] = tmp[i];] *)
Fixpoint rl_skip_sigil (fuel : nat) (i : Z) : M Z :=
  do c <- load_tmp i ;;
  if c =? 0 then ret i
  else
    match fuel with
    | O => fail OutOfBounds
    | S fuel' => store_tmp (i - 1) c ;; rl_skip_sigil fuel' (i + 1)
    end.

(** [for (i = 0; tmp[i] && curlen < MAX_CMDLINE; i++, curlen++)
       insert_char(current, tmp[i], i + position);] giving [curlen]. *)
Fixpoint rl_insert_hint (cur pos : Z) (fuel : nat) (i len : Z) : M Z :=
  do c <- load_tmp i ;;
  if negb (c =? 0) && (len <? MAX_CMDLINE) then
    match fuel with
    | O => ret len
    | S fuel' =>
        insert_char cur c (i + pos) ;;
        rl_insert_hint cur pos fuel' (i + 1) (len + 1)
    end
  else ret len.

(** The tabulator. *)
Definition rl_tab (prompt : list Z) (v : rl_vars) : M rl_next :=
  let cur := current v in
  do position1 <-
    rl_word_end cur (Z.to_nat (curlen v - position v)) (position v) ;;
  (* Copy to tmp last word *)
  do i1 <- rl_word_start cur (Z.to_nat position1) (position1 - 1) ;;
  (* If word begins with * or &, skip it *)
  do t0 <- load_tmp 0 ;;
  do i2 <-
    (if (t0 =? 42) || (t0 =? 38) then
       do t <- gets tmp ;; rl_skip_sigil (length t) 1
     else ret i1) ;;
  let i3 := i2 + 1 in (* I is at the start of the word *)
  do t <- gets tmp ;;
  do t' <- (fun s => lift (strncpy t (fun j => load (history s) (cur + i3 + j))
                             (wrap (position1 - i3 + 1))) s) ;;
  modify (set_tmp t') ;;
  do found <-
    (if i3 =? 0 then cmdtab_compl (* Command completion *)
     else
       (* Symtab completion *)
       do t <- gets tmp ;;
       let '(found, t', printed) := symtab_compl t in
       print printed ;;
       modify (set_tmp t') ;;
       ret found) ;;
  if found =? 0 then ret (Continue (mk_rl_vars cur (curlen v) position1))
  else
    do curlen1 <-
      rl_insert_hint cur position1 (Z.to_nat (MAX_CMDLINE - curlen v)) 0
        (curlen v) ;;
    do hint <- strlen_tmp ;;
    if negb (hint =? 0) || (found =? 1) then
      (* If we have a hint *)
      put_range cur position1 curlen1 ;;
      let position2 := position1 + hint in
      (* Add space to end *)
      if (found =? 1) && (position2 =? curlen1) && (curlen1 <? MAX_CMDLINE)
      then
        store_history (cur + position2) 32 ;;
        putchar 32 ;;
        rdln_print_c 8 ((curlen1 + 1) - (position2 + 1)) ;;
        ret (Continue (mk_rl_vars cur (curlen1 + 1) (position2 + 1)))
      else
        rdln_print_c 8 (curlen1 - position2) ;;
        ret (Continue (mk_rl_vars cur curlen1 position2))
    else
      (* No hint, table was printed *)
      print (cstr prompt ++ chars "> ") ;;
      put_range cur 0 curlen1 ;;
      let position2 := position1 + hint in
      rdln_print_c 8 (curlen1 - position2) ;;
      ret (Continue (mk_rl_vars cur curlen1 position2)).

(** The special commands, entered after ESC was read. *)
Definition rl_escape (v : rl_vars) : M rl_next :=
  let cur := current v in
  do mod_ <- _getc ;;
  do c <- _getc ;;
  if negb (mod_ =? 91) && negb (mod_ =? 79) then ret (Continue v)
  else
    do is_delete <-
      (if c =? 51 then do c' <- _getc ;; ret (c' =? 126) else ret false) ;;
    if is_delete then
      (* Delete *)
      if position v =? curlen v then ret (Continue v)
      else
        for_up (Z.to_nat (curlen v - (position v + 1))) (position v + 1)
          (fun i =>
             do x <- load_history (cur + i) ;;
             putchar x ;;
             do y <- load_history (cur + i) ;;
             store_history (cur + (i - 1)) y) ;;
        putchar 32 ;;
        rdln_print_c 8 (curlen v - position v) ;;
        ret (Continue (mk_rl_vars cur (curlen v - 1) (position v)))
    else if c =? 72 then
      (* Home *)
      rdln_print_c 8 (position v) ;;
      ret (Continue (mk_rl_vars cur (curlen v) 0))
    else if c =? 70 then
      (* End *)
      put_range cur (position v) (curlen v) ;;
      ret (Continue (mk_rl_vars cur (curlen v) (curlen v)))
    else if c =? 68 then
      (* Left *)
      if 0 <? position v then
        putchar 8 ;;
        ret (Continue (mk_rl_vars cur (curlen v) (position v - 1)))
      else ret (Continue v)
    else if c =? 67 then
      (* Right *)
      if position v <? curlen v then
        do x <- load_history (cur + position v) ;;
        putchar x ;;
        ret (Continue (mk_rl_vars cur (curlen v) (position v + 1)))
      else ret (Continue v)
    else if (c =? 65) || (c =? 66) then
      (* Up, down *)
      rdln_print_c 8 (position v) ;;
      rdln_print_c 32 (curlen v) ;;
      rdln_print_c 8 (curlen v) ;;
      do hp <- gets histposition ;;
      let hp1 := if c =? 65 then hp - 1 else hp + 1 in
      let hp2 := if hp1 <? 0 then KCONSOLE_HISTORY - 1
                 else Z.rem hp1 KCONSOLE_HISTORY in
      modify (set_histposition hp2) ;;
      let cur' := hp2 * MAX_CMDLINE in
      put_string cur' ;;
      do n <- strlen_history cur' ;;
      ret (Continue (mk_rl_vars cur' n n))
    else ret (Continue v).

(** One pass through the body of [while (1)]. *)
Definition rl_iteration (prompt : list Z) (v : rl_vars) : M rl_next :=
  let cur := current v in
  do c <- _getc ;;
  if c =? 10 then
    putchar c ;;
    ret (Break v)
  else if c =? 8 then
    (* Backspace *)
    if position v =? 0 then ret (Continue v)
    else
      for_up (Z.to_nat (curlen v - position v)) (position v)
        (fun i =>
           do x <- load_history (cur + i) ;; store_history (cur + (i - 1)) x) ;;
      let curlen1 := curlen v - 1 in
      let position1 := position v - 1 in
      putchar 8 ;;
      put_range cur position1 curlen1 ;;
      putchar 32 ;;
      rdln_print_c 8 (curlen1 - position1 + 1) ;;
      ret (Continue (mk_rl_vars cur curlen1 position1))
  else if c =? 9 then rl_tab prompt v
  else if c =? 27 then rl_escape v
  else if MAX_CMDLINE <=? curlen v then ret (Continue v)
  else
    insert_char cur c (position v) ;;
    let curlen1 := curlen v + 1 in
    put_range cur (position v) curlen1 ;;
    let position1 := position v + 1 in
    rdln_print_c 8 (curlen1 - position1) ;;
    ret (Continue (mk_rl_vars cur curlen1 position1)).

(** The locals on entry: [current = history[histposition]]. *)
Definition rl_enter (prompt : list Z) : M rl_vars :=
  do hp <- gets histposition ;;
  print (cstr prompt ++ chars "> ") ;;
  ret (mk_rl_vars (hp * MAX_CMDLINE) 0 0).

(** At most [n] passes through the loop, stopping at the newline. *)
Fixpoint rl_iterate (prompt : list Z) (n : nat) (v : rl_vars) : M rl_next :=
  match n with
  | O => ret (Continue v)
  | S n' =>
      do r <- rl_iteration prompt v ;;
      match r with
      | Continue v' => rl_iterate prompt n' v'
      | Break v' => ret (Break v')
      end
  end.

(** What follows the loop; the pointer returned is an offset in [history]. *)
Definition rl_leave (v : rl_vars) : M Z :=
  (if negb (curlen v =? 0) then
     do hp <- gets histposition ;;
     modify (set_histposition (Z.rem (hp + 1) KCONSOLE_HISTORY))
   else ret tt) ;;
  store_history (current v + curlen v) 0 ;;
  ret (current v).

(** Every pass reads at least one byte, so one pass more than there are
    bytes waiting is enough to meet the newline or to block. *)
Definition clever_readline (prompt : list Z) : M Z :=
  do v <- rl_enter prompt ;;
  do n <- gets (fun s => length (stdin s)) ;;
  do r <- rl_iterate prompt (S n) v ;;
  match r with
  | Break v' => rl_leave v'
  | Continue _ => fail InputExhausted
  end.

(** ** kconsole *)

(** The end of a pass through the loop of [kconsole]: the line is parsed
    and the handler of the command is called. *)
Definition kconsole_dispatch (cmdline : list Z) (len : Z) : M unit :=
  do cmd_info <- parse_cmdline cmdline len ;;
  match cmd_info with
  | None => ret tt
  | Some cmd =>
      do d <- get_cmd cmd ;;
      call_handler (func d) (argv d) ;;
      ret tt
  end.

(** One pass through the loop of [kconsole] after the greeting; [false] when
    the loop is left. *)
Definition kconsole_iteration (prompt : list Z) (kcon : bool) : M bool :=
  do cmdline_at <- clever_readline prompt ;;
  do len <- strlen_history cmdline_at ;;
  do h <- gets history ;;
  let cmdline := drop (Z.to_nat cmdline_at) h in
  if len =? 0 then ret true
  else if negb kcon && (len =? 4) && (strncmp cmdline (chars "exit") 4 =? 0)
  then ret false
  else
    kconsole_dispatch cmdline len ;;
    ret true.

(** Initialize kconsole data structures.  [cmd_init] belongs to cmd.c, where
    the built-in commands are registered; it is a parameter here. *)
Definition kconsole_init (cmd_init : M unit) : M unit :=
  cmd_init ;;
  for_up (Z.to_nat KCONSOLE_HISTORY) 0
    (fun i => store_history (i * MAX_CMDLINE) 0).

(** The statics as the kernel image has them: all zero, no command linked. *)
Definition statics_at_boot : kstate :=
  mk_kstate false [] ∅
    (repeat 0 (Z.to_nat (KCONSOLE_HISTORY * MAX_CMDLINE)))
    0
    (repeat 0 (Z.to_nat (MAX_CMDLINE + 1)))
    (repeat 0 129)
    (repeat 0 (Z.to_nat MAX_SYMBOL_NAME))
    [] [].

(** What [kconsole] prints first when the console can be left. *)
Definition msg_type_exit : list Z :=
  chars "Type " ++ [34] ++ chars "exit" ++ [34]
  ++ chars " to leave the console." ++ [10].

(** The [while (true)] of [kconsole], at most [fuel] lines; [true] when the
    loop was left with [break], [false] when it is still running. *)
Fixpoint kconsole_loop (prompt : list Z) (kcon : bool) (fuel : nat) : M bool :=
  match fuel with
  | O => ret false
  | S fuel' =>
      do again <- kconsole_iteration prompt kcon ;;
      if again then kconsole_loop prompt kcon fuel' else ret true
  end.

(** [kconsole(prompt, msg, kcon)].  [dev] tells whether the pointer [stdin]
    is set, [LOG] is the logging macro of debug.h, [msg] is [None] for the
    NULL pointer.  The result is [true] when the function returned. *)
Definition kconsole (dev : bool) (LOG : list Z -> M unit) (prompt : list Z)
    (msg : option (list Z)) (kcon : bool) (fuel : nat) : M bool :=
  if negb dev then
    LOG (chars "No stdin for kernel console") ;;
    ret true
  else
    match msg with
    | Some text => print (cstr text)
    | None => ret tt
    end ;;
    (if kcon then _getc ;; ret tt else print msg_type_exit) ;;
    kconsole_loop prompt kcon fuel.

(** Kernel console managing thread. *)
Definition kconsole_thread (dev : bool) (LOG : list Z -> M unit)
    (fuel : nat) : M bool :=
  kconsole dev LOG (chars "kconsole")
    (Some (chars "Kernel console ready (press any key to activate)" ++ [10]))
    true fuel.

(** * Specification vocabulary *)

(** ** The registry *)

(** Every pointer the scan follows leads to a descriptor whose lock is
    free, and nobody holds the list lock. *)
Definition unlocked_at (s : kstate) (a : Z) : Prop :=
  exists d, cmds s !! a = Some d /\ lock d = false.

Definition registry_ready (s : kstate) (cmd : Z) : Prop :=
  cmd_lock s = false /\ unlocked_at s cmd /\ Forall (unlocked_at s) (cmd_head s).

(** [hlp] stops the scan for [cmd]: it is [cmd] itself or bears its name. *)
Definition clashes (s : kstate) (cmd hlp : Z) : bool :=
  (hlp =? cmd) ||
  match cmds s !! hlp, cmds s !! cmd with
  | Some h, Some c =>
      strncmp (name h) (name c)
        (Z.to_nat (Z.max (strlen (name c)) (strlen (name h)))) =? 0
  | _, _ => false
  end.

(** ** The command line *)

(** The number of words of a line: runs of bytes that are not [isspace].
    [in_word] tells whether the byte before was part of a word. *)
Fixpoint count_words (in_word : bool) (l : list Z) : nat :=
  match l with
  | [] => O
  | c :: l' =>
      if isspace c then count_words false l'
      else ((if in_word then 0 else 1) + count_words true l')%nat
  end.

(** The words of [cmdline] from index [i] up to [len]. *)
Definition words_from (cmdline : list Z) (len i : Z) : nat :=
  count_words false (drop (Z.to_nat i) (take (Z.to_nat len) cmdline)).

(** The state with the lock of the descriptor at [a] taken, or free. *)
Definition hold (a : Z) (s : kstate) : kstate :=
  set_cmds (alter (set_lock true) a (cmds s)) s.
Definition release (a : Z) (s : kstate) : kstate :=
  set_cmds (alter (set_lock false) a (cmds s)) s.

(** The comparison of [parse_cmdline]: the descriptor at [hlp] against the
    word of [cmdline] from [start] to [end_]. *)
Definition names_word (s : kstate) (cmdline : list Z) (start end_ : Z)
    (hlp : Z) : bool :=
  match cmds s !! hlp with
  | Some h =>
      strncmp (name h) (drop (Z.to_nat start) cmdline)
        (Z.to_nat (Z.max (strlen (name h)) (wrap (wrap (end_ - start) + 1))))
      =? 0
  | None => false
  end.

(** What the conversions need of a declared argument: a string is copied
    into a buffer of at least [len] bytes, [len] being at least one. *)
Definition arg_shape (a : cmd_arg) : cmd_arg_type * nat * Z :=
  (type a, length (buffer a), len a).

Definition shape_ok (sh : cmd_arg_type * nat * Z) : Prop :=
  match sh with
  | (ARG_TYPE_STRING, n, l) | (ARG_TYPE_VAR, n, l) =>
      1 <= l <= Z.of_nat n /\ l < 2 ^ word_bits
  | _ => True
  end.

Definition schema_ok (d : cmd_info) : Prop :=
  0 <= argc d <= Z.of_nat (length (argv d)) /\
  Forall shape_ok (map arg_shape (argv d)).

(** Two views of a descriptor that differ in the values of its arguments
    only. *)
Definition same_shape (d d' : cmd_info) : Prop :=
  lock d' = lock d /\ name d' = name d /\ description d' = description d /\
  func d' = func d /\ argc d' = argc d /\
  map arg_shape (argv d') = map arg_shape (argv d).

(** What the conversion of the arguments of the descriptor at [cmd] may
    change: the values of these arguments, [symname], and the console, which
    grows. *)
Definition converted (cmd : Z) (s s' : kstate) : Prop :=
  cmd_lock s' = cmd_lock s /\
  cmd_head s' = cmd_head s /\
  (forall a, a <> cmd -> cmds s' !! a = cmds s !! a) /\
  (exists d d', cmds s !! cmd = Some d /\ cmds s' !! cmd = Some d' /\
                same_shape d d') /\
  length (symname s') = length (symname s) /\
  (exists out, console s' = console s ++ out).

(** A state in which [parse_cmdline] can run: no lock is held, every linked
    descriptor is there with a sound schema, and [symname] has its size. *)
Definition linked_ok (s : kstate) (a : Z) : Prop :=
  exists d, cmds s !! a = Some d /\ lock d = false /\ schema_ok d.

Definition parser_ready (s : kstate) : Prop :=
  cmd_lock s = false /\
  Forall (linked_ok s) (cmd_head s) /\
  1 <= MAX_SYMBOL_NAME <= Z.of_nat (length (symname s)).

(** The state after [text] was printed. *)
Definition printed (text : list Z) (s : kstate) : kstate :=
  set_console (console s ++ text) s.

(** The locks of [s'] are as they are in [s]. *)
Definition locks_as (s s' : kstate) : Prop :=
  cmd_lock s' = cmd_lock s /\
  forall a, lock <$> (cmds s' !! a) = lock <$> (cmds s !! a).

(** ** The line editor *)

(** The bounds of the line buffer: caret, length, capacity. *)
Definition rl_bounds (v : rl_vars) : Prop :=
  0 <= position v <= curlen v /\ curlen v <= MAX_CMDLINE.

(** The locals carried to the next point of observation. *)
Definition rl_vars_of (r : rl_next) : rl_vars :=
  match r with
  | Continue v => v
  | Break v => v
  end.

(** The string at [off] in the history. *)
Definition history_string (s : kstate) (off : Z) : list Z :=
  cstr (drop (Z.to_nat off) (history s)).

(** What the editor does to the ring: [s'] differs from [s] at most in the
    console. *)
Definition same_ring (s s' : kstate) : Prop :=
  history s' = history s /\ histposition s' = histposition s /\
  stdin s' = stdin s.

(** A byte the operator types into the line: no NUL and no editing key. *)
Definition plain (c : Z) : Prop :=
  c <> 0 /\ c <> 10 /\ c <> 8 /\ c <> 9 /\ c <> 27.

(** A line typed from left to right that leaves room for its terminator. *)
Definition short_line (l : list Z) : Prop :=
  Forall plain l /\ l <> [] /\ Z.of_nat (length l) < MAX_CMDLINE.

(** Row [k] of [history] spells [w] and is zero behind it. *)
Definition row_holds (h : list Z) (k : Z) (w : list Z) : Prop :=
  forall j : Z, 0 <= j < MAX_CMDLINE ->
    load h (k * MAX_CMDLINE + j) = Ok (char_at w (Z.to_nat j)).

(** The keys of the line editor. *)
Definition key_enter : list Z := [10].
Definition key_up : list Z := [27; 91; 65].

(** [n] sessions of the line editor, one after the other. *)
Fixpoint submit (prompt : list Z) (n : nat) : M unit :=
  match n with
  | O => ret tt
  | S n' => clever_readline prompt ;; submit prompt n'
  end.

(** The keys of the lines [ls], each one submitted with the newline. *)
Definition typed (ls : list (list Z)) : list Z :=
  concat (map (fun l => l ++ key_enter) ls).

(** The key "previous", [j] times. *)
Definition previous (j : nat) : list Z := concat (repeat key_up j).

(** The rows of the ring hold the lines [ls], the first one in row 0, and
    the other rows are empty. *)
Definition ring_holds (s : kstate) (ls : list (list Z)) : Prop :=
  forall k : Z, 0 <= k < KCONSOLE_HISTORY ->
    row_holds (history s) k (nth (Z.to_nat k) ls []).

(** A computation that leaves the history cursor where it is. *)
Definition keeps_histposition {A} (m : M A) : Prop :=
  forall s a s', m s = Ok (a, s') -> histposition s' = histposition s.

(** A pass through the loop that ends with [current] on the row of the
    history cursor, when it started with the cursor at [h]. *)
Definition on_cursor_row (h : Z) (m : M rl_next) : Prop :=
  forall s r s', histposition s = h -> m s = Ok (r, s') ->
    current (rl_vars_of r) = histposition s' * MAX_CMDLINE.


(** ** Words and names *)

(** The bytes of [cmdline] from index [start] to index [end_]. *)
Definition word_at (cmdline : list Z) (start end_ : Z) : list Z :=
  take (Z.to_nat (end_ - start + 1)) (drop (Z.to_nat start) cmdline).

(** A name that is one word. *)
Definition one_word (w : list Z) : Prop :=
  Forall (fun c => isspace c = false) w.

(** No descriptor is linked twice and no two linked descriptors bear the
    same name. *)
Definition names_distinct (s : kstate) : Prop :=
  NoDup (cmd_head s) /\
  forall a b h h', a ∈ cmd_head s -> b ∈ cmd_head s -> a <> b ->
    cmds s !! a = Some h -> cmds s !! b = Some h' ->
    cstr (name h) <> cstr (name h').

(** ** The line being edited *)

(** The line under the caret: the first [curlen] bytes at [current]. *)
Definition line_of (s : kstate) (v : rl_vars) : list Z :=
  take (Z.to_nat (curlen v)) (drop (Z.to_nat (current v)) (history s)).

(** The editor at work on row [k], which spells [w] and is zero behind it:
    the line is made of the first [curlen] bytes of [w], the caret is in the
    line, and the row has room for a terminator. *)
Definition editing (s : kstate) (k : Z) (w : list Z) (v : rl_vars) : Prop :=
  0 <= k /\ current v = k * MAX_CMDLINE /\
  row_holds (history s) k w /\ Forall (fun c => c <> 0) w /\
  0 <= position v <= curlen v /\ curlen v <= Z.of_nat (length w) /\
  Z.of_nat (length w) < MAX_CMDLINE.

(** What the operator sees: the line and the caret in it. *)
Definition view (s : kstate) (v : rl_vars) : list Z * nat :=
  (line_of s v, Z.to_nat (position v)).

(** The bytes of the history outside row [k] are in [h'] as in [h]. *)
Definition other_rows_kept (k : Z) (h h' : list Z) : Prop :=
  forall x, 0 <= x ->
    ~ (k * MAX_CMDLINE <= x < (k + 1) * MAX_CMDLINE) -> load h' x = load h x.

(** What the line editor never touches: the registry and the buffers of
    the parser and of the completion. *)
Definition editor_only (s s' : kstate) : Prop :=
  s' = set_console (console s')
         (set_stdin (stdin s')
            (set_histposition (histposition s')
               (set_history (history s') s))).

(** The keys that edit the line, and the bytes the terminal sends for
    them. *)
Inductive edit_key : Type :=
  | KeyChar (c : Z)
  | KeyBackspace
  | KeyDelete
  | KeyHome
  | KeyEnd
  | KeyLeft
  | KeyRight.

Definition key_bytes (k : edit_key) : list Z :=
  match k with
  | KeyChar c => [c]
  | KeyBackspace => [8]
  | KeyDelete => [27; 91; 51; 126]
  | KeyHome => [27; 91; 72]
  | KeyEnd => [27; 91; 70]
  | KeyLeft => [27; 91; 68]
  | KeyRight => [27; 91; 67]
  end.

(** A byte can be typed into the line when it is no NUL and no key of its
    own. *)
Definition key_ok (k : edit_key) : Prop :=
  match k with
  | KeyChar c => plain c
  | _ => True
  end.

(** What a key is to do to a line and the caret in it. *)
Definition edit (k : edit_key) (lc : list Z * nat) : list Z * nat :=
  let '(l, p) := lc in
  match k with
  | KeyChar c => (take p l ++ c :: drop p l, S p)
  | KeyBackspace =>
      match p with
      | O => (l, p)
      | S p' => (take p' l ++ drop p l, p')
      end
  | KeyDelete =>
      if (p <? length l)%nat then (take p l ++ drop (S p) l, p) else (l, p)
  | KeyHome => (l, O)
  | KeyEnd => (l, length l)
  | KeyLeft => (l, pred p)
  | KeyRight => if (p <? length l)%nat then (l, S p) else (l, p)
  end.

(** The keys of a script, in the order they are pressed. *)
Definition script_bytes (keys : list edit_key) : list Z :=
  concat (map key_bytes keys).

Definition edit_all (keys : list edit_key) (lc : list Z * nat) :
    list Z * nat :=
  foldl (fun lc k => edit k lc) lc keys.

(** The row [w] after the bytes from [r + 1] to [b] moved down by one: the
    byte at [r] is gone, the byte at [b] is there twice. *)
Definition shift_left (w : list Z) (r b : nat) : list Z :=
  take r w ++ take (b - r) (drop (S r) w) ++ drop b w.

(** A pass through the loop of the editor on row [k] that does to the line
    what [key] is to do to it, takes the bytes of the key from the input
    and leaves the other rows and the history cursor alone. *)
Definition key_pass (prompt : list Z) (key : edit_key) (k : Z) (w : list Z)
    (v : rl_vars) (s : kstate) (rest : list Z) : Prop :=
  exists s' w' v',
    rl_iteration prompt v s = Ok (Continue v', s') /\
    editing s' k w' v' /\ (length w' <= S (length w))%nat /\
    view s' v' = edit key (view s v) /\
    stdin s' = rest /\ histposition s' = histposition s /\
    other_rows_kept k (history s) (history s') /\ editor_only s s'.

(** ** Completion *)

(** The name of the descriptor at [a] begins with [name0]. *)
Definition begins_with (s : kstate) (name0 : list Z) (a : Z) : Prop :=
  exists d, cmds s !! a = Some d /\ cstr name0 `prefix_of` cstr (name d).

End Kconsole.

(** ** A sample configuration *)

(** Values for what kconsole.c takes from elsewhere, to run the definitions
    on: 64-bit words, the limits of the kernel's headers (lines of 256
    bytes, a history of 10 lines), a four-character [isspace], and a symbol
    table that knows [main] at 4096. *)
Definition sample_isspace (c : Z) : bool :=
  (c =? 32) || (c =? 9) || (c =? 10) || (c =? 13).

Definition sample_symtab_addr_lookup (symname : list Z) : Z * Z :=
  if bool_decide (symname = chars "main") then (0, 4096) else (-1, 0).

Definition sample_symtab_print_search (symname : list Z) : list Z := [].

Definition sample_symtab_compl (name0 : list Z) : Z * list Z * list Z :=
  (0, name0, []).

Fixpoint sample_atoi_from (acc : Z) (text : list Z) : Z :=
  match text with
  | c :: text' =>
      if (48 <=? c) && (c <=? 57)
      then sample_atoi_from (acc * 10 + (c - 48)) text'
      else acc
  | [] => acc
  end.

Definition sample_atoi (text : list Z) : Z := sample_atoi_from 0 text.

Definition sample_peek (a : Z) : Z :=
  if a =? 4096 then 8192 else if a =? 8192 then 7 else 0.

Definition sample_call_handler (f : Z) (args : list cmd_arg) : M Z := ret 0.

Definition sample_int_arg : cmd_arg :=
  mk_cmd_arg ARG_TYPE_INT [] 0 0 0 ARG_TYPE_INVALID.

Definition sample_cmd (nm : string) (args : list cmd_arg) : cmd_info :=
  mk_cmd_info false (chars nm) (chars "a sample command") 0
    (Z.of_nat (length args)) args.

(** Three descriptors in memory: [dump] at 256, [dumpall] at 512 and [call],
    which declares one integer argument, at 768. *)
Definition sample_cmds : gmap Z cmd_info :=
  {[ 256 := sample_cmd "dump" [];
     512 := sample_cmd "dumpall" [];
     768 := sample_cmd "call" [sample_int_arg] ]}.

Definition sample_platform : platform := {|
  word_bits := 64;
  MAX_CMDLINE := 256;
  KCONSOLE_HISTORY := 10;
  MAX_SYMBOL_NAME := 64;
  ENOENT := -1;
  EOVERFLOW := -15;
  isspace := sample_isspace;
  symtab_addr_lookup := sample_symtab_addr_lookup;
  symtab_print_search := sample_symtab_print_search;
  symtab_compl := sample_symtab_compl;
  atoi := sample_atoi;
  peek := sample_peek;
  call_handler := sample_call_handler
|}.

(** The image at boot with these descriptors and the links [head]. *)
Definition sample_state (head : list Z) : kstate :=
  set_cmd_head head
    (set_cmds sample_cmds (statics_at_boot (P := sample_platform))).


(** A descriptor whose name, 260 times [x], is longer than a line, alone in
    the registry. *)
Definition sample_long_state : kstate :=
  set_cmd_head [1024]
    (set_cmds {[ 1024 := mk_cmd_info false (repeat 120 260)
                           (chars "a sample command") 0 0 [] ]}
       (statics_at_boot (P := sample_platform))).

(** Three short lines. *)
Definition sample_lines : list (list Z) :=
  [chars "dump"; chars "call 42"; chars "dumpall"].

(** A line that fills the buffer, and the keys of two submissions. *)
Definition full_line : list Z := repeat 97 256.

Definition full_line_then_b : list Z :=
  full_line ++ key_enter ++ chars "b" ++ key_enter.

(** Two sessions, then [n] passes through the loop of a third. *)
Definition third_session (n : nat) : M rl_next :=
  clever_readline (P := sample_platform) (chars "kconsole") ;;
  clever_readline (P := sample_platform) (chars "kconsole") ;;
  do v <- rl_enter (P := sample_platform) (chars "kconsole") ;;
  rl_iterate (P := sample_platform) (chars "kconsole") n v.

(** A history that was never cleared, over the three descriptors with
    [head] linked, and a [cmd_init] that registers the three. *)
Definition sample_dirty_state (head : list Z) : kstate :=
  set_history (repeat 7 2560) (sample_state head).

Definition sample_cmd_init : M unit :=
  cmd_register 256 ;; cmd_register 512 ;; cmd_register 768 ;; ret tt.

(** A history that begins with the string [dmp], its terminator, and the
    string [xy]. *)
Definition sample_two_strings : kstate :=
  set_history (chars "dmp" ++ 0 :: chars "xy" ++ repeat 0 2554)
    (statics_at_boot (P := sample_platform)).

(** The three descriptors linked, and the bytes [keys] waiting at the input
    device. *)
Definition sample_console (keys : list Z) : kstate :=
  set_stdin keys (sample_state [256; 512; 768]).


(** The same with [ex], which no sample command begins with. *)
Definition sample_tab_miss_state : kstate :=
  set_history (chars "ex" ++ repeat 0 2558) (sample_console [9]).


(** A descriptor [set] at 1280 that takes a string and then a string or a
    number, each in a buffer of 8 bytes. *)
Definition sample_string_arg : cmd_arg :=
  mk_cmd_arg ARG_TYPE_STRING (repeat 0 8) 4096 8 0 ARG_TYPE_INVALID.

Definition sample_var_arg : cmd_arg :=
  mk_cmd_arg ARG_TYPE_VAR (repeat 0 8) 8192 8 0 ARG_TYPE_INVALID.

Definition sample_set_state : kstate :=
  set_cmd_head [1280]
    (set_cmds {[ 1280 := sample_cmd "set" [sample_string_arg; sample_var_arg] ]}
       (statics_at_boot (P := sample_platform))).

(** The keys that make [dump] out of [dm], [u] put in between, [px] behind
    and [x] taken back. *)
Definition sample_keys : list edit_key :=
  [KeyChar 100; KeyChar 109; KeyLeft; KeyChar 117; KeyEnd; KeyChar 112;
   KeyChar 120; KeyBackspace].

(** * Properties *)

Section KconsoleProperties.

Context {P : platform}.

(** ** The string library *)

Lemma cstr_nil_iff (s : list Z) : cstr s = [] <-> char_at s 0 = 0.
Proof.
  destruct s as [|c s]; simpl; [done|].
  unfold char_at; simpl. destruct (Z.eqb_spec c 0); split; intros; congruence.
Qed.

Lemma cstr_cons (s : list Z) :
  char_at s 0 <> 0 -> cstr s = char_at s 0 :: cstr (tail s).
Proof.
  destruct s as [|c s]; unfold char_at; simpl; [done|].
  intros Hc. by destruct (Z.eqb_spec c 0).
Qed.

Lemma strlen_nonneg (s : list Z) : 0 <= strlen s.
Proof. unfold strlen. lia. Qed.

(** Compared over a length that covers both strings, [strncmp] is string
    equality. *)
Lemma strncmp_covering (n : nat) : forall a b : list Z,
  strlen a <= Z.of_nat n -> strlen b <= Z.of_nat n ->
  (strncmp a b n = 0 <-> cstr a = cstr b).
Proof.
  unfold strlen.
  induction n as [|n IH]; intros a b Ha Hb.
  - simpl. destruct (cstr a), (cstr b); simpl in *; try lia. done.
  - simpl strncmp.
    destruct (Z.eqb_spec (char_at a 0) 0) as [Ea|Ea];
      destruct (Z.eqb_spec (char_at b 0) 0) as [Eb|Eb]; simpl.
    + rewrite Ea, Eb. simpl.
      apply cstr_nil_iff in Ea, Eb. by rewrite Ea, Eb.
    + destruct (Z.eqb_spec (char_at a 0) (char_at b 0)); [congruence|].
      apply cstr_nil_iff in Ea. rewrite Ea, (cstr_cons b Eb). done.
    + destruct (Z.eqb_spec (char_at a 0) (char_at b 0)); [congruence|].
      apply cstr_nil_iff in Eb. rewrite Eb, (cstr_cons a Ea). done.
    + rewrite (cstr_cons a Ea), (cstr_cons b Eb) in *. simpl in Ha, Hb.
      destruct (Z.ltb_spec (char_at a 0) (char_at b 0)).
      { split; [done|]. intros [= E _]. lia. }
      destruct (Z.ltb_spec (char_at b 0) (char_at a 0)).
      { split; [done|]. intros [= E _]. lia. }
      rewrite IH by lia.
      split; [intros ->; f_equal; lia | by intros [= _ E]].
Qed.

(** The comparison of [cmd_register], over the longer of the two names. *)
Lemma strncmp_max_eq (a b : list Z) :
  strncmp a b (Z.to_nat (Z.max (strlen b) (strlen a))) = 0 <-> cstr a = cstr b.
Proof.
  pose proof (strlen_nonneg a). pose proof (strlen_nonneg b).
  apply strncmp_covering; lia.
Qed.

(** In general [strncmp] compares the first [n] characters of the strings. *)
Lemma strncmp_0_iff (n : nat) : forall a b : list Z,
  strncmp a b n = 0 <-> take n (cstr a) = take n (cstr b).
Proof.
  induction n as [|n IH]; intros a b; [done|].
  simpl strncmp.
  destruct (Z.eqb_spec (char_at a 0) 0) as [Ea|Ea];
    destruct (Z.eqb_spec (char_at b 0) 0) as [Eb|Eb]; simpl.
  - rewrite Ea, Eb. simpl. apply cstr_nil_iff in Ea, Eb. by rewrite Ea, Eb.
  - destruct (Z.eqb_spec (char_at a 0) (char_at b 0)); [congruence|].
    apply cstr_nil_iff in Ea. rewrite Ea, (cstr_cons b Eb). done.
  - destruct (Z.eqb_spec (char_at a 0) (char_at b 0)); [congruence|].
    apply cstr_nil_iff in Eb. rewrite Eb, (cstr_cons a Ea). done.
  - rewrite (cstr_cons a Ea), (cstr_cons b Eb). simpl.
    destruct (Z.ltb_spec (char_at a 0) (char_at b 0)).
    { split; [done|]. intros [= E _]. lia. }
    destruct (Z.ltb_spec (char_at b 0) (char_at a 0)).
    { split; [done|]. intros [= E _]. lia. }
    rewrite IH.
    split; [intros ->; f_equal; lia | by intros [= _ E]].
Qed.

Lemma cstr_length (s : list Z) : (length (cstr s) <= length s)%nat.
Proof.
  induction s as [|c s IH]; simpl; [lia|].
  destruct (c =? 0); simpl; lia.
Qed.

Lemma strlen_le_length (s : list Z) : strlen s <= Z.of_nat (length s).
Proof. unfold strlen. pose proof (cstr_length s). lia. Qed.

(** Moving a pointer forward inside a string drops characters. *)
Lemma cstr_drop (s : list Z) : forall n : nat,
  (n <= length (cstr s))%nat -> cstr (drop n s) = drop n (cstr s).
Proof.
  induction s as [|c s IH]; intros n Hn; [by destruct n|].
  destruct n as [|n]; [done|].
  simpl in *. destruct (c =? 0); simpl in *; [lia|]. apply IH. lia.
Qed.

(** ** cmd_register *)

Section Registry.

Implicit Types (s : kstate) (cmd hlp : Z) (c h d : cmd_info).

Lemma set_lock_id d : lock d = false -> set_lock false (set_lock true d) = d.
Proof. destruct d; simpl; intros ->; reflexivity. Qed.

Lemma set_cmds_id s : set_cmds (cmds s) s = s.
Proof. by destruct s. Qed.

Lemma set_cmds_set_cmds (m m' : gmap Z cmd_info) s :
  set_cmds m (set_cmds m' s) = set_cmds m s.
Proof. reflexivity. Qed.

Lemma set_cmd_lock_id s : cmd_lock s = false -> set_cmd_lock false s = s.
Proof. destruct s; simpl; intros ->; reflexivity. Qed.

Lemma spinlock_lock_ok a d s :
  cmds s !! a = Some d -> lock d = false ->
  spinlock_lock a s = Ok (tt, set_cmds (<[a := set_lock true d]> (cmds s)) s).
Proof.
  intros Ha Hl. unfold spinlock_lock, bind, get_cmd. by rewrite Ha, Hl.
Qed.

Lemma spinlock_unlock_ok a d s :
  cmds s !! a = Some d ->
  spinlock_unlock a s = Ok (tt, set_cmds (<[a := set_lock false d]> (cmds s)) s).
Proof.
  intros Ha. unfold spinlock_unlock, bind, get_cmd. by rewrite Ha.
Qed.

(** Taking the two descriptor locks, in either order, and giving them back
    restores the descriptors. *)
Lemma locked_pair_restored (m : gmap Z cmd_info) hlp cmd h c :
  hlp <> cmd -> m !! hlp = Some h -> m !! cmd = Some c ->
  lock h = false -> lock c = false ->
  <[cmd := set_lock false (set_lock true c)]>
    (<[hlp := set_lock false (set_lock true h)]>
       (<[cmd := set_lock true c]> (<[hlp := set_lock true h]> m))) = m.
Proof.
  intros Hne Hh Hc Lh Lc. rewrite !set_lock_id by done.
  apply map_eq. intros i.
  destruct (decide (i = cmd)) as [->|]; [by rewrite lookup_insert_eq|].
  rewrite lookup_insert_ne by done.
  destruct (decide (i = hlp)) as [->|]; [by rewrite lookup_insert_eq|].
  by rewrite !lookup_insert_ne.
Qed.

Lemma cmd_register_scan_step cmd hlp next s h c :
  hlp <> cmd -> cmds s !! hlp = Some h -> cmds s !! cmd = Some c ->
  lock h = false -> lock c = false ->
  cmd_register_scan cmd (hlp :: next) s =
    if clashes s cmd hlp then Ok (Some 0, set_cmd_lock false s)
    else cmd_register_scan cmd next s.
Proof.
  intros Hne Hh Hc Lh Lc.
  assert (Hres :
    forall m', m' = <[cmd := set_lock true c]> (<[hlp := set_lock true h]> (cmds s)) ->
    (do h0 <- get_cmd hlp ;;
     do c0 <- get_cmd cmd ;;
     if strncmp (name h0) (name c0)
          (Z.to_nat (Z.max (strlen (name c0)) (strlen (name h0)))) =? 0
     then spinlock_unlock hlp ;; spinlock_unlock cmd ;;
          spinlock_unlock_cmd_lock ;; ret (Some 0)
     else spinlock_unlock hlp ;; spinlock_unlock cmd ;;
          cmd_register_scan cmd next) (set_cmds m' s) =
    if clashes s cmd hlp then Ok (Some 0, set_cmd_lock false s)
    else cmd_register_scan cmd next s).
  { intros m' ->. unfold clashes. rewrite Hh, Hc.
    destruct (Z.eqb_spec hlp cmd); [done|]. simpl orb.
    unfold bind at 1. unfold get_cmd at 1. simpl cmds.
    rewrite lookup_insert_ne, lookup_insert_eq by done.
    unfold bind at 1. unfold get_cmd at 1. simpl cmds.
    rewrite lookup_insert_eq. simpl name.
    assert (Hback :
      forall (A : Type) (k : M A),
        (spinlock_unlock hlp ;; spinlock_unlock cmd ;; k)
          (set_cmds (<[cmd := set_lock true c]>
                       (<[hlp := set_lock true h]> (cmds s))) s) = k s).
    { intros A k. unfold bind at 1.
      erewrite spinlock_unlock_ok;
        [|simpl; rewrite lookup_insert_ne, lookup_insert_eq by done; done].
      unfold bind at 1.
      erewrite spinlock_unlock_ok;
        [|simpl; rewrite lookup_insert_ne, lookup_insert_eq by done; done].
      simpl cmds.
      rewrite locked_pair_restored by done.
      rewrite !set_cmds_set_cmds. by rewrite set_cmds_id. }
    destruct (_ =? 0); apply Hback. }
  simpl cmd_register_scan.
  destruct (Z.eqb_spec hlp cmd); [done|].
  unfold bind at 1.
  destruct (hlp <? cmd).
  - unfold bind at 1. rewrite (spinlock_lock_ok hlp h) by done.
    rewrite (spinlock_lock_ok cmd c);
      [|simpl; by rewrite lookup_insert_ne|done].
    simpl set_cmds at 1. apply (Hres _ eq_refl).
  - unfold bind at 1. rewrite (spinlock_lock_ok cmd c) by done.
    rewrite (spinlock_lock_ok hlp h);
      [|simpl; by rewrite lookup_insert_ne|done].
    simpl set_cmds at 1. apply Hres. simpl. by apply insert_insert_ne.
Qed.

Lemma clashes_set_cmd_lock b s cmd hlp :
  clashes (set_cmd_lock b s) cmd hlp = clashes s cmd hlp.
Proof. reflexivity. Qed.

(** The whole scan: it stops at the first clash, and the descriptor locks it
    took on the way are free again. *)
Lemma cmd_register_scan_spec cmd cur : forall s,
  unlocked_at s cmd -> Forall (unlocked_at s) cur ->
  cmd_register_scan cmd cur s =
    if existsb (clashes s cmd) cur then Ok (Some 0, set_cmd_lock false s)
    else Ok (None, s).
Proof.
  induction cur as [|hlp next IH]; intros s Hcmd Hcur; [reflexivity|].
  apply Forall_cons in Hcur as [(h & Hh & Lh) Hnext].
  destruct Hcmd as (c & Hc & Lc).
  simpl existsb.
  destruct (decide (hlp = cmd)) as [->|Hne].
  - simpl. unfold clashes. rewrite Z.eqb_refl. reflexivity.
  - rewrite (cmd_register_scan_step cmd hlp next s h c) by done.
    destruct (clashes s cmd hlp); [reflexivity|].
    apply IH; [by exists c | done].
Qed.

(** What [cmd_register] does, in one equation. *)
Lemma cmd_register_spec s cmd :
  registry_ready s cmd ->
  cmd_register cmd s =
    if existsb (clashes s cmd) (cmd_head s) then Ok (0, s)
    else Ok (1, set_cmd_head (cmd_head s ++ [cmd]) s).
Proof.
  intros (Hl & Hcmd & Hlist).
  unfold cmd_register, bind at 1, spinlock_lock_cmd_lock. rewrite Hl.
  unfold bind at 1, gets. unfold bind at 1. simpl cmd_head.
  rewrite cmd_register_scan_spec; [|done|done].
  change (clashes (set_cmd_lock true s) cmd) with (clashes s cmd).
  destruct (existsb _ _).
  - unfold ret. do 2 f_equal. destruct s; simpl in *; by subst.
  - unfold bind, list_append, spinlock_unlock_cmd_lock, modify, ret.
    do 2 f_equal. destruct s; simpl in *; by subst.
Qed.

Lemma existsb_clashes_self s cmd l :
  cmd ∈ l -> existsb (clashes s cmd) l = true.
Proof.
  intros Hin. apply existsb_exists. exists cmd. split.
  - by apply list_elem_of_In.
  - unfold clashes. by rewrite Z.eqb_refl.
Qed.

(** For a descriptor that is not linked, a clash is a linked descriptor of
    the same name. *)
Lemma existsb_clashes_name s cmd c :
  cmds s !! cmd = Some c -> cmd ∉ cmd_head s ->
  Forall (unlocked_at s) (cmd_head s) ->
  (existsb (clashes s cmd) (cmd_head s) = true <->
   exists hlp h, hlp ∈ cmd_head s /\ cmds s !! hlp = Some h /\
                 cstr (name h) = cstr (name c)).
Proof.
  intros Hc Hnotin Hall. rewrite existsb_exists. split.
  - intros (hlp & Hin & Hcl). apply list_elem_of_In in Hin.
    rewrite Forall_forall in Hall.
    destruct (Hall hlp Hin) as (h & Hh & _).
    exists hlp, h. split_and!; [done..|].
    unfold clashes in Hcl. rewrite Hh, Hc in Hcl.
    destruct (Z.eqb_spec hlp cmd) as [->|_]; [done|]. simpl in Hcl.
    apply Z.eqb_eq in Hcl. by apply strncmp_max_eq.
  - intros (hlp & h & Hin & Hh & Hname).
    exists hlp. split; [by apply list_elem_of_In|].
    unfold clashes. rewrite Hh, Hc.
    apply orb_true_iff. right. apply Z.eqb_eq. by apply strncmp_max_eq.
Qed.

(** C1 (as amended).  Registering a descriptor that is not linked yet is
    refused exactly when a linked descriptor bears the same name: the names
    are compared over the longer of the two, so a name that is a proper
    prefix of the other does not collide.  When refused the state is as
    before; otherwise the descriptor is appended. *)
Theorem cmd_register_collides_on_equal_names s cmd c :
  registry_ready s cmd -> cmds s !! cmd = Some c -> cmd ∉ cmd_head s ->
  exists r s',
    cmd_register cmd s = Ok (r, s') /\
    (r = 0 <-> exists hlp h, hlp ∈ cmd_head s /\ cmds s !! hlp = Some h /\
                             cstr (name h) = cstr (name c)) /\
    (r = 0 -> s' = s) /\
    (r <> 0 -> r = 1 /\ s' = set_cmd_head (cmd_head s ++ [cmd]) s).
Proof.
  intros Hready Hc Hnotin.
  rewrite (cmd_register_spec s cmd Hready).
  pose proof (existsb_clashes_name s cmd c Hc Hnotin (proj2 (proj2 Hready)))
    as Hiff.
  destruct (existsb _ _).
  - exists 0, s. split_and!; [done| |done|done].
    split; [intros _; by apply Hiff | done].
  - exists 1, (set_cmd_head (cmd_head s ++ [cmd]) s).
    split_and!; [done| |done|done].
    split; [done|]. intros H. apply Hiff in H. done.
Qed.

(** C5.  Registering a descriptor that is already linked returns 0 and
    leaves the state, and with it the list of linked descriptors, as it
    was. *)
Theorem cmd_register_same_instance s cmd :
  registry_ready s cmd -> cmd ∈ cmd_head s ->
  exists s',
    cmd_register cmd s = Ok (0, s') /\
    cmd_head s' = cmd_head s /\
    length (cmd_head s') = length (cmd_head s) /\
    s' = s.
Proof.
  intros Hready Hin. exists s.
  rewrite (cmd_register_spec s cmd Hready).
  by rewrite existsb_clashes_self.
Qed.

(** C9.  [cmd_register] leaves every descriptor as it was, the new one and
    the linked ones alike; when it returns 1 the one change of the state is
    the new link at the end of the list, and otherwise there is none. *)
Theorem cmd_register_frame s cmd :
  registry_ready s cmd ->
  exists r s',
    cmd_register cmd s = Ok (r, s') /\
    cmds s' = cmds s /\
    ((r = 1 /\ s' = set_cmd_head (cmd_head s ++ [cmd]) s) \/
     (r = 0 /\ s' = s)).
Proof.
  intros Hready. rewrite (cmd_register_spec s cmd Hready).
  destruct (existsb _ _).
  - exists 0, s. split_and!; [done..|]. by right.
  - exists 1, (set_cmd_head (cmd_head s ++ [cmd]) s).
    split_and!; [done..|]. by left.
Qed.

End Registry.

(** ** parse_argument *)

(** Unsigned arithmetic is exact below the word size. *)
Lemma wrap_small (bound x : Z) :
  bound < 2 ^ word_bits -> 0 <= x <= bound -> wrap x = x.
Proof. intros Hb Hx. unfold wrap. apply Z.mod_small. lia. Qed.

Section ParseArgument.

Variable cmdline : list Z.
Variable len : Z.
Hypothesis len_fits : 0 <= len <= Z.of_nat (length cmdline).

Let line := take (Z.to_nat len) cmdline.

Local Lemma line_length : Z.of_nat (length line) = len.
Proof. unfold line. rewrite length_take. lia. Qed.

Local Lemma line_drop (i : Z) :
  0 <= i < len ->
  drop (Z.to_nat i) line =
    char_at cmdline (Z.to_nat i) :: drop (Z.to_nat (i + 1)) line.
Proof.
  intros Hi. pose proof line_length as Hlen.
  destruct (lookup_lt_is_Some_2 line (Z.to_nat i)) as [c Hc]; [lia|].
  rewrite (drop_S _ _ _ Hc). replace (Z.to_nat (i + 1)) with (S (Z.to_nat i)) by lia.
  f_equal. unfold char_at, line in *.
  rewrite lookup_take_lt in Hc by lia. by rewrite Hc.
Qed.

Local Lemma line_drop_end : drop (Z.to_nat len) line = [].
Proof. apply drop_ge. pose proof line_length. lia. Qed.

(** Inside a word the loop runs to the first [isspace] byte or to [len]. *)
Lemma parse_argument_loop_in_word (fuel : nat) : forall i start,
  0 <= i <= len -> fuel = Z.to_nat (len - i) ->
  exists i',
    parse_argument_loop cmdline fuel i start true = (i', start, true) /\
    i <= i' <= len /\
    (forall j, i <= j < i' -> isspace (char_at cmdline (Z.to_nat j)) = false) /\
    count_words true (drop (Z.to_nat i) line) =
      count_words false (drop (Z.to_nat i') line).
Proof.
  induction fuel as [|fuel IH]; intros i start Hi Hfuel.
  - assert (i = len) as -> by lia. exists len. simpl.
    rewrite line_drop_end.
    repeat split; first [done | lia | intros; lia].
  - simpl. rewrite (line_drop i) by lia. simpl.
    destruct (isspace (char_at cmdline (Z.to_nat i))) eqn:Hsp.
    + exists i. rewrite (line_drop i) by lia. simpl. rewrite Hsp.
      repeat split; first [done | lia | intros; lia].
    + destruct (IH (i + 1) start) as (i' & Heq & Hr & Hns & Hcnt); [lia..|].
      exists i'. repeat split; try first [done | lia].
      intros j Hj. destruct (decide (j = i)) as [->|]; [done|]. apply Hns. lia.
Qed.

(** Before a word the loop skips [isspace] bytes, [*start] moving along. *)
Lemma parse_argument_loop_skip (fuel : nat) : forall i,
  0 <= i <= len -> fuel = Z.to_nat (len - i) ->
  exists i' start',
    parse_argument_loop cmdline fuel i i false = (i', start', false) /\
    count_words false (drop (Z.to_nat i) line) = O
    \/
    parse_argument_loop cmdline fuel i i false = (i', start', true) /\
    i <= start' < i' /\ i' <= len /\
    (forall j, start' <= j < i' ->
       isspace (char_at cmdline (Z.to_nat j)) = false) /\
    count_words false (drop (Z.to_nat i) line) =
      S (count_words false (drop (Z.to_nat i') line)).
Proof.
  induction fuel as [|fuel IH]; intros i Hi Hfuel.
  - assert (i = len) as -> by lia. exists len, len. left. simpl.
    by rewrite line_drop_end.
  - simpl. rewrite (line_drop i) by lia. simpl.
    destruct (isspace (char_at cmdline (Z.to_nat i))) eqn:Hsp.
    + destruct (IH (i + 1))
        as (i' & start' & [[Heq Hcnt]|(Heq & Hr & Hl & Hns & Hcnt)]);
        [lia..| |]; exists i', start'; [left|right];
        repeat split; first [done | lia].
    + destruct (parse_argument_loop_in_word fuel (i + 1) i)
        as (i' & Heq & Hr & Hns & Hcnt); [lia..|].
      exists i', i. right.
      repeat split; try first [done | lia | by rewrite Hcnt].
      intros j Hj. destruct (decide (j = i)) as [->|]; [done|]. apply Hns. lia.
Qed.

Hypothesis len_word : len < 2 ^ word_bits.


(** [parse_argument] finds the next word, if there is one, and leaves
    [*end] on its last byte. *)
Lemma parse_argument_spec (i : Z) :
  0 <= i <= len ->
  (exists start' end',
     parse_argument cmdline len i = (false, start', end') /\
     words_from cmdline len i = O)
  \/
  (exists start' end',
     parse_argument cmdline len i = (true, start', end') /\
     i <= start' <= end' /\ end' < len /\
     (forall j, start' <= j <= end' ->
        isspace (char_at cmdline (Z.to_nat j)) = false) /\
     words_from cmdline len i = S (words_from cmdline len (end' + 1))).
Proof.
  intros Hi. unfold parse_argument, words_from. fold line.
  destruct (parse_argument_loop_skip (Z.to_nat (len - i)) i Hi eq_refl)
    as (i' & start' & [[Heq Hcnt]|(Heq & Hr & Hl & Hns & Hcnt)]); rewrite Heq.
  - left. by exists start', (wrap (i' - 1)).
  - right. exists start', (i' - 1). rewrite (wrap_small _ _ len_word) by lia.
    repeat split; try first [done | lia].
    + intros j Hj. apply Hns. lia.
    + rewrite Hcnt. by replace (i' - 1 + 1) with i' by lia.
Qed.

End ParseArgument.

(** ** parse_int_arg *)

(** No case of the [switch] lets control reach the code behind it: the
    [default] case takes every return code that is neither [ENOENT] nor
    [EOVERFLOW], the one of a successful lookup included. *)
Lemma parse_int_arg_switch_returns (rc : Z) (buf : list Z) (s : kstate) :
  exists s', parse_int_arg_switch rc buf s = Ok (Some (-1), s').
Proof.
  unfold parse_int_arg_switch.
  destruct (rc =? ENOENT); [|destruct (rc =? EOVERFLOW)];
    unfold bind, print, modify, ret; eauto.
Qed.

(** A word that does not start with a digit, after its sigil, is never
    converted, whatever the symbol table answers. *)
Lemma parse_int_arg_symbol_never_converted
    (text : list Z) (len result : Z) (s s' : kstate) (r : Z * Z) :
  let text1 :=
    if (char_at text 0 =? 38) || (char_at text 0 =? 42) then tail text
    else text in
  (char_at text1 0 <? 48) || (57 <? char_at text1 0) = true ->
  parse_int_arg text len result s = Ok (r, s') ->
  r = (-1, result).
Proof.
  intros text1 Hnd. unfold parse_int_arg.
  assert ((char_at text 0 =? 38) || negb (char_at text 0 =? 38) &&
          (char_at text 0 =? 42) = (char_at text 0 =? 38) || (char_at text 0 =? 42))
    as -> by (by destruct (char_at text 0 =? 38)).
  fold text1. rewrite Hnd.
  unfold bind at 1, gets. unfold bind at 1.
  destruct (lift _ _) as [[buf' s1]|]; [|done].
  unfold bind at 1, modify.
  destruct (symtab_addr_lookup (cstr buf')) as [rc symaddr].
  unfold bind at 1.
  destruct (parse_int_arg_switch_returns rc buf' (set_symname buf' s1))
    as [s2 ->].
  unfold ret. by intros [= <- _].
Qed.

(** ** parse_cmdline: the search *)

Lemma insert_as_alter (m : gmap Z cmd_info) (a : Z) (d : cmd_info)
    (f : cmd_info -> cmd_info) :
  m !! a = Some d -> <[a := f d]> m = alter f a m.
Proof.
  intros Ha. apply map_eq. intros i. destruct (decide (i = a)) as [->|].
  - by rewrite lookup_insert_eq, lookup_alter_eq, Ha.
  - by rewrite lookup_insert_ne, lookup_alter_ne.
Qed.

Lemma spinlock_lock_hold (a : Z) (s : kstate) :
  unlocked_at s a -> spinlock_lock a s = Ok (tt, hold a s).
Proof.
  intros (d & Ha & Hl). rewrite (spinlock_lock_ok a d) by done.
  unfold hold. by rewrite (insert_as_alter _ _ d).
Qed.

Lemma spinlock_unlock_release (a : Z) (s : kstate) :
  is_Some (cmds s !! a) -> spinlock_unlock a s = Ok (tt, release a s).
Proof.
  intros [d Ha]. rewrite (spinlock_unlock_ok a d) by done.
  unfold release. by rewrite (insert_as_alter _ _ d).
Qed.

Lemma release_hold (a : Z) (s : kstate) :
  unlocked_at s a -> release a (hold a s) = s.
Proof.
  intros (d & Ha & Hl). unfold release, hold. simpl cmds.
  rewrite set_cmds_set_cmds.
  replace (alter (set_lock false) a (alter (set_lock true) a (cmds s)))
    with (cmds s); [apply set_cmds_id|].
  apply map_eq. intros i. destruct (decide (i = a)) as [->|].
  - rewrite !lookup_alter_eq, Ha. simpl. by rewrite set_lock_id.
  - by rewrite !lookup_alter_ne.
Qed.

Lemma names_word_hold (a : Z) (s : kstate) cmdline start end_ hlp :
  names_word (hold a s) cmdline start end_ hlp =
  names_word s cmdline start end_ hlp.
Proof.
  unfold names_word, hold. simpl cmds.
  destruct (decide (hlp = a)) as [->|].
  - rewrite lookup_alter_eq. by destruct (cmds s !! a).
  - by rewrite lookup_alter_ne.
Qed.

(** The search returns the first linked descriptor whose name compares
    equal to the word, with its lock held and nothing else changed. *)
Lemma parse_cmdline_find_spec cmdline start end_ cur : forall s,
  Forall (unlocked_at s) cur ->
  parse_cmdline_find cmdline start end_ cur s =
    match List.find (names_word s cmdline start end_) cur with
    | Some hlp => Ok (Some hlp, hold hlp s)
    | None => Ok (None, s)
    end.
Proof.
  induction cur as [|hlp next IH]; intros s Hcur; [reflexivity|].
  apply Forall_cons in Hcur as [Hhlp Hnext].
  simpl. unfold bind at 1. rewrite spinlock_lock_hold by done.
  pose proof (names_word_hold hlp s cmdline start end_ hlp) as Hw.
  unfold names_word in Hw at 1.
  unfold bind at 1, get_cmd.
  destruct Hhlp as (h & Hh & Hl).
  assert (cmds (hold hlp s) !! hlp = Some (set_lock true h)) as Hh'.
  { unfold hold. simpl. by rewrite lookup_alter_eq, Hh. }
  rewrite Hh' in Hw |- *. rewrite Hw.
  destruct (names_word s cmdline start end_ hlp); [reflexivity|].
  unfold bind at 1. rewrite spinlock_unlock_release by (by rewrite Hh').
  rewrite release_hold by (by exists h). by apply IH.
Qed.

(** A name that is shorter than the word cannot compare equal to it. *)
Lemma strncmp_shorter_name (a b : list Z) (n : Z) :
  strlen a < n -> n <= strlen b ->
  strncmp a b (Z.to_nat (Z.max (strlen a) n)) <> 0.
Proof.
  unfold strlen. intros Ha Hb Heq. apply strncmp_0_iff in Heq.
  apply (f_equal length) in Heq. rewrite !length_take in Heq. lia.
Qed.

(** C4.  The search compares each registered name with the typed word over
    the longer of the two lengths, so a registered name that is shorter than
    the word never compares equal, and the search never returns its
    descriptor. *)
Theorem parse_cmdline_find_longer_word cmdline start end_ :
  strlen cmdline < 2 ^ word_bits ->
  parse_argument cmdline (strlen cmdline) 0 = (true, start, end_) ->
  (forall h : cmd_info,
     strlen (name h) < end_ - start + 1 ->
     strncmp (name h) (drop (Z.to_nat start) cmdline)
       (Z.to_nat (Z.max (strlen (name h)) (wrap (wrap (end_ - start) + 1))))
     <> 0) /\
  (forall s, Forall (unlocked_at s) (cmd_head s) ->
     exists r s',
       parse_cmdline_find cmdline start end_ (cmd_head s) s = Ok (r, s') /\
       forall hlp, r = Some hlp ->
         exists h, cmds s !! hlp = Some h /\
                   end_ - start + 1 <= strlen (name h)).
Proof.
  intros Hbits Harg.
  pose proof (strlen_nonneg cmdline) as Hnn.
  pose proof (strlen_le_length cmdline) as Hle.
  destruct (parse_argument_spec cmdline (strlen cmdline) (conj Hnn Hle) Hbits 0)
    as [(s1 & e1 & Heq & _)|(s1 & e1 & Heq & Hr & Hl & _)]; [lia| |];
    rewrite Harg in Heq; [done|]. injection Heq as <- <-.
  assert (Hw : wrap (wrap (end_ - start) + 1) = end_ - start + 1).
  { rewrite (wrap_small _ (end_ - start) Hbits) by lia.
    apply (wrap_small _ _ Hbits). lia. }
  assert (Hshort : forall h : cmd_info,
    strlen (name h) < end_ - start + 1 ->
    strncmp (name h) (drop (Z.to_nat start) cmdline)
      (Z.to_nat (Z.max (strlen (name h)) (wrap (wrap (end_ - start) + 1))))
    <> 0).
  { intros h Hh. rewrite Hw. apply strncmp_shorter_name; [done|].
    unfold strlen in *. rewrite cstr_drop by lia. rewrite length_drop. lia. }
  split; [exact Hshort|].
  intros s Hall. rewrite parse_cmdline_find_spec by done.
  destruct (List.find _ _) as [hlp|] eqn:Hfind.
  - exists (Some hlp), (hold hlp s). split; [done|].
    intros ? [= <-]. apply find_some in Hfind as [_ Hm].
    unfold names_word in Hm. destruct (cmds s !! hlp) as [h|]; [|done].
    exists h. split; [done|].
    destruct (Z.lt_ge_cases (strlen (name h)) (end_ - start + 1)) as [Hlt|]; [|lia].
    apply Hshort in Hlt. by apply Z.eqb_eq in Hm.
  - exists None, s. split; [done|]. intros ? [=].
Qed.

(** ** Copies stay inside their buffers *)

Lemma store_ok (mem : list Z) (i c : Z) :
  0 <= i < Z.of_nat (length mem) ->
  store mem i c = Ok (<[Z.to_nat i := c]> mem).
Proof.
  intros Hi. unfold store.
  destruct (Z.leb_spec 0 i); [|lia].
  destruct (Z.ltb_spec i (Z.of_nat (length mem))); [done|lia].
Qed.

Lemma strncpy_loop_ok (src : list Z) (fuel : nat) : forall dest i,
  0 <= i -> 1 <= i + Z.of_nat fuel <= Z.of_nat (length dest) ->
  exists dest',
    strncpy_loop dest (from_string src) i fuel = Ok dest' /\
    length dest' = length dest.
Proof.
  induction fuel as [|fuel IH]; intros dest i Hi Hfuel; simpl.
  - rewrite store_ok by lia. eexists. split; [done|]. by rewrite length_insert.
  - rewrite store_ok by lia.
    destruct (char_at src (Z.to_nat i) =? 0).
    + eexists. split; [done|]. by rewrite length_insert.
    + destruct (IH (<[Z.to_nat i := char_at src (Z.to_nat i)]> dest) (i + 1))
        as (dest' & Heq & Hlen); [lia|rewrite length_insert; lia|].
      exists dest'. split; [done|]. by rewrite Hlen, length_insert.
Qed.

Lemma strncpy_ok (dest src : list Z) (n : Z) :
  1 <= n <= Z.of_nat (length dest) ->
  exists dest',
    strncpy dest (from_string src) n = Ok dest' /\
    length dest' = length dest.
Proof.
  intros Hn. unfold strncpy. apply strncpy_loop_ok; lia.
Qed.

(** ** parse_int_arg returns *)

Lemma parse_int_arg_ok (text : list Z) (n result : Z) (s : kstate) :
  1 <= MAX_SYMBOL_NAME <= Z.of_nat (length (symname s)) ->
  1 <= n -> n + 1 < 2 ^ word_bits ->
  exists r buf out,
    parse_int_arg text n result s =
      Ok (r, set_console (console s ++ out) (set_symname buf s)) /\
    length buf = length (symname s).
Proof.
  intros Hsym Hn Hbits. unfold parse_int_arg.
  set (sigil := (char_at text 0 =? 38) ||
                negb (char_at text 0 =? 38) && (char_at text 0 =? 42)).
  set (text1 := if sigil then tail text else text).
  set (len1 := if sigil then wrap (n - 1) else n).
  assert (1 <= wrap (len1 + 1) <= n + 1) as Hlen1.
  { unfold len1. destruct sigil.
    - rewrite (wrap_small (n + 1) (n - 1)) by lia.
      rewrite (wrap_small (n + 1)) by lia. lia.
    - rewrite (wrap_small (n + 1)) by lia. lia. }
  destruct ((char_at text1 0 <? 48) || (57 <? char_at text1 0)).
  - unfold bind at 1, gets. unfold bind at 1.
    destruct (strncpy_ok (symname s) text1
                (Z.min (wrap (len1 + 1)) MAX_SYMBOL_NAME))
      as (buf & -> & Hbuf); [lia|].
    simpl lift. unfold bind at 1, modify.
    destruct (symtab_addr_lookup (cstr buf)) as [rc symaddr].
    unfold bind at 1, parse_int_arg_switch.
    destruct (rc =? ENOENT); [|destruct (rc =? EOVERFLOW)];
      unfold bind, print, modify, ret; simpl.
    + by exists (-1, result), buf, (msg_symbol_not_found buf).
    + exists (-1, result), buf,
        (msg_duplicate_symbol buf ++ symtab_print_search (cstr buf)).
      split; [|done]. by rewrite app_assoc.
    + by exists (-1, result), buf, msg_no_symbol_information.
  - eexists _, (symname s), []. split; [|done].
    unfold ret. do 2 f_equal. destruct s; simpl. by rewrite app_nil_r.
Qed.

(** ** parse_cmdline: the conversions *)

Lemma bind_ok {A B} (m : M A) (k : A -> M B) (s s1 : kstate) (a : A) :
  m s = Ok (a, s1) -> bind m k s = k a s1.
Proof. unfold bind. by intros ->. Qed.

Lemma same_shape_refl (d : cmd_info) : same_shape d d.
Proof. by repeat split. Qed.

Lemma same_shape_trans (d1 d2 d3 : cmd_info) :
  same_shape d1 d2 -> same_shape d2 d3 -> same_shape d1 d3.
Proof.
  intros (? & ? & ? & ? & ? & ?) (? & ? & ? & ? & ? & ?).
  repeat split; congruence.
Qed.

Lemma schema_ok_same_shape (d d' : cmd_info) :
  same_shape d d' -> schema_ok d -> schema_ok d'.
Proof.
  intros (_ & _ & _ & _ & Hargc & Hmap) [Hc Hf]. split.
  - rewrite Hargc. apply (f_equal length) in Hmap.
    rewrite !length_map in Hmap. lia.
  - by rewrite Hmap.
Qed.

Lemma converted_refl (cmd : Z) (s : kstate) :
  is_Some (cmds s !! cmd) -> converted cmd s s.
Proof.
  intros [d Hd]. repeat split; try done.
  - exists d, d. auto using same_shape_refl.
  - exists []. by rewrite app_nil_r.
Qed.

Lemma converted_trans (cmd : Z) (s1 s2 s3 : kstate) :
  converted cmd s1 s2 -> converted cmd s2 s3 -> converted cmd s1 s3.
Proof.
  intros (Hl1 & Hh1 & Ho1 & (d1 & d2 & Hd1 & Hd2 & Hs1) & Hy1 & (o1 & Hc1))
         (Hl2 & Hh2 & Ho2 & (d2' & d3 & Hd2' & Hd3 & Hs2) & Hy2 & (o2 & Hc2)).
  assert (d2' = d2) as -> by congruence.
  repeat split; try congruence.
  - intros a Ha. rewrite Ho2, Ho1; done.
  - exists d1, d3. eauto using same_shape_trans.
  - exists (o1 ++ o2). by rewrite Hc2, Hc1, app_assoc.
Qed.

(** Output and a rewritten [symname] are within the footprint. *)
Lemma converted_io (cmd : Z) (s : kstate) (buf out : list Z) :
  is_Some (cmds s !! cmd) -> length buf = length (symname s) ->
  converted cmd s (set_console (console s ++ out) (set_symname buf s)).
Proof.
  intros [d Hd] Hbuf. repeat split; try done.
  - exists d, d. auto using same_shape_refl.
  - by exists out.
Qed.

Lemma converted_print (cmd : Z) (s : kstate) (out : list Z) :
  is_Some (cmds s !! cmd) ->
  converted cmd s (set_console (console s ++ out) s).
Proof.
  intros [d Hd]. repeat split; try done.
  - exists d, d. auto using same_shape_refl.
  - by exists out.
Qed.

(** Writing back an argument of the same shape is within the footprint. *)
Lemma put_arg_converted (cmd i : Z) (a a' : cmd_arg) (d : cmd_info)
    (s : kstate) :
  cmds s !! cmd = Some d -> argv d !! Z.to_nat i = Some a ->
  arg_shape a' = arg_shape a ->
  exists s', put_arg cmd i a' s = Ok (tt, s') /\ converted cmd s s'.
Proof.
  intros Hd Ha Hsh. unfold put_arg, bind, get_cmd, put_cmd, modify.
  rewrite Hd. eexists. split; [done|].
  repeat split; try done.
  - intros b Hb. simpl. by rewrite lookup_insert_ne.
  - exists d, (set_argv (<[Z.to_nat i := a']> (argv d)) d).
    split; [done|]. split; [simpl; by rewrite lookup_insert_eq|].
    repeat split. simpl.
    rewrite list_fmap_insert, Hsh. apply list_insert_id.
    by rewrite list_lookup_fmap, Ha.
  - exists []. simpl. by rewrite app_nil_r.
Qed.

Lemma get_arg_ok (cmd i : Z) (a : cmd_arg) (d : cmd_info) (s : kstate) :
  cmds s !! cmd = Some d -> argv d !! Z.to_nat i = Some a ->
  get_arg cmd i s = Ok (a, s).
Proof.
  intros Hd Ha. unfold get_arg, bind, get_cmd. by rewrite Hd, Ha.
Qed.

(** The conversion of one word returns, within the footprint. *)
Lemma parse_cmdline_convert_ok (cmdline : list Z) (cmd i start end_ : Z)
    (d : cmd_info) (s : kstate) :
  cmds s !! cmd = Some d -> schema_ok d -> 0 <= i < argc d ->
  0 <= start <= end_ -> end_ + 2 < 2 ^ word_bits ->
  1 <= MAX_SYMBOL_NAME <= Z.of_nat (length (symname s)) ->
  exists e s',
    parse_cmdline_convert cmdline cmd i start end_ s = Ok (e, s') /\
    converted cmd s s'.
Proof.
  intros Hd [Hargc Hshapes] Hi Htok Hbits Hsym.
  destruct (lookup_lt_is_Some_2 (argv d) (Z.to_nat i)) as [a Ha]; [lia|].
  assert (shape_ok (arg_shape a)) as Hok.
  { rewrite Forall_lookup in Hshapes. apply (Hshapes (Z.to_nat i)).
    by rewrite list_lookup_fmap, Ha. }
  assert (W0 : wrap (end_ - start) = end_ - start)
    by (apply (wrap_small _ _ Hbits); lia).
  assert (W1 : wrap (end_ - start + 1) = end_ - start + 1)
    by (apply (wrap_small _ _ Hbits); lia).
  assert (W2 : wrap (end_ - start + 2) = end_ - start + 2)
    by (apply (wrap_small _ _ Hbits); lia).
  unfold parse_cmdline_convert.
  rewrite (bind_ok _ _ _ _ _ (get_arg_ok cmd i a d s Hd Ha)).
  rewrite W0, W1, W2.
  unfold arg_shape, shape_ok in Hok.
  destruct (type a) eqn:Hty.
  - (* ARG_TYPE_INVALID *)
    unfold bind, print, modify, ret. eexists _, _. split; [done|].
    apply converted_print. by rewrite Hd.
  - (* ARG_TYPE_INT *)
    destruct (parse_int_arg_ok (drop (Z.to_nat start) cmdline)
                (end_ - start + 1) (intval a) s)
      as (r & buf & out & Hp & Hbuf); [done|lia|lia|].
    rewrite (bind_ok _ _ _ _ _ Hp).
    edestruct (put_arg_converted cmd i a (set_intval (snd r) a) d
                 (set_console (console s ++ out) (set_symname buf s)))
      as (s' & Hput & Hconv); [done..|].
    rewrite (bind_ok _ _ _ _ _ Hput). unfold ret.
    eexists _, s'. split; [done|].
    eapply converted_trans; [|exact Hconv].
    apply converted_io; [by rewrite Hd|done].
  - (* ARG_TYPE_STRING *)
    destruct Hok as [Hlen Hlenw].
    assert (Wl : wrap (len a - 1) = len a - 1)
      by (apply (wrap_small _ _ Hlenw); lia).
    destruct (strncpy_ok (buffer a) (drop (Z.to_nat start) cmdline)
                (Z.min (end_ - start + 2) (len a)))
      as (buf & Hcp & Hbuf); [lia|].
    unfold bind at 1. rewrite Hcp. simpl lift.
    rewrite Wl. unfold bind at 1. rewrite store_ok by lia. simpl lift.
    edestruct (put_arg_converted cmd i a
                 (set_buffer
                    (<[Z.to_nat (Z.min (end_ - start + 1) (len a - 1)) := 0]> buf)
                    a) d s)
      as (s' & Hput & Hconv); [done|done| |].
    { unfold arg_shape. simpl. by rewrite length_insert, Hbuf. }
    rewrite (bind_ok _ _ _ _ _ Hput). unfold ret. by eexists _, s'.
  - (* ARG_TYPE_VAR *)
    destruct Hok as [Hlen Hlenw].
    assert (Wl : wrap (len a - 1) = len a - 1)
      by (apply (wrap_small _ _ Hlenw); lia).
    destruct (negb (start =? end_) && _ && _) eqn:Hq.
    + assert (start <> end_).
      { destruct (Z.eqb_spec start end_); [done|done]. }
      destruct (strncpy_ok (buffer a)
                  (drop (Z.to_nat (wrap (start + 1))) cmdline)
                  (Z.min (end_ - start) (len a)))
        as (buf & Hcp & Hbuf); [lia|].
      unfold bind at 1. rewrite Hcp. simpl lift.
      rewrite Wl. unfold bind at 1. rewrite store_ok by lia. simpl lift.
      edestruct (put_arg_converted cmd i a
                   (set_vartype ARG_TYPE_STRING
                      (set_intval (buffer_addr a)
                         (set_buffer
                            (<[Z.to_nat (Z.min (end_ - start) (len a - 1)) := 0]> buf)
                            a))) d s)
        as (s' & Hput & Hconv); [done|done| |].
      { unfold arg_shape. simpl. by rewrite length_insert, Hbuf. }
      rewrite (bind_ok _ _ _ _ _ Hput). unfold ret. by eexists _, s'.
    + destruct (parse_int_arg_ok (drop (Z.to_nat start) cmdline)
                  (end_ - start + 1) (intval a) s)
        as (r & buf & out & Hp & Hbuf); [done|lia|lia|].
      rewrite (bind_ok _ _ _ _ _ Hp).
      assert (converted cmd s
                (set_console (console s ++ out) (set_symname buf s))) as Hio
        by (apply converted_io; [by rewrite Hd|done]).
      destruct (fst r =? 0).
      * edestruct (put_arg_converted cmd i a
                     (set_vartype ARG_TYPE_INT (set_intval (snd r) a)) d
                     (set_console (console s ++ out) (set_symname buf s)))
          as (s' & Hput & Hconv); [done..|].
        rewrite (bind_ok _ _ _ _ _ Hput). unfold ret.
        eexists _, s'. split; [done|]. by eapply converted_trans.
      * edestruct (put_arg_converted cmd i a (set_intval (snd r) a) d
                     (set_console (console s ++ out) (set_symname buf s)))
          as (s' & Hput & Hconv); [done..|].
        rewrite (bind_ok _ _ _ _ _ Hput).
        unfold bind, print, modify, ret. eexists _, _. split; [done|].
        eapply converted_trans; [exact Hio|].
        eapply converted_trans; [exact Hconv|].
        apply converted_print.
        destruct Hconv as (_ & _ & _ & (? & d' & _ & -> & _) & _). done.
Qed.

(** ** parse_cmdline: the argument loop *)

Section ParseCmdline.

Variable cmdline : list Z.
Variable len : Z.
Hypothesis len_fits : 0 <= len <= Z.of_nat (length cmdline).
Hypothesis len_word : len + 2 < 2 ^ word_bits.

Lemma converted_symname (cmd : Z) (s s' : kstate) :
  converted cmd s s' ->
  1 <= MAX_SYMBOL_NAME <= Z.of_nat (length (symname s)) ->
  1 <= MAX_SYMBOL_NAME <= Z.of_nat (length (symname s')).
Proof. intros (_ & _ & _ & _ & -> & _). done. Qed.

(** With fewer words left than arguments to go the loop reports too few
    arguments, releases the descriptor and returns NULL; otherwise it runs
    out, having used one word for each argument. *)
Lemma parse_cmdline_args_spec (cmd : Z) (fuel : nat) :
  forall (i end_ error : Z) (s : kstate) (d : cmd_info),
  cmds s !! cmd = Some d -> schema_ok d ->
  0 <= i -> i + Z.of_nat fuel <= argc d ->
  0 <= end_ < len ->
  1 <= MAX_SYMBOL_NAME <= Z.of_nat (length (symname s)) ->
  ((words_from cmdline len (end_ + 1) < fuel)%nat /\
   exists s1,
     converted cmd s s1 /\
     parse_cmdline_args cmdline len cmd fuel i end_ error s =
       Ok (None, release cmd (printed msg_too_few_arguments s1)))
  \/
  ((fuel <= words_from cmdline len (end_ + 1))%nat /\
   exists end' error' s1,
     parse_cmdline_args cmdline len cmd fuel i end_ error s =
       Ok (Some (end', error'), s1) /\
     converted cmd s s1 /\
     0 <= end' < len /\
     words_from cmdline len (end' + 1) =
       (words_from cmdline len (end_ + 1) - fuel)%nat).
Proof.
  assert (Hw : len < 2 ^ word_bits) by lia.
  induction fuel as [|fuel IH]; intros i end_ error s d Hd Hok Hi Hfuel Hend Hsym.
  - right. split; [lia|]. exists end_, error, s. simpl.
    split_and!; [done|apply converted_refl; by rewrite Hd|lia|lia|lia].
  - simpl parse_cmdline_args.
    rewrite (wrap_small _ (end_ + 1) Hw) by lia.
    destruct (parse_argument_spec cmdline len len_fits Hw (end_ + 1))
      as [(start' & end' & -> & Hnone)
         |(start' & end' & -> & Hr & Hl & _ & Hcnt)]; [lia| |].
    + left. split; [lia|]. exists s. split; [apply converted_refl; by rewrite Hd|].
      simpl. unfold bind at 1, print, modify.
      unfold bind at 1.
      rewrite spinlock_unlock_release by (simpl; by rewrite Hd).
      reflexivity.
    + cbn [negb].
      destruct (parse_cmdline_convert_ok cmdline cmd i start' end' d s)
        as (e & s1 & Hconv & Hfoot); [done|done|lia|lia|lia|done|].
      rewrite (bind_ok _ _ _ _ _ Hconv).
      pose proof Hfoot as (_ & _ & _ & (d0 & d1 & Hd0 & Hd1 & Hsh) & _ & _).
      assert (d0 = d) as -> by congruence.
      destruct (IH (i + 1) end' e s1 d1)
        as [(Hlt & s2 & Hf2 & Heq)|(Hge & end2 & e2 & s2 & Heq & Hf2 & He2 & Hc2)];
        [done|by eapply schema_ok_same_shape|lia|
         destruct Hsh as (_ & _ & _ & _ & -> & _); lia|lia|
         by eapply converted_symname|..].
      * left. split; [lia|]. exists s2.
        split; [by eapply converted_trans|done].
      * right. split; [lia|]. exists end2, e2, s2.
        split_and!; [done|by eapply converted_trans|lia|lia|lia].
Qed.

Lemma set_cmd_lock_hold (cmd : Z) (s : kstate) :
  cmd_lock s = false ->
  set_cmd_lock false (hold cmd (set_cmd_lock true s)) = hold cmd s.
Proof. destruct s; simpl; intros ->; reflexivity. Qed.

Lemma hold_lookup (cmd : Z) (d : cmd_info) (s : kstate) :
  cmds s !! cmd = Some d -> cmds (hold cmd s) !! cmd = Some (set_lock true d).
Proof. intros Hd. unfold hold. simpl. by rewrite lookup_alter_eq, Hd. Qed.

(** Every way through [parse_cmdline], with the result and the state it
    ends in. *)
Lemma parse_cmdline_cases (s : kstate) :
  parser_ready s ->
  exists r s',
    parse_cmdline cmdline len s = Ok (r, s') /\
    ((exists start end_,
        parse_argument cmdline len 0 = (false, start, end_) /\
        r = None /\ s' = s)
     \/
     (exists start end_,
        parse_argument cmdline len 0 = (true, start, end_) /\
        0 <= end_ < len /\
        words_from cmdline len 0 = S (words_from cmdline len (end_ + 1)) /\
        ((List.find (names_word s cmdline start end_) (cmd_head s) = None /\
          r = None /\ s' = printed msg_unknown_command s)
         \/
         (exists cmd d,
            List.find (names_word s cmdline start end_) (cmd_head s) = Some cmd /\
            cmd ∈ cmd_head s /\ cmds s !! cmd = Some d /\ lock d = false /\
            (((words_from cmdline len (end_ + 1) < Z.to_nat (argc d))%nat /\
              exists s1,
                converted cmd (hold cmd s) s1 /\
                r = None /\
                s' = release cmd (printed msg_too_few_arguments s1))
             \/
             ((Z.to_nat (argc d) <= words_from cmdline len (end_ + 1))%nat /\
              exists end1 error s1,
                parse_cmdline_args cmdline len cmd (Z.to_nat (argc d)) 0 end_ 0
                  (hold cmd s) = Ok (Some (end1, error), s1) /\
                converted cmd (hold cmd s) s1 /\
                words_from cmdline len (end1 + 1) =
                  (words_from cmdline len (end_ + 1) - Z.to_nat (argc d))%nat /\
                (r, s') =
                  if negb (error =? 0) then (None, release cmd s1)
                  else if (0 <? words_from cmdline len (end1 + 1))%nat
                  then (None, release cmd (printed msg_too_many_arguments s1))
                  else (Some cmd, release cmd s1))))))).
Proof.
  intros (Hlock & Hlinked & Hsym).
  assert (Hall : Forall (unlocked_at s) (cmd_head s)).
  { eapply Forall_impl; [exact Hlinked|]. intros a (d & ? & ? & _). by exists d. }
  assert (Hschema : forall a d,
            a ∈ cmd_head s -> cmds s !! a = Some d -> schema_ok d).
  { intros a d Hin Hd. rewrite Forall_forall in Hlinked.
    destruct (Hlinked a Hin) as (d' & Hd' & _ & Hok). congruence. }
  assert (Hw : len < 2 ^ word_bits) by lia.
  unfold parse_cmdline.
  destruct (parse_argument_spec cmdline len len_fits Hw 0)
    as [(start & end_ & Harg & _)
       |(start & end_ & Harg & Hr & Hl & _ & Hcnt)]; [lia| |]; rewrite Harg.
  { exists None, s. split; [done|]. left. by exists start, end_. }
  cbn [negb].
  unfold bind at 1, spinlock_lock_cmd_lock. rewrite Hlock.
  unfold bind at 1, gets. unfold bind at 1. simpl cmd_head.
  rewrite parse_cmdline_find_spec by exact Hall.
  change (names_word (set_cmd_lock true s)) with (names_word s).
  destruct (List.find _ _) as [cmd|] eqn:Hfind.
  - assert (cmd ∈ cmd_head s) as Hin
      by (apply find_some in Hfind as [Hin _]; by apply list_elem_of_In).
    rewrite Forall_forall in Hall.
    destruct (Hall cmd Hin) as (d & Hd & Hld).
    unfold bind at 1, spinlock_unlock_cmd_lock, modify.
    rewrite set_cmd_lock_hold by done.
    pose proof (hold_lookup cmd d s Hd) as Hd'.
    unfold bind at 1, get_cmd. rewrite Hd'. simpl argc.
    pose proof (Hschema cmd d Hin Hd) as Hok.
    destruct (parse_cmdline_args_spec cmd (Z.to_nat (argc d)) 0 end_ 0
                (hold cmd s) (set_lock true d))
      as [(Hlt & s1 & Hf & Heq)|(Hge & end1 & e1 & s1 & Heq & Hf & He1 & Hc1)];
      [done|exact Hok|lia|destruct Hok; simpl; lia|lia|exact Hsym|..];
      rewrite (bind_ok _ _ _ _ _ Heq).
    + eexists _, _. split; [reflexivity|]. right.
      exists start, end_. split_and!; [done|lia|lia|done|].
      right. exists cmd, d. split_and!; [done..|].
      left. split; [done|]. by exists s1.
    + assert (is_Some (cmds s1 !! cmd)) as Hs1.
      { destruct Hf as (_ & _ & _ & (? & d' & _ & -> & _) & _). done. }
      assert (exists r s',
        (if negb (e1 =? 0) then spinlock_unlock cmd;; ret None
         else
           let '(extra, _, _) := parse_argument cmdline len (wrap (end1 + 1)) in
           if extra
           then print msg_too_many_arguments;; spinlock_unlock cmd;; ret None
           else spinlock_unlock cmd;; ret (Some cmd)) s1 = Ok (r, s') /\
        (r, s') =
          if negb (e1 =? 0) then (None, release cmd s1)
          else if (0 <? words_from cmdline len (end1 + 1))%nat
          then (None, release cmd (printed msg_too_many_arguments s1))
          else (Some cmd, release cmd s1)) as (r & s' & Hrun & Hres).
      { destruct (negb (e1 =? 0)).
        - eexists _, _. unfold bind. rewrite spinlock_unlock_release by done.
          split; reflexivity.
        - rewrite (wrap_small _ (end1 + 1) Hw) by lia.
          destruct (parse_argument_spec cmdline len len_fits Hw (end1 + 1))
            as [(s2 & e2 & -> & ->)|(s2 & e2 & -> & _ & _ & _ & ->)]; [lia|..].
          + eexists _, _. unfold bind. rewrite spinlock_unlock_release by done.
            split; reflexivity.
          + eexists _, _. unfold bind at 1, print, modify. unfold bind.
            rewrite spinlock_unlock_release by done.
            split; reflexivity. }
      exists r, s'. split; [exact Hrun|]. right.
      exists start, end_. split_and!; [done|lia|lia|done|].
      right. exists cmd, d. split_and!; [done..|].
      right. split; [done|]. by exists end1, e1, s1.
  - eexists _, _. split.
    + unfold bind at 1, spinlock_unlock_cmd_lock, modify.
      unfold bind, print, modify, ret. reflexivity.
    + right. exists start, end_. split_and!; [done|lia|lia|done|].
      left. split_and!; [done..|].
      unfold printed. destruct s; simpl in *; by subst.
Qed.

End ParseCmdline.

Lemma locks_as_refl (s : kstate) : locks_as s s.
Proof. by split. Qed.

Lemma locks_as_printed (s : kstate) (text : list Z) :
  locks_as s (printed text s).
Proof. by split. Qed.

(** Releasing the descriptor after the conversions gives back the locks as
    they were before it was taken. *)
Lemma release_locks_as (cmd : Z) (d : cmd_info) (s s1 : kstate) :
  cmds s !! cmd = Some d -> lock d = false ->
  converted cmd (hold cmd s) s1 ->
  locks_as s (release cmd s1) /\
  exists d1, cmds (release cmd s1) !! cmd = Some d1 /\ lock d1 = false /\
             console (release cmd s1) = console s1.
Proof.
  intros Hd Hl (Hcl & _ & Hoth & (d0 & d1 & _ & Hd1 & _) & _ & _).
  split; [split|].
  - exact Hcl.
  - intros a. unfold release. simpl cmds.
    destruct (decide (a = cmd)) as [->|Hne].
    + rewrite lookup_alter_eq, Hd1, Hd. simpl. by rewrite Hl.
    + rewrite lookup_alter_ne, Hoth by done.
      unfold hold. simpl. by rewrite lookup_alter_ne.
  - exists (set_lock false d1). unfold release. simpl.
    by rewrite lookup_alter_eq, Hd1.
Qed.

Lemma converted_printed (cmd : Z) (s s1 : kstate) (text : list Z) :
  converted cmd s s1 -> converted cmd s (printed text s1).
Proof.
  intros Hc. eapply converted_trans; [exact Hc|].
  apply converted_print.
  destruct Hc as (_ & _ & _ & (? & d' & _ & -> & _) & _). done.
Qed.

(** C3 (as amended).  [parse_cmdline] returns with every lock as it found
    it, on success as on failure.  On success the state it returns is the
    state that the argument loop, started behind the first word, produces
    from the state with the lock of the matched descriptor taken, with that
    lock released; [kconsole] then calls the handler in this state, with
    the lock of the descriptor free. *)
Theorem parse_cmdline_returns_unlocked (cmdline : list Z) (len : Z)
    (s : kstate) :
  0 <= len <= Z.of_nat (length cmdline) -> len + 2 < 2 ^ word_bits ->
  parser_ready s ->
  exists r s',
    parse_cmdline cmdline len s = Ok (r, s') /\
    locks_as s s' /\
    forall cmd, r = Some cmd ->
      exists d1 s1 start end_ end1,
        parse_argument cmdline len 0 = (true, start, end_) /\
        parse_cmdline_args cmdline len cmd (Z.to_nat (argc d1)) 0 end_ 0
          (hold cmd s) = Ok (Some (end1, 0), s1) /\
        cmds s1 !! cmd = Some d1 /\ lock d1 = true /\
        s' = release cmd s1 /\
        cmds s' !! cmd = Some (set_lock false d1) /\
        kconsole_dispatch cmdline len s =
          (call_handler (func d1) (argv d1) ;; ret tt) s'.
Proof.
  intros Hlen Hbits Hready.
  destruct (parse_cmdline_cases cmdline len Hlen Hbits s Hready)
    as (r & s' & Hrun & Hcase).
  exists r, s'. split; [exact Hrun|].
  assert (Hdisp : forall cmd d', r = Some cmd -> cmds s' !! cmd = Some d' ->
    kconsole_dispatch cmdline len s =
      (call_handler (func d') (argv d') ;; ret tt) s').
  { intros cmd d' -> Hd'. unfold kconsole_dispatch.
    rewrite (bind_ok _ _ _ _ _ Hrun). unfold bind at 1, get_cmd.
    by rewrite Hd'. }
  destruct Hcase as [(? & ? & _ & -> & ->)
    |(start & end_ & Hword & _ & _ &
      [(_ & -> & ->)
      |(cmd & d & _ & _ & Hd & Hl &
        [(_ & s1 & Hf & -> & ->)
        |(_ & end1 & e & s1 & Hargs & Hf & _ & Hres)])])].
  - split; [apply locks_as_refl|done].
  - split; [apply locks_as_printed|done].
  - split; [|done].
    by apply (release_locks_as cmd d), converted_printed.
  - destruct (Z.eqb_spec e 0) as [->|Hne]; simpl in Hres;
      [destruct (0 <? _)%nat|]; injection Hres as -> ->.
    + split; [|done].
      by apply (release_locks_as cmd d), converted_printed.
    + destruct (release_locks_as cmd d s s1 Hd Hl Hf) as (Hlocks & _).
      split; [done|]. intros ? [= <-].
      pose proof Hf as (_ & _ & _ & (d0 & d1 & Hd0 & Hd1 & Hsh) & _ & _).
      rewrite (hold_lookup cmd d s Hd) in Hd0. injection Hd0 as <-.
      destruct Hsh as (Hlk & _ & _ & _ & Hargc & _). simpl in Hlk, Hargc.
      assert (cmds (release cmd s1) !! cmd = Some (set_lock false d1)) as Hd'
        by (unfold release; simpl; by rewrite lookup_alter_eq, Hd1).
      exists d1, s1, start, end_, end1. rewrite Hargc.
      split_and!; [done..|]. by apply (Hdisp cmd (set_lock false d1)).
    + split; [|done]. by apply (release_locks_as cmd d).
Qed.

(** C6 (as amended).  When the first word names a command and fewer words
    follow than it declares arguments, [parse_cmdline] returns NULL after
    "Too few arguments.", and the handler is not called.  When more words
    follow, it returns NULL, the handler is not called, and the report is
    "Too many arguments." provided [error] is clear when the argument loop
    is left; with [error] set nothing more is printed. *)
Theorem parse_cmdline_arity (cmdline : list Z) (len start end_ cmd : Z)
    (d : cmd_info) (s : kstate) :
  0 <= len <= Z.of_nat (length cmdline) -> len + 2 < 2 ^ word_bits ->
  parser_ready s ->
  parse_argument cmdline len 0 = (true, start, end_) ->
  List.find (names_word s cmdline start end_) (cmd_head s) = Some cmd ->
  cmds s !! cmd = Some d ->
  (Z.of_nat (words_from cmdline len 0) - 1 < argc d ->
   exists s' out,
     parse_cmdline cmdline len s = Ok (None, s') /\
     kconsole_dispatch cmdline len s = Ok (tt, s') /\
     console s' = console s ++ out ++ msg_too_few_arguments)
  /\
  (argc d < Z.of_nat (words_from cmdline len 0) - 1 ->
   exists s' end1 error s1,
     parse_cmdline_args cmdline len cmd (Z.to_nat (argc d)) 0 end_ 0
       (hold cmd s) = Ok (Some (end1, error), s1) /\
     parse_cmdline cmdline len s = Ok (None, s') /\
     kconsole_dispatch cmdline len s = Ok (tt, s') /\
     (error = 0 -> console s' = console s1 ++ msg_too_many_arguments) /\
     (error <> 0 -> console s' = console s1)).
Proof.
  intros Hlen Hbits Hready Harg Hfind Hd.
  destruct (parse_cmdline_cases cmdline len Hlen Hbits s Hready)
    as (r & s' & Hrun & Hcase).
  assert (Hdisp : r = None -> kconsole_dispatch cmdline len s = Ok (tt, s')).
  { intros ->. unfold kconsole_dispatch. by rewrite (bind_ok _ _ _ _ _ Hrun). }
  destruct Hcase as [(? & ? & Harg' & _)
    |(start' & end' & Harg' & _ & Hwords &
      [(Hfind' & _)|(cmd' & d' & Hfind' & _ & Hd' & Hl & Hcase)])];
    rewrite Harg in Harg'; [done|injection Harg' as <- <-..].
  { congruence. }
  rewrite Hfind in Hfind'. injection Hfind' as <-.
  assert (d' = d) as -> by congruence.
  assert (0 <= argc d) as Hargc.
  { destruct Hready as (_ & Hlinked & _).
    apply find_some in Hfind as [Hin _]. apply list_elem_of_In in Hin.
    rewrite Forall_forall in Hlinked.
    destruct (Hlinked cmd Hin) as (d2 & Hd2 & _ & [[? _] _]). congruence. }
  destruct Hcase as [(Hlt & s1 & Hf & -> & ->)
                    |(Hge & end1 & e & s1 & Hargs & Hf & Hrest & Hres)].
  - split; [|lia]. intros _.
    destruct (release_locks_as cmd d s (printed msg_too_few_arguments s1) Hd Hl
                (converted_printed _ _ _ _ Hf)) as (_ & _ & _ & _ & Hcons).
    destruct Hf as (_ & _ & _ & _ & _ & (out & Hout)).
    exists (release cmd (printed msg_too_few_arguments s1)), out.
    split_and!; [done|by apply Hdisp|].
    rewrite Hcons. unfold printed. simpl. rewrite Hout.
    by rewrite <- app_assoc.
  - split; [lia|]. intros Hmany.
    assert ((0 <? words_from cmdline len (end1 + 1))%nat = true) as Hextra
      by (apply Nat.ltb_lt; lia).
    rewrite Hextra in Hres.
    exists s', end1, e, s1. split; [exact Hargs|].
    destruct (Z.eqb_spec e 0) as [->|Hne]; simpl in Hres;
      injection Hres as -> ->.
    + destruct (release_locks_as cmd d s (printed msg_too_many_arguments s1)
                  Hd Hl (converted_printed _ _ _ _ Hf))
        as (_ & _ & _ & _ & Hcons).
      split_and!; [done|by apply Hdisp| |done].
      intros _. by rewrite Hcons.
    + destruct (release_locks_as cmd d s s1 Hd Hl Hf)
        as (_ & _ & _ & _ & Hcons).
      split_and!; [done|by apply Hdisp|done|]. intros _. exact Hcons.
Qed.

(** ** The line editor *)

Lemma bind_inv {A B} (m : M A) (k : A -> M B) (s : kstate) (r : B * kstate) :
  bind m k s = Ok r -> exists a s1, m s = Ok (a, s1) /\ k a s1 = Ok r.
Proof.
  unfold bind. destruct (m s) as [[a s1]|]; [|done]. intros H. by exists a, s1.
Qed.

Ltac rl_inv H :=
  repeat first
    [ apply bind_inv in H as (? & ? & ? & H)
    | match type of H with
      | (if ?b then _ else _) _ = Ok _ => destruct b eqn:?
      end ].

(** A byte that is no editing key, arriving when the line is full, is
    dropped: the buffer, the caret and the console stay as they are. *)
Lemma rl_iteration_full_line (prompt : list Z) (v : rl_vars) (s : kstate)
    (c : Z) (rest : list Z) :
  stdin s = c :: rest ->
  c <> 10 -> c <> 8 -> c <> 9 -> c <> 27 ->
  MAX_CMDLINE <= curlen v ->
  rl_iteration prompt v s = Ok (Continue v, set_stdin rest s).
Proof.
  intros Hin H10 H8 H9 H27 Hfull.
  unfold rl_iteration, bind at 1, _getc. rewrite Hin.
  destruct (Z.eqb_spec c 10); [done|]. destruct (Z.eqb_spec c 8); [done|].
  destruct (Z.eqb_spec c 9); [done|]. destruct (Z.eqb_spec c 27); [done|].
  by destruct (Z.leb_spec MAX_CMDLINE (curlen v)); [|lia].
Qed.

(** Apart from the tabulator and the history keys, every key keeps the
    caret within the line and the line within its capacity. *)
Lemma rl_iteration_keeps_bounds (prompt : list Z) (v : rl_vars)
    (s s' : kstate) (r : rl_next) :
  rl_bounds v ->
  head (stdin s) <> Some 9 ->
  (head (stdin s) = Some 27 ->
   stdin s !! 2%nat <> Some 65 /\ stdin s !! 2%nat <> Some 66) ->
  rl_iteration prompt v s = Ok (r, s') ->
  rl_bounds (rl_vars_of r).
Proof.
  intros [Hpos Hlen] Htab Hhist Hrun.
  unfold rl_iteration in Hrun.
  apply bind_inv in Hrun as (c & s1 & Hc & Hrun).
  unfold _getc in Hc. destruct (stdin s) as [|c0 rest] eqn:Hin; [done|].
  injection Hc as <- <-. simpl in Htab, Hhist.
  destruct (Z.eqb_spec c0 10).
  { rl_inv Hrun. injection Hrun as <- _. by split. }
  destruct (Z.eqb_spec c0 8).
  { destruct (Z.eqb_spec (position v) 0).
    - injection Hrun as <- _. by split.
    - rl_inv Hrun. injection Hrun as <- _. split; simpl; lia. }
  destruct (Z.eqb_spec c0 9); [congruence|].
  destruct (Z.eqb_spec c0 27) as [->|].
  { destruct (Hhist eq_refl) as [H65 H66]. clear Hhist.
    unfold rl_escape in Hrun.
    apply bind_inv in Hrun as (m & s2 & Hm & Hrun).
    apply bind_inv in Hrun as (k & s3 & Hk & Hrun).
    unfold _getc in Hm, Hk. simpl in Hm.
    destruct rest as [|m0 rest]; [done|]. injection Hm as <- <-.
    simpl in Hk. destruct rest as [|k0 rest]; [done|]. injection Hk as <- <-.
    simpl in H65, H66.
    destruct (negb (m0 =? 91) && negb (m0 =? 79)).
    { injection Hrun as <- _. by split. }
    apply bind_inv in Hrun as (del & s4 & _ & Hrun).
    destruct del.
    { destruct (Z.eqb_spec (position v) (curlen v)).
      - injection Hrun as <- _. by split.
      - rl_inv Hrun. injection Hrun as <- _. split; simpl; lia. }
    destruct (k0 =? 72).
    { rl_inv Hrun. injection Hrun as <- _. split; simpl; lia. }
    destruct (k0 =? 70).
    { rl_inv Hrun. injection Hrun as <- _. split; simpl; lia. }
    destruct (k0 =? 68).
    { destruct (Z.ltb_spec 0 (position v)).
      - rl_inv Hrun. injection Hrun as <- _. split; simpl; lia.
      - injection Hrun as <- _. by split. }
    destruct (k0 =? 67).
    { destruct (Z.ltb_spec (position v) (curlen v)).
      - rl_inv Hrun. injection Hrun as <- _. split; simpl; lia.
      - injection Hrun as <- _. by split. }
    destruct (Z.eqb_spec k0 65); [congruence|].
    destruct (Z.eqb_spec k0 66); [congruence|].
    simpl in Hrun. injection Hrun as <- _. by split. }
  destruct (Z.leb_spec MAX_CMDLINE (curlen v)).
  { injection Hrun as <- _. by split. }
  rl_inv Hrun. injection Hrun as <- _. split; simpl; lia.
Qed.

(** The "previous" key moves the history cursor one slot back, modulo the
    number of slots. *)
Lemma rl_escape_up_wraps (v : rl_vars) (s s' : kstate) (r : rl_next)
    (rest : list Z) :
  0 < KCONSOLE_HISTORY -> 0 <= histposition s < KCONSOLE_HISTORY ->
  stdin s = 91 :: 65 :: rest ->
  rl_escape v s = Ok (r, s') ->
  histposition s' = (histposition s - 1) mod KCONSOLE_HISTORY /\
  current (rl_vars_of r) = histposition s' * MAX_CMDLINE.
Proof.
  intros HK Hhp Hin Hrun. unfold rl_escape in Hrun.
  apply bind_inv in Hrun as (m & s2 & Hm & Hrun).
  apply bind_inv in Hrun as (k & s3 & Hk & Hrun).
  unfold _getc in Hm, Hk. rewrite Hin in Hm. injection Hm as <- <-.
  simpl in Hk. injection Hk as <- <-. simpl in Hrun.
  apply bind_inv in Hrun as (del & s4 & Hdel & Hrun).
  injection Hdel as <- <-.
  apply bind_inv in Hrun as (? & s5 & H5 & Hrun). injection H5 as _ <-.
  apply bind_inv in Hrun as (? & s6 & H6 & Hrun). injection H6 as _ <-.
  apply bind_inv in Hrun as (? & s7 & H7 & Hrun). injection H7 as _ <-.
  apply bind_inv in Hrun as (hp & s8 & H8 & Hrun). injection H8 as <- <-.
  simpl histposition in Hrun.
  apply bind_inv in Hrun as (? & s9 & H9 & Hrun). injection H9 as _ <-.
  apply bind_inv in Hrun as (? & s10 & H10 & Hrun).
  apply bind_inv in Hrun as (n & s11 & H11 & Hrun).
  injection Hrun as <- <-. simpl.
  assert (histposition s11 =
          (if histposition s - 1 <? 0 then KCONSOLE_HISTORY - 1
           else Z.rem (histposition s - 1) KCONSOLE_HISTORY)) as ->.
  { unfold strlen_history, bind, gets, lift in H11.
    destruct (strlen_at _ _); [|done]. injection H11 as _ <-.
    unfold put_string in H10.
    apply bind_inv in H10 as (? & s12 & H12 & H10).
    unfold strlen_history, bind, gets, lift in H12.
    destruct (strlen_at _ _); [|done]. injection H12 as _ <-.
    clear -H10.
    assert (forall str cnt i s0 s1 u,
      for_up cnt i (fun i => do c <- load_history (str + i) ;; putchar c) s0
        = Ok (u, s1) -> histposition s1 = histposition s0) as Hfor.
    { intros str cnt. induction cnt as [|cnt IH]; intros i s0 s1 u Hf.
      - by injection Hf as _ <-.
      - simpl in Hf. apply bind_inv in Hf as (? & sa & Ha & Hf).
        apply IH in Hf. rewrite Hf.
        apply bind_inv in Ha as (? & sb & Hb & Ha).
        unfold load_history, bind, gets, lift in Hb.
        destruct (load _ _); [|done]. injection Hb as _ <-.
        by injection Ha as _ <-. }
    unfold put_range in H10. by apply Hfor in H10. }
  split; [|done].
  destruct (Z.ltb_spec (histposition s - 1) 0).
  - assert (histposition s = 0) as -> by lia.
    symmetry. rewrite <- (Z.mod_unique_pos (0 - 1) KCONSOLE_HISTORY (-1)
                           (KCONSOLE_HISTORY - 1)); [done|lia|lia].
  - rewrite Z.rem_mod_nonneg by lia. done.
Qed.

(** Leaving the loop: the pointer returned is [current], the byte at its
    length is NUL, and on an empty line the history cursor stays. *)
Lemma rl_leave_spec (v : rl_vars) (s s' : kstate) (p : Z) :
  rl_leave v s = Ok (p, s') ->
  p = current v /\
  load (history s') (current v + curlen v) = Ok 0 /\
  (curlen v = 0 -> histposition s' = histposition s) /\
  (curlen v <> 0 ->
   histposition s' = Z.rem (histposition s + 1) KCONSOLE_HISTORY).
Proof.
  unfold rl_leave. intros Hrun.
  apply bind_inv in Hrun as (? & s1 & H1 & Hrun).
  apply bind_inv in Hrun as (? & s2 & H2 & Hrun).
  injection Hrun as <- <-. split; [done|].
  unfold store_history in H2.
  apply bind_inv in H2 as (h & s3 & H3 & H2). injection H3 as <- <-.
  apply bind_inv in H2 as (h' & s4 & H4 & H2).
  unfold lift in H4. destruct (store _ _ _) as [h2|] eqn:Hst; [|done].
  injection H4 as <- <-. injection H2 as _ <-. simpl.
  split.
  - unfold store in Hst.
    destruct (Z.leb_spec 0 (current v + curlen v)); [|done].
    destruct (Z.ltb_spec (current v + curlen v) (Z.of_nat (length (history s1))));
      [|done].
    injection Hst as <-. unfold load.
    destruct (Z.ltb_spec (current v + curlen v) 0); [lia|].
    rewrite list_lookup_insert_eq by lia. done.
  - destruct (Z.eqb_spec (curlen v) 0) as [Hz|Hnz]; simpl in H1.
    + injection H1 as _ <-. split; [done|lia].
    + apply bind_inv in H1 as (hp & s5 & H5 & H1). injection H5 as <- <-.
      injection H1 as _ <-. split; [lia|done].
Qed.

(** ** The history as an array of bytes *)

Lemma load_insert_eq (h : list Z) (i c : Z) :
  0 <= i < Z.of_nat (length h) -> load (<[Z.to_nat i := c]> h) i = Ok c.
Proof.
  intros Hi. unfold load. destruct (Z.ltb_spec i 0); [lia|].
  by rewrite list_lookup_insert_eq by lia.
Qed.

Lemma load_insert_ne (h : list Z) (i j c : Z) :
  0 <= i -> 0 <= j -> i <> j -> load (<[Z.to_nat i := c]> h) j = load h j.
Proof.
  intros Hi Hj Hne. unfold load. destruct (Z.ltb_spec j 0); [lia|].
  by rewrite list_lookup_insert_ne by lia.
Qed.

Lemma load_range (h : list Z) (i c : Z) :
  load h i = Ok c -> 0 <= i < Z.of_nat (length h).
Proof.
  unfold load. destruct (Z.ltb_spec i 0); [done|].
  destruct (h !! Z.to_nat i) eqn:Hl; [|done]. intros _.
  apply lookup_lt_Some in Hl. lia.
Qed.

Lemma load_drop (h : list Z) (i c : Z) :
  load h i = Ok c -> drop (Z.to_nat i) h = c :: drop (Z.to_nat (i + 1)) h.
Proof.
  unfold load. destruct (Z.ltb_spec i 0); [done|].
  destruct (h !! Z.to_nat i) eqn:Hl; [|done]. intros [= <-].
  rewrite (drop_S _ _ _ Hl). by replace (Z.to_nat (i + 1)) with (S (Z.to_nat i)) by lia.
Qed.

(** A string that is spelled out in the array, NUL included, is what
    [strlen] and the string view find there. *)
Lemma string_in_array (h : list Z) (w : list Z) : forall off : Z,
  0 <= off ->
  Forall (fun c => c <> 0) w ->
  (forall j : nat, (j < length w)%nat ->
     load h (off + Z.of_nat j) = Ok (char_at w j)) ->
  load h (off + Z.of_nat (length w)) = Ok 0 ->
  cstr (drop (Z.to_nat off) h) = w /\
  strlen_at h off = Ok (Z.of_nat (length w)).
Proof.
  assert (Hcstr : forall off : Z,
    0 <= off ->
    Forall (fun c => c <> 0) w ->
    (forall j : nat, (j < length w)%nat ->
       load h (off + Z.of_nat j) = Ok (char_at w j)) ->
    load h (off + Z.of_nat (length w)) = Ok 0 ->
    cstr (drop (Z.to_nat off) h) = w).
  { induction w as [|c w IH]; intros off Hoff Hnz Hw Hend.
    - simpl in Hend. rewrite Z.add_0_r in Hend.
      by rewrite (load_drop _ _ _ Hend).
    - apply Forall_cons in Hnz as [Hc Hnz].
      pose proof (Hw 0%nat ltac:(simpl; lia)) as H0.
      rewrite Z.add_0_r in H0. unfold char_at in H0. simpl in H0.
      rewrite (load_drop _ _ _ H0). simpl.
      destruct (Z.eqb_spec c 0); [done|]. f_equal.
      apply IH; [lia|done| |].
      + intros j Hj. specialize (Hw (S j) ltac:(simpl; lia)).
        unfold char_at in *. simpl in Hw.
        by replace (off + 1 + Z.of_nat j) with (off + Z.of_nat (S j)) by lia.
      + simpl in Hend.
        by replace (off + 1 + Z.of_nat (length w))
          with (off + Z.of_nat (S (length w))) by lia. }
  intros off Hoff Hnz Hw Hend.
  pose proof (Hcstr off Hoff Hnz Hw Hend) as Heq. split; [done|].
  unfold strlen_at. destruct (Z.ltb_spec off 0); [lia|].
  unfold strlen. rewrite Heq.
  apply load_range in Hend. rewrite length_drop.
  destruct (Nat.ltb_spec (length w) (length h - Z.to_nat off)); [done|lia].
Qed.

Lemma same_ring_refl (s : kstate) : same_ring s s.
Proof. by repeat split. Qed.

Lemma same_ring_trans (s1 s2 s3 : kstate) :
  same_ring s1 s2 -> same_ring s2 s3 -> same_ring s1 s3.
Proof. intros (? & ? & ?) (? & ? & ?). repeat split; congruence. Qed.

Lemma print_same_ring (text : list Z) (s : kstate) :
  exists s', print text s = Ok (tt, s') /\ same_ring s s'.
Proof. eexists. split; [reflexivity|]. by repeat split. Qed.

Lemma load_history_ok (i c : Z) (s : kstate) :
  load (history s) i = Ok c -> load_history i s = Ok (c, s).
Proof. intros H. unfold load_history, bind, gets, lift. by rewrite H. Qed.

Lemma store_history_ok (i c : Z) (s : kstate) :
  0 <= i < Z.of_nat (length (history s)) ->
  store_history i c s = Ok (tt, set_history (<[Z.to_nat i := c]> (history s)) s).
Proof.
  intros Hi. unfold store_history, bind, gets, lift, modify.
  by rewrite store_ok.
Qed.

Lemma strlen_history_ok (off n : Z) (s : kstate) :
  strlen_at (history s) off = Ok n -> strlen_history off s = Ok (n, s).
Proof. intros H. unfold strlen_history, bind, gets, lift. by rewrite H. Qed.

(** Echoing bytes that are in the array succeeds and leaves the ring. *)
Lemma put_range_ok (str : Z) (s : kstate) (to : Z) : forall from : Z,
  0 <= str + from -> str + to <= Z.of_nat (length (history s)) ->
  exists s', put_range str from to s = Ok (tt, s') /\ same_ring s s'.
Proof.
  unfold put_range. intros from.
  remember (Z.to_nat (to - from)) as cnt eqn:Hcnt.
  revert from s Hcnt.
  induction cnt as [|cnt IH]; intros from s Hcnt Hlo Hhi.
  - exists s. split; [done|apply same_ring_refl].
  - simpl.
    destruct (lookup_lt_is_Some_2 (history s) (Z.to_nat (str + from)))
      as [c Hc]; [lia|].
    assert (load (history s) (str + from) = Ok c) as Hload.
    { unfold load. destruct (Z.ltb_spec (str + from) 0); [lia|]. by rewrite Hc. }
    unfold bind at 1. unfold bind at 1.
    rewrite (load_history_ok _ _ _ Hload).
    unfold putchar, print, modify.
    destruct (IH (from + 1) (set_console (console s ++ [c]) s))
      as (s' & Hrun & Hring); [lia|lia|simpl; lia|].
    exists s'. split; [exact Hrun|].
    eapply same_ring_trans; [|exact Hring]. by repeat split.
Qed.

Lemma rdln_print_c_same_ring (ch count : Z) (s : kstate) :
  exists s', rdln_print_c ch count s = Ok (tt, s') /\ same_ring s s'.
Proof. apply print_same_ring. Qed.

(** ** Typing a line *)

Lemma char_at_app_l (w : list Z) (c : Z) (j : nat) :
  (j < length w)%nat -> char_at (w ++ [c]) j = char_at w j.
Proof. intros Hj. unfold char_at. by rewrite lookup_app_l. Qed.

Lemma char_at_app_end (w : list Z) (c : Z) :
  char_at (w ++ [c]) (length w) = c.
Proof. unfold char_at. by rewrite list_lookup_middle. Qed.

Lemma char_at_beyond (w : list Z) (j : nat) :
  (length w <= j)%nat -> char_at w j = 0.
Proof. intros Hj. unfold char_at. by rewrite lookup_ge_None_2. Qed.

Lemma plain_nonzero (l : list Z) :
  Forall plain l -> Forall (fun c => c <> 0) l.
Proof. intros H. eapply Forall_impl; [exact H|]. by intros c [? _]. Qed.

(** The string of a row that holds [w]. *)
Lemma row_holds_string (h : list Z) (k : Z) (w : list Z) :
  0 <= k -> row_holds h k w ->
  Forall (fun c => c <> 0) w -> Z.of_nat (length w) < MAX_CMDLINE ->
  cstr (drop (Z.to_nat (k * MAX_CMDLINE)) h) = w /\
  strlen_at h (k * MAX_CMDLINE) = Ok (Z.of_nat (length w)).
Proof.
  intros Hk Hrow Hnz Hlen. apply string_in_array; [nia|done| |].
  - intros j Hj. rewrite Hrow by lia. by rewrite Nat2Z.id.
  - rewrite Hrow by lia. rewrite Nat2Z.id. by rewrite char_at_beyond.
Qed.

(** Writing the byte behind [w] in row [k]. *)
Lemma row_holds_append (h : list Z) (k : Z) (w : list Z) (c : Z) :
  0 <= k -> row_holds h k w -> Z.of_nat (length w) < MAX_CMDLINE ->
  row_holds (<[Z.to_nat (k * MAX_CMDLINE + Z.of_nat (length w)) := c]> h) k
    (w ++ [c]).
Proof.
  intros Hk Hrow Hlen j Hj.
  destruct (decide (j = Z.of_nat (length w))) as [->|Hne].
  - rewrite load_insert_eq.
    + by rewrite Nat2Z.id, char_at_app_end.
    + apply (load_range _ _ _ (Hrow _ Hj)).
  - rewrite load_insert_ne by nia. rewrite Hrow by done.
    destruct (Z.lt_ge_cases j (Z.of_nat (length w))).
    + by rewrite char_at_app_l by lia.
    + rewrite (char_at_beyond w) by lia.
      rewrite char_at_beyond; [done|]. rewrite length_app. simpl. lia.
Qed.

Lemma row_holds_other (h : list Z) (k k' : Z) (w w' : list Z) (c : Z) :
  0 <= k -> 0 <= k' -> k <> k' -> 0 <= Z.of_nat (length w) < MAX_CMDLINE ->
  row_holds h k' w' ->
  row_holds (<[Z.to_nat (k * MAX_CMDLINE + Z.of_nat (length w)) := c]> h) k' w'.
Proof.
  intros Hk Hk' Hne Hlen Hrow j Hj.
  rewrite load_insert_ne; [by apply Hrow|nia|nia|nia].
Qed.

(** One plain byte typed at the end of the line. *)
Lemma rl_iteration_type (prompt : list Z) (k : Z) (w : list Z) (c : Z)
    (rest : list Z) (s : kstate) :
  0 <= k -> row_holds (history s) k w ->
  Forall (fun c => c <> 0) w -> Z.of_nat (length w) < MAX_CMDLINE ->
  plain c -> stdin s = c :: rest ->
  exists s',
    rl_iteration prompt
      (mk_rl_vars (k * MAX_CMDLINE) (Z.of_nat (length w)) (Z.of_nat (length w)))
      s =
      Ok (Continue (mk_rl_vars (k * MAX_CMDLINE) (Z.of_nat (length w) + 1)
                      (Z.of_nat (length w) + 1)), s') /\
    history s' =
      <[Z.to_nat (k * MAX_CMDLINE + Z.of_nat (length w)) := c]> (history s) /\
    histposition s' = histposition s /\
    stdin s' = rest.
Proof.
  intros Hk Hrow Hnz Hlen (H0 & H10 & H8 & H9 & H27) Hin.
  unfold rl_iteration. simpl current. simpl curlen. simpl position.
  assert (_getc s = Ok (c, set_stdin rest s)) as Hget
    by (unfold _getc; by rewrite Hin).
  rewrite (bind_ok _ _ _ _ _ Hget).
  destruct (Z.eqb_spec c 10); [done|]. destruct (Z.eqb_spec c 8); [done|].
  destruct (Z.eqb_spec c 9); [done|]. destruct (Z.eqb_spec c 27); [done|].
  destruct (Z.leb_spec MAX_CMDLINE (Z.of_nat (length w))); [lia|].
  set (s1 := set_stdin rest s).
  set (at_ := k * MAX_CMDLINE + Z.of_nat (length w)).
  destruct (row_holds_string (history s) k w Hk Hrow Hnz Hlen) as [_ Hstrlen].
  assert (0 <= at_ < Z.of_nat (length (history s1))) as Hat
    by (apply (load_range _ _ (char_at w (Z.to_nat (Z.of_nat (length w)))));
        apply Hrow; lia).
  assert (insert_char (k * MAX_CMDLINE) c (Z.of_nat (length w)) s1 =
          Ok (tt, set_history (<[Z.to_nat at_ := c]> (history s1)) s1)) as Hins.
  { unfold insert_char.
    rewrite (bind_ok _ _ _ _ _ (strlen_history_ok _ _ s1 Hstrlen)).
    rewrite Z.sub_diag. simpl insert_char_shift.
    unfold bind at 1, ret. by apply store_history_ok. }
  rewrite (bind_ok _ _ _ _ _ Hins).
  set (s2 := set_history _ s1).
  destruct (put_range_ok (k * MAX_CMDLINE) s2 (Z.of_nat (length w) + 1)
              (Z.of_nat (length w)))
    as (s3 & Hput & Hring3);
    [unfold at_ in Hat; lia
    |unfold at_ in Hat; simpl in Hat |- *; rewrite length_insert; lia|].
  rewrite (bind_ok _ _ _ _ _ Hput).
  destruct (rdln_print_c_same_ring 8
              (Z.of_nat (length w) + 1 - (Z.of_nat (length w) + 1)) s3)
    as (s4 & Hpr & Hring4).
  rewrite (bind_ok _ _ _ _ _ Hpr).
  exists s4. split; [reflexivity|].
  destruct (same_ring_trans _ _ _ Hring3 Hring4) as (Hh & Hp & Hi).
  by rewrite Hh, Hp, Hi.
Qed.

(** A line typed from the caret at the end up to the newline: the row ends
    up holding it, and the other rows are not touched. *)
Lemma rl_iterate_type_line (prompt : list Z) (k : Z) (l : list Z) :
  forall (w : list Z) (fuel : nat) (rest : list Z) (s : kstate),
  0 <= k -> row_holds (history s) k w ->
  Forall (fun c => c <> 0) w -> Forall plain l ->
  Z.of_nat (length w) + Z.of_nat (length l) < MAX_CMDLINE ->
  stdin s = l ++ 10 :: rest -> (length l < fuel)%nat ->
  exists s',
    rl_iterate prompt fuel
      (mk_rl_vars (k * MAX_CMDLINE) (Z.of_nat (length w)) (Z.of_nat (length w)))
      s =
      Ok (Break (mk_rl_vars (k * MAX_CMDLINE) (Z.of_nat (length (w ++ l)))
                   (Z.of_nat (length (w ++ l)))), s') /\
    row_holds (history s') k (w ++ l) /\
    (forall k' w', 0 <= k' -> k' <> k ->
       row_holds (history s) k' w' -> row_holds (history s') k' w') /\
    histposition s' = histposition s /\
    stdin s' = rest.
Proof.
  induction l as [|c l IH]; intros w fuel rest s Hk Hrow Hnz Hpl Hlen Hin Hfuel.
  - destruct fuel as [|fuel]; [simpl in Hfuel; lia|].
    simpl rl_iterate. unfold rl_iteration.
    assert (_getc s = Ok (10, set_stdin rest s)) as Hget
      by (unfold _getc; by rewrite Hin).
    rewrite (bind_ok _ _ _ _ _ (bind_ok _ _ _ _ _ Hget)).
    simpl. rewrite app_nil_r. eexists. split; [reflexivity|].
    by repeat split.
  - destruct fuel as [|fuel]; [simpl in Hfuel; lia|].
    apply Forall_cons in Hpl as [Hc Hpl]. simpl in Hlen, Hfuel.
    destruct (rl_iteration_type prompt k w c (l ++ 10 :: rest) s)
      as (s1 & Hrun & Hh & Hp & Hi); [done|done|done|lia|done|done|].
    simpl rl_iterate. rewrite (bind_ok _ _ _ _ _ Hrun).
    destruct (IH (w ++ [c]) fuel rest s1)
      as (s2 & Hrun2 & Hrow2 & Hoth2 & Hp2 & Hi2).
    + done.
    + rewrite Hh. apply row_holds_append; [done|done|lia].
    + apply Forall_app. split; [done|]. apply Forall_singleton. by destruct Hc.
    + done.
    + rewrite length_app. simpl. lia.
    + done.
    + lia.
    + exists s2.
      replace (Z.of_nat (length w) + 1) with (Z.of_nat (length (w ++ [c])))
        by (rewrite length_app; simpl; lia).
      rewrite <- app_assoc in Hrun2, Hrow2. simpl in Hrun2, Hrow2.
      split; [exact Hrun2|]. split; [exact Hrow2|].
      split; [|split; congruence].
      intros k' w' Hk' Hne Hrow'. apply Hoth2; [done|done|].
      rewrite Hh. apply row_holds_other; [done|done|congruence|lia|done].
Qed.

(** Leaving the loop on a line that is not empty and is shorter than its
    row: the terminator is in place already, and the history cursor moves
    on. *)
Lemma rl_leave_short_line (k : Z) (w : list Z) (s : kstate) :
  0 <= k -> row_holds (history s) k w ->
  w <> [] -> Z.of_nat (length w) < MAX_CMDLINE ->
  rl_leave
    (mk_rl_vars (k * MAX_CMDLINE) (Z.of_nat (length w)) (Z.of_nat (length w)))
    s =
    Ok (k * MAX_CMDLINE,
        set_histposition (Z.rem (histposition s + 1) KCONSOLE_HISTORY) s).
Proof.
  intros Hk Hrow Hne Hlen. unfold rl_leave. simpl current. simpl curlen.
  destruct (Z.eqb_spec (Z.of_nat (length w)) 0) as [H0|_].
  { destruct w; [done|simpl in H0; lia]. }
  simpl negb. cbv iota.
  unfold bind at 1. unfold bind at 1, gets. unfold modify.
  pose proof (Hrow (Z.of_nat (length w)) ltac:(lia)) as Hz.
  rewrite Nat2Z.id, char_at_beyond in Hz by done.
  unfold bind at 1. rewrite store_history_ok by (apply (load_range _ _ _ Hz)).
  simpl history.
  rewrite list_insert_id.
  - unfold ret. by destruct s.
  - unfold load in Hz.
    destruct (Z.ltb_spec (k * MAX_CMDLINE + Z.of_nat (length w)) 0); [done|].
    by destruct (history s !! _) as [x|]; [injection Hz as ->|].
Qed.

(** A whole session in which a short line is typed into an empty row. *)
Lemma clever_readline_short_line (prompt : list Z) (l rest : list Z)
    (s : kstate) :
  0 <= histposition s ->
  row_holds (history s) (histposition s) [] ->
  short_line l -> stdin s = l ++ 10 :: rest ->
  exists s',
    clever_readline prompt s = Ok (histposition s * MAX_CMDLINE, s') /\
    row_holds (history s') (histposition s) l /\
    (forall k' w', 0 <= k' -> k' <> histposition s ->
       row_holds (history s) k' w' -> row_holds (history s') k' w') /\
    histposition s' = Z.rem (histposition s + 1) KCONSOLE_HISTORY /\
    stdin s' = rest.
Proof.
  intros Hk Hrow (Hpl & Hne & Hlen) Hin.
  unfold clever_readline, rl_enter.
  unfold bind at 1. unfold bind at 1, gets. unfold bind at 1, print, modify.
  unfold ret. unfold bind at 1, gets. simpl stdin.
  set (s0 := set_console _ s).
  destruct (rl_iterate_type_line prompt (histposition s) l [] 
              (S (length (stdin s))) rest s0)
    as (s1 & Hrun & Hrow1 & Hoth1 & Hp1 & Hi1);
    [done|done|done|done|simpl; lia|done|rewrite Hin, length_app; simpl; lia|].
  simpl length in Hrun at 1 2. simpl Z.of_nat in Hrun at 1 2.
  rewrite (bind_ok _ _ _ _ _ Hrun).
  simpl app in Hrun, Hrow1 |- *.
  rewrite (rl_leave_short_line (histposition s) l s1); [|done|done|done|done].
  eexists. split; [reflexivity|]. simpl.
  split; [done|]. split; [exact Hoth1|]. split; [by rewrite Hp1|done].
Qed.

(** ** The history ring *)

(** Short lines submitted one after the other fill the rows in order. *)
Lemma submit_lines (prompt : list Z) (ls : list (list Z)) :
  forall (before : list (list Z)) (rest : list Z) (s : kstate),
  0 < KCONSOLE_HISTORY -> Forall short_line ls ->
  Z.of_nat (length before) + Z.of_nat (length ls) <= KCONSOLE_HISTORY ->
  ring_holds s before ->
  histposition s = Z.rem (Z.of_nat (length before)) KCONSOLE_HISTORY ->
  stdin s = typed ls ++ rest ->
  exists s',
    submit prompt (length ls) s = Ok (tt, s') /\
    ring_holds s' (before ++ ls) /\
    histposition s' =
      Z.rem (Z.of_nat (length (before ++ ls))) KCONSOLE_HISTORY /\
    stdin s' = rest.
Proof.
  induction ls as [|l ls IH]; intros before rest s HK Hls Hn Hring Hhp Hin.
  - exists s. rewrite app_nil_r. by repeat split.
  - apply Forall_cons in Hls as [Hl Hls]. simpl in Hn.
    assert (histposition s = Z.of_nat (length before)) as Hhp'
      by (rewrite Hhp; apply Z.rem_small; lia).
    assert (row_holds (history s) (histposition s) []) as Hempty.
    { rewrite Hhp'. pose proof (Hring (Z.of_nat (length before)) ltac:(lia)) as H.
      by rewrite Nat2Z.id, nth_overflow in H by lia. }
    destruct (clever_readline_short_line prompt l (typed ls ++ rest) s)
      as (s1 & Hrun & Hrow1 & Hoth1 & Hp1 & Hi1); [lia|done|done| |].
    { rewrite Hin. unfold typed, key_enter. simpl.
      by rewrite <- !app_assoc. }
    simpl submit. rewrite (bind_ok _ _ _ _ _ Hrun).
    destruct (IH (before ++ [l]) rest s1)
      as (s2 & Hrun2 & Hring2 & Hp2 & Hi2); [done|done| | | |done|].
    + rewrite length_app. simpl. lia.
    + intros k Hk. destruct (decide (k = histposition s)) as [->|Hne].
      * rewrite Hhp', Nat2Z.id, nth_middle. by rewrite <- Hhp'.
      * apply Hoth1; [lia|done|].
        replace (nth (Z.to_nat k) (before ++ [l]) [])
          with (nth (Z.to_nat k) before []); [by apply Hring|].
        destruct (Z.lt_ge_cases k (Z.of_nat (length before))).
        -- by rewrite app_nth1 by lia.
        -- rewrite !nth_overflow; [done|rewrite length_app; simpl; lia|lia].
    + rewrite Hp1, Hhp', length_app. simpl. f_equal. lia.
    + exists s2. rewrite <- app_assoc in Hring2, Hp2. by repeat split.
Qed.

(** One "previous": the cursor steps back and the row it reaches is
    loaded. *)
Lemma rl_iteration_previous (prompt : list Z) (v : rl_vars) (w rest : list Z)
    (s : kstate) :
  0 < KCONSOLE_HISTORY -> 0 <= histposition s < KCONSOLE_HISTORY ->
  row_holds (history s) ((histposition s - 1) mod KCONSOLE_HISTORY) w ->
  Forall (fun c => c <> 0) w -> Z.of_nat (length w) < MAX_CMDLINE ->
  stdin s = key_up ++ rest ->
  exists s',
    rl_iteration prompt v s =
      Ok (Continue
            (mk_rl_vars ((histposition s - 1) mod KCONSOLE_HISTORY * MAX_CMDLINE)
               (Z.of_nat (length w)) (Z.of_nat (length w))), s') /\
    history s' = history s /\
    histposition s' = (histposition s - 1) mod KCONSOLE_HISTORY /\
    stdin s' = rest.
Proof.
  intros HK Hhp Hrow Hnz Hlen Hin.
  set (k' := (histposition s - 1) mod KCONSOLE_HISTORY) in *.
  assert (0 <= k' < KCONSOLE_HISTORY) as Hk' by (apply Z.mod_pos_bound; lia).
  assert ((if histposition s - 1 <? 0 then KCONSOLE_HISTORY - 1
           else Z.rem (histposition s - 1) KCONSOLE_HISTORY) = k') as Hstep.
  { unfold k'. destruct (Z.ltb_spec (histposition s - 1) 0).
    - assert (histposition s = 0) as -> by lia.
      apply (Z.mod_unique_pos (0 - 1) KCONSOLE_HISTORY (-1)); lia.
    - by rewrite Z.rem_mod_nonneg by lia. }
  unfold rl_iteration.
  assert (_getc s = Ok (27, set_stdin (91 :: 65 :: rest) s)) as Hget
    by (unfold _getc; by rewrite Hin).
  rewrite (bind_ok _ _ _ _ _ Hget).
  change (27 =? 10) with false. change (27 =? 8) with false.
  change (27 =? 9) with false. change (27 =? 27) with true. cbv iota.
  unfold rl_escape.
  unfold bind at 1, _getc at 1. simpl stdin.
  unfold bind at 1, _getc at 1. simpl stdin.
  change (negb (91 =? 91) && negb (91 =? 79)) with false. cbv iota.
  change (65 =? 51) with false. cbv iota.
  unfold bind at 1, ret at 1. cbv iota.
  change (65 =? 72) with false. change (65 =? 70) with false.
  change (65 =? 68) with false. change (65 =? 67) with false.
  change ((65 =? 65) || (65 =? 66)) with true. cbv iota.
  set (s1 := set_stdin rest _).
  destruct (rdln_print_c_same_ring 8 (position v) s1) as (s2 & Hpr2 & Hr2).
  rewrite (bind_ok _ _ _ _ _ Hpr2).
  destruct (rdln_print_c_same_ring 32 (curlen v) s2) as (s3 & Hpr3 & Hr3).
  rewrite (bind_ok _ _ _ _ _ Hpr3).
  destruct (rdln_print_c_same_ring 8 (curlen v) s3) as (s4 & Hpr4 & Hr4).
  rewrite (bind_ok _ _ _ _ _ Hpr4).
  pose proof (same_ring_trans _ _ _ (same_ring_trans _ _ _ Hr2 Hr3) Hr4)
    as (Hh4 & Hp4 & Hi4).
  unfold bind at 1, gets at 1. rewrite Hp4. simpl histposition.
  change (65 =? 65) with true. cbv iota. rewrite Hstep.
  unfold bind at 1, modify at 1.
  set (s5 := set_histposition k' s4).
  assert (history s5 = history s) as Hh5 by (simpl; by rewrite Hh4).
  destruct (row_holds_string (history s5) k' w) as [_ Hstrlen];
    [lia|by rewrite Hh5|done|done|].
  assert (exists s6, put_string (k' * MAX_CMDLINE) s5 = Ok (tt, s6) /\
                     same_ring s5 s6) as (s6 & Hput & Hr6).
  { unfold put_string.
    rewrite (bind_ok _ _ _ _ _ (strlen_history_ok _ _ s5 Hstrlen)).
    apply put_range_ok; [nia|].
    pose proof (Hrow (Z.of_nat (length w)) ltac:(lia)) as Hz.
    apply load_range in Hz. rewrite Hh5. lia. }
  rewrite (bind_ok _ _ _ _ _ Hput).
  destruct Hr6 as (Hh6 & Hp6 & Hi6).
  rewrite <- Hh6 in Hstrlen.
  rewrite (bind_ok _ _ _ _ _ (strlen_history_ok _ _ s6 Hstrlen)).
  exists s6. split; [reflexivity|].
  split; [congruence|]. split; [by rewrite Hp6|].
  rewrite Hi6. simpl. by rewrite Hi4.
Qed.

Lemma ring_row_short (ls : list (list Z)) (k : nat) :
  0 < MAX_CMDLINE -> Forall short_line ls ->
  Forall (fun c => c <> 0) (nth k ls []) /\
  Z.of_nat (length (nth k ls [])) < MAX_CMDLINE.
Proof.
  intros HM Hls. destruct (nth_in_or_default k ls []) as [Hin| ->].
  - rewrite Forall_forall in Hls. apply list_elem_of_In in Hin.
    destruct (Hls _ Hin) as (Hpl & _ & Hlen). split; [|done].
    by apply plain_nonzero.
  - split; [by apply Forall_nil|simpl; lia].
Qed.

(** "Previous" pressed [S j] times: the cursor has stepped back that many
    rows, modulo the size of the ring, and the line of the row reached is in
    the editor, the caret at its end. *)
Lemma rl_iterate_previous (prompt : list Z) (ls : list (list Z)) :
  forall (j : nat) (v : rl_vars) (rest : list Z) (s : kstate),
  0 < KCONSOLE_HISTORY -> 0 < MAX_CMDLINE ->
  ring_holds s ls -> Forall short_line ls ->
  0 <= histposition s < KCONSOLE_HISTORY ->
  stdin s = previous (S j) ++ rest ->
  exists s',
    rl_iterate prompt (S j) v s =
      Ok (Continue
            (mk_rl_vars
               ((histposition s - Z.of_nat (S j)) mod KCONSOLE_HISTORY
                * MAX_CMDLINE)
               (Z.of_nat (length (nth (Z.to_nat
                  ((histposition s - Z.of_nat (S j)) mod KCONSOLE_HISTORY))
                  ls [])))
               (Z.of_nat (length (nth (Z.to_nat
                  ((histposition s - Z.of_nat (S j)) mod KCONSOLE_HISTORY))
                  ls [])))), s') /\
    history s' = history s /\
    histposition s' = (histposition s - Z.of_nat (S j)) mod KCONSOLE_HISTORY /\
    stdin s' = rest.
Proof.
  induction j as [|j IH]; intros v rest s HK HM Hring Hls Hhp Hin.
  - assert (0 <= (histposition s - 1) mod KCONSOLE_HISTORY < KCONSOLE_HISTORY)
      as Hk' by (apply Z.mod_pos_bound; lia).
    destruct (ring_row_short ls
                (Z.to_nat ((histposition s - 1) mod KCONSOLE_HISTORY)) HM Hls)
      as [Hnz Hlen].
    destruct (rl_iteration_previous prompt v _ rest s HK Hhp
                (Hring _ Hk') Hnz Hlen)
      as (s1 & Hrun & Hh & Hp & Hi).
    { rewrite Hin. reflexivity. }
    exists s1. simpl rl_iterate. rewrite (bind_ok _ _ _ _ _ Hrun).
    by repeat split.
  - assert (0 <= (histposition s - 1) mod KCONSOLE_HISTORY < KCONSOLE_HISTORY)
      as Hk' by (apply Z.mod_pos_bound; lia).
    destruct (ring_row_short ls
                (Z.to_nat ((histposition s - 1) mod KCONSOLE_HISTORY)) HM Hls)
      as [Hnz Hlen].
    destruct (rl_iteration_previous prompt v _ (previous (S j) ++ rest) s HK Hhp
                (Hring _ Hk') Hnz Hlen)
      as (s1 & Hrun & Hh & Hp & Hi).
    { rewrite Hin. reflexivity. }
    destruct (IH (mk_rl_vars
                    ((histposition s - 1) mod KCONSOLE_HISTORY * MAX_CMDLINE)
                    (Z.of_nat (length (nth (Z.to_nat
                       ((histposition s - 1) mod KCONSOLE_HISTORY)) ls [])))
                    (Z.of_nat (length (nth (Z.to_nat
                       ((histposition s - 1) mod KCONSOLE_HISTORY)) ls []))))
                rest s1)
      as (s2 & Hrun2 & Hh2 & Hp2 & Hi2); [done|done| |done|lia|done|].
    { intros k Hk. rewrite Hh. by apply Hring. }
    assert ((histposition s1 - Z.of_nat (S j)) mod KCONSOLE_HISTORY =
            (histposition s - Z.of_nat (S (S j))) mod KCONSOLE_HISTORY) as Hmod.
    { rewrite Hp, Zminus_mod_idemp_l. f_equal. lia. }
    rewrite Hmod in Hrun2, Hp2.
    exists s2. split; [|split; [congruence|by split]].
    change (rl_iterate prompt (S (S j)) v s) with
      ((do r <- rl_iteration prompt v ;;
        match r with
        | Continue v' => rl_iterate prompt (S j) v'
        | Break v' => ret (Break v')
        end) s).
    by rewrite (bind_ok _ _ _ _ _ Hrun).
Qed.

Lemma load_repeat_zero (n : nat) (i : Z) :
  0 <= i < Z.of_nat n -> load (repeat 0 n) i = Ok 0.
Proof.
  intros Hi. unfold load. destruct (Z.ltb_spec i 0); [lia|].
  destruct (repeat 0 n !! Z.to_nat i) as [c|] eqn:Hl.
  - apply list_elem_of_lookup_2, list_elem_of_In, repeat_spec in Hl. by subst.
  - apply lookup_ge_None in Hl. rewrite repeat_length in Hl. lia.
Qed.

(** For lines that leave room for their terminator the history works as
    the specification says: after [N] of them were submitted to a fresh
    console, [N] at most the size of the ring, "previous" pressed [j] times
    brings back the [j]-th most recent line, the caret at its end. *)
Theorem history_previous_short_lines (prompt : list Z) (ls : list (list Z))
    (j : nat) (rest : list Z) (s : kstate) :
  0 < KCONSOLE_HISTORY ->
  history s = repeat 0 (Z.to_nat (KCONSOLE_HISTORY * MAX_CMDLINE)) ->
  histposition s = 0 ->
  Forall short_line ls -> Z.of_nat (length ls) <= KCONSOLE_HISTORY ->
  (1 <= j <= length ls)%nat ->
  stdin s = typed ls ++ previous j ++ rest ->
  exists v s',
    (submit prompt (length ls) ;;
     do v0 <- rl_enter prompt ;;
     rl_iterate prompt j v0) s = Ok (Continue v, s') /\
    history_string s' (current v) = nth (length ls - j) ls [] /\
    curlen v = Z.of_nat (length (nth (length ls - j) ls [])) /\
    position v = curlen v /\
    histposition s' = (Z.of_nat (length ls) - Z.of_nat j) mod KCONSOLE_HISTORY.
Proof.
  intros HK Hzero Hhp0 Hls Hn Hj Hin.
  assert (0 < MAX_CMDLINE) as HM.
  { destruct ls as [|l ls']; [simpl in Hj; lia|].
    apply Forall_cons in Hls as [(_ & _ & Hl) _]. lia. }
  assert (ring_holds s []) as Hring0.
  { intros k Hk i Hi. rewrite Hzero.
    replace (nth (Z.to_nat k) [] []) with (@nil Z) by (by destruct (Z.to_nat k)).
    rewrite load_repeat_zero by nia. by rewrite char_at_beyond by (simpl; lia). }
  destruct (submit_lines prompt ls [] (previous j ++ rest) s)
    as (s1 & Hrun1 & Hring1 & Hp1 & Hi1);
    [done|done|simpl; lia|done|by rewrite Hhp0, Z.rem_0_l by lia|done|].
  simpl app in Hring1, Hp1.
  rewrite (bind_ok _ _ _ _ _ Hrun1).
  assert (0 <= histposition s1 < KCONSOLE_HISTORY) as Hhp1.
  { rewrite Hp1, Z.rem_mod_nonneg by lia. apply Z.mod_pos_bound. lia. }
  unfold rl_enter. unfold bind at 1. unfold bind at 1, gets at 1.
  unfold bind at 1, print, modify. unfold ret at 1.
  set (s2 := set_console _ s1). set (v0 := mk_rl_vars _ 0 0).
  destruct j as [|j]; [lia|].
  destruct (rl_iterate_previous prompt ls j v0 rest s2)
    as (s3 & Hrun3 & Hh3 & Hp3 & Hi3); [done|done|done|done|done|done|].
  assert ((histposition s2 - Z.of_nat (S j)) mod KCONSOLE_HISTORY =
          Z.of_nat (length ls - S j)) as Hk.
  { change (histposition s2) with (histposition s1).
    rewrite Hp1, Z.rem_mod_nonneg, Zminus_mod_idemp_l by lia.
    rewrite Z.mod_small; lia. }
  rewrite Hk in Hrun3, Hp3. rewrite Nat2Z.id in Hrun3.
  eexists _, s3. split; [exact Hrun3|]. simpl.
  destruct (ring_row_short ls (length ls - S j) HM Hls) as [Hnz Hlen].
  split.
  - unfold history_string. rewrite Hh3.
    apply row_holds_string; [lia| |done|done].
    pose proof (Hring1 (Z.of_nat (length ls - S j)) ltac:(lia)) as Hrow.
    by rewrite Nat2Z.id in Hrow.
  - split; [done|]. split; [done|]. rewrite Hp3. rewrite Z.mod_small; lia.
Qed.

(** ** The history cursor and [current] *)

Create HintDb keeps.

Lemma keeps_ret {A} (a : A) : keeps_histposition (ret a).
Proof. by intros s ? s' [= _ <-]. Qed.

Lemma keeps_fail {A} (e : error) : keeps_histposition (@fail A e).
Proof. by intros s a s'. Qed.

Lemma keeps_gets {A} (f : kstate -> A) : keeps_histposition (gets f).
Proof. by intros s ? s' [= _ <-]. Qed.

Lemma keeps_lift {A} (r : result A) : keeps_histposition (lift r).
Proof. intros s a s'. unfold lift. destruct r; [|done]. by intros [= _ <-]. Qed.

Lemma keeps_reader {A} (f : kstate -> result A) :
  keeps_histposition (fun s => lift (f s) s).
Proof. intros s a s'. apply keeps_lift. Qed.

Lemma keeps_modify (f : kstate -> kstate) :
  (forall s, histposition (f s) = histposition s) ->
  keeps_histposition (modify f).
Proof. intros Hf s ? s' [= _ <-]. apply Hf. Qed.

Lemma keeps_bind {A B} (m : M A) (k : A -> M B) :
  keeps_histposition m -> (forall a, keeps_histposition (k a)) ->
  keeps_histposition (bind m k).
Proof.
  intros Hm Hk s b s' Hrun.
  apply bind_inv in Hrun as (a & s1 & H1 & H2).
  rewrite (Hk _ _ _ _ H2). by apply (Hm _ _ _ H1).
Qed.

Lemma keeps_getc : keeps_histposition _getc.
Proof.
  intros s a s'. unfold _getc. destruct (stdin s); [done|].
  by intros [= _ <-].
Qed.

Lemma keeps_lock_cmd_lock : keeps_histposition spinlock_lock_cmd_lock.
Proof.
  intros s a s'. unfold spinlock_lock_cmd_lock.
  destruct (cmd_lock s); [done|]. by intros [= _ <-].
Qed.

Lemma keeps_get_cmd (a : Z) : keeps_histposition (get_cmd a).
Proof.
  intros s d s'. unfold get_cmd. destruct (cmds s !! a); [|done].
  by intros [= _ <-].
Qed.

#[local] Hint Resolve keeps_ret keeps_fail keeps_gets keeps_lift keeps_reader
  keeps_getc keeps_lock_cmd_lock keeps_get_cmd : keeps.

Lemma keeps_for_up (body : Z -> M unit) (count : nat) : forall i,
  (forall j, keeps_histposition (body j)) ->
  keeps_histposition (for_up count i body).
Proof.
  induction count as [|count IH]; intros i Hbody; simpl.
  - apply keeps_ret.
  - apply keeps_bind; [apply Hbody|]. intros _. by apply IH.
Qed.

Ltac keeps :=
  repeat first
    [ progress intros
    | apply keeps_bind
    | apply keeps_modify; reflexivity
    | apply keeps_for_up
    | solve [eauto with keeps]
    | match goal with
      | |- keeps_histposition (if ?b then _ else _) => destruct b
      | |- keeps_histposition (match ?x with _ => _ end) => destruct x
      | |- keeps_histposition (let '(_, _) := ?x in _) => destruct x
      end ].

Lemma keeps_print (text : list Z) : keeps_histposition (print text).
Proof. unfold print. keeps. Qed.

Lemma keeps_putchar (c : Z) : keeps_histposition (putchar c).
Proof. apply keeps_print. Qed.

Lemma keeps_rdln_print_c (ch count : Z) :
  keeps_histposition (rdln_print_c ch count).
Proof. apply keeps_print. Qed.

Lemma keeps_unlock_cmd_lock : keeps_histposition spinlock_unlock_cmd_lock.
Proof. unfold spinlock_unlock_cmd_lock. keeps. Qed.

Lemma keeps_load_history (i : Z) : keeps_histposition (load_history i).
Proof. unfold load_history. keeps. Qed.

Lemma keeps_store_history (i c : Z) : keeps_histposition (store_history i c).
Proof. unfold store_history. keeps. Qed.

Lemma keeps_strlen_history (off : Z) : keeps_histposition (strlen_history off).
Proof. unfold strlen_history. keeps. Qed.

Lemma keeps_load_tmp (i : Z) : keeps_histposition (load_tmp i).
Proof. unfold load_tmp. keeps. Qed.

Lemma keeps_store_tmp (i c : Z) : keeps_histposition (store_tmp i c).
Proof. unfold store_tmp. keeps. Qed.

Lemma keeps_strlen_tmp : keeps_histposition strlen_tmp.
Proof. unfold strlen_tmp. keeps. Qed.

Lemma keeps_load_output (i : Z) : keeps_histposition (load_output i).
Proof. unfold load_output. keeps. Qed.

Lemma keeps_store_output (i c : Z) : keeps_histposition (store_output i c).
Proof. unfold store_output. keeps. Qed.

#[local] Hint Resolve keeps_print keeps_putchar keeps_rdln_print_c
  keeps_unlock_cmd_lock keeps_load_history keeps_store_history
  keeps_strlen_history keeps_load_tmp keeps_store_tmp keeps_strlen_tmp
  keeps_load_output keeps_store_output : keeps.

Lemma keeps_put_range (str from to : Z) :
  keeps_histposition (put_range str from to).
Proof. unfold put_range. apply keeps_for_up. keeps. Qed.

#[local] Hint Resolve keeps_put_range : keeps.

Lemma keeps_put_string (str : Z) : keeps_histposition (put_string str).
Proof. unfold put_string. keeps. Qed.

Lemma keeps_insert_char_shift (str : Z) (fuel : nat) : forall i,
  keeps_histposition (insert_char_shift str fuel i).
Proof. induction fuel as [|fuel IH]; intros i; simpl; keeps. Qed.

#[local] Hint Resolve keeps_put_string keeps_insert_char_shift : keeps.

Lemma keeps_insert_char (str ch pos : Z) :
  keeps_histposition (insert_char str ch pos).
Proof. unfold insert_char. keeps. Qed.

Lemma keeps_cmdtab_search_scan (name0 : list Z) (cur : list Z) :
  keeps_histposition (cmdtab_search_scan name0 cur).
Proof. induction cur as [|hlp next IH]; simpl; keeps. Qed.

#[local] Hint Resolve keeps_insert_char keeps_cmdtab_search_scan : keeps.

Lemma keeps_cmdtab_search_one (name0 : list Z) (startpos : option (list Z)) :
  keeps_histposition (cmdtab_search_one name0 startpos).
Proof. unfold cmdtab_search_one. keeps. Qed.

Lemma keeps_common_prefix_scan (foundtxt : list Z) (fuel : nat) : forall i,
  keeps_histposition (common_prefix_scan foundtxt fuel i).
Proof. induction fuel as [|fuel IH]; intros i; simpl; keeps. Qed.

#[local] Hint Resolve keeps_cmdtab_search_one keeps_common_prefix_scan : keeps.

Lemma keeps_cmdtab_compl_collect (name0 : list Z) (fuel : nat) :
  forall startpos found,
  keeps_histposition (cmdtab_compl_collect name0 fuel startpos found).
Proof. induction fuel as [|fuel IH]; intros startpos found; simpl; keeps. Qed.

Lemma keeps_cmdtab_compl_list (name0 : list Z) (fuel : nat) :
  forall startpos,
  keeps_histposition (cmdtab_compl_list name0 fuel startpos).
Proof. induction fuel as [|fuel IH]; intros startpos; simpl; keeps. Qed.

#[local] Hint Resolve keeps_cmdtab_compl_collect keeps_cmdtab_compl_list : keeps.

Lemma keeps_cmdtab_compl : keeps_histposition cmdtab_compl.
Proof. unfold cmdtab_compl. keeps. Qed.

Lemma keeps_rl_word_end (cur : Z) (fuel : nat) : forall pos,
  keeps_histposition (rl_word_end cur fuel pos).
Proof. induction fuel as [|fuel IH]; intros pos; simpl; keeps. Qed.

Lemma keeps_rl_word_start (cur : Z) (fuel : nat) : forall i,
  keeps_histposition (rl_word_start cur fuel i).
Proof. induction fuel as [|fuel IH]; intros i; simpl; keeps. Qed.

Lemma keeps_rl_skip_sigil (fuel : nat) : forall i,
  keeps_histposition (rl_skip_sigil fuel i).
Proof. induction fuel as [|fuel IH]; intros i; simpl; keeps. Qed.

Lemma keeps_rl_insert_hint (cur pos : Z) (fuel : nat) : forall i len,
  keeps_histposition (rl_insert_hint cur pos fuel i len).
Proof. induction fuel as [|fuel IH]; intros i len; simpl; keeps. Qed.

#[local] Hint Resolve keeps_cmdtab_compl keeps_rl_word_end keeps_rl_word_start
  keeps_rl_skip_sigil keeps_rl_insert_hint : keeps.

Lemma on_cursor_row_ret (h : Z) (r : rl_next) :
  current (rl_vars_of r) = h * MAX_CMDLINE -> on_cursor_row h (ret r).
Proof. intros Hc s ? s' Hh [= <- <-]. by rewrite Hh. Qed.

Lemma on_cursor_row_bind {A} (h : Z) (m : M A) (k : A -> M rl_next) :
  keeps_histposition m -> (forall a, on_cursor_row h (k a)) ->
  on_cursor_row h (bind m k).
Proof.
  intros Hm Hk s r s' Hh Hrun.
  apply bind_inv in Hrun as (a & s1 & H1 & H2).
  apply (Hk a s1 r s'); [|done]. rewrite <- Hh. by apply (Hm _ _ _ H1).
Qed.

Ltac on_cursor_row :=
  repeat first
    [ progress intros
    | apply on_cursor_row_ret; simpl; done
    | apply on_cursor_row_bind; [solve [keeps]|]
    | match goal with
      | |- on_cursor_row _ (if ?b then _ else _) => destruct b
      | |- on_cursor_row _ (match ?x with _ => _ end) => destruct x
      end ].

(** Every pass through the loop leaves [current] on the row of the history
    cursor: the history keys move both, the other keys neither. *)
Lemma rl_iteration_on_cursor_row (prompt : list Z) (v : rl_vars) (h : Z) :
  current v = h * MAX_CMDLINE -> on_cursor_row h (rl_iteration prompt v).
Proof.
  intros Hv. unfold rl_iteration.
  apply on_cursor_row_bind; [keeps|]. intros c.
  destruct (c =? 10); [on_cursor_row|].
  destruct (c =? 8); [on_cursor_row|].
  destruct (c =? 9).
  { unfold rl_tab. on_cursor_row. }
  destruct (c =? 27); [|on_cursor_row].
  unfold rl_escape.
  apply on_cursor_row_bind; [keeps|]. intros m.
  apply on_cursor_row_bind; [keeps|]. intros k.
  destruct (negb (m =? 91) && negb (m =? 79)); [on_cursor_row|].
  apply on_cursor_row_bind; [keeps|]. intros del.
  destruct del; [on_cursor_row|].
  destruct (k =? 72); [on_cursor_row|].
  destruct (k =? 70); [on_cursor_row|].
  destruct (k =? 68); [on_cursor_row|].
  destruct (k =? 67); [on_cursor_row|].
  destruct ((k =? 65) || (k =? 66)); [|on_cursor_row].
  intros s r s' Hh Hrun.
  apply bind_inv in Hrun as (? & s1 & H1 & Hrun).
  apply bind_inv in Hrun as (? & s2 & H2 & Hrun).
  apply bind_inv in Hrun as (? & s3 & H3 & Hrun).
  apply bind_inv in Hrun as (hp & s4 & H4 & Hrun). injection H4 as _ <-.
  apply bind_inv in Hrun as (? & s5 & H5 & Hrun). injection H5 as _ <-.
  apply bind_inv in Hrun as (? & s6 & H6 & Hrun).
  apply bind_inv in Hrun as (n & s7 & H7 & Hrun).
  injection Hrun as <- <-. simpl.
  rewrite (keeps_strlen_history _ _ _ _ H7), (keeps_put_string _ _ _ _ H6).
  reflexivity.
Qed.

(** So it is at the newline, however many keys came before it. *)
Lemma rl_iterate_on_cursor_row (prompt : list Z) (n : nat) :
  forall (v : rl_vars) (h : Z),
  current v = h * MAX_CMDLINE -> on_cursor_row h (rl_iterate prompt n v).
Proof.
  induction n as [|n IH]; intros v h Hv; simpl.
  - by apply on_cursor_row_ret.
  - intros s r s' Hh Hrun.
    apply bind_inv in Hrun as (r1 & s1 & H1 & Hrun).
    pose proof (rl_iteration_on_cursor_row prompt v h Hv s r1 s1 Hh H1) as Hr1.
    destruct r1 as [v1|v1]; simpl in Hr1.
    + by apply (IH v1 (histposition s1) Hr1 s1 r s').
    + injection Hrun as <- <-. exact Hr1.
Qed.

(** A session that ends on an empty line leaves the history cursor on the
    row it returns: the next session starts on that very row. *)
Lemma clever_readline_empty_line (prompt : list Z) (n : nat) (v : rl_vars)
    (s s1 s2 s3 : kstate) (p : Z) (v' : rl_vars) :
  (do v0 <- rl_enter prompt ;; rl_iterate prompt n v0) s = Ok (Break v, s1) ->
  curlen v = 0 ->
  rl_leave v s1 = Ok (p, s2) ->
  rl_enter prompt s2 = Ok (v', s3) ->
  histposition s2 = histposition s1 /\
  p = histposition s2 * MAX_CMDLINE /\
  current v' = p /\
  load (history s2) p = Ok 0.
Proof.
  intros Hrun Hlen Hleave Henter.
  apply bind_inv in Hrun as (v0 & s0 & H0 & Hrun).
  unfold rl_enter in H0.
  apply bind_inv in H0 as (hp & sa & Ha & H0). injection Ha as <- <-.
  apply bind_inv in H0 as (? & sb & Hb & H0). injection Hb as _ <-.
  injection H0 as <- <-.
  pose proof (rl_iterate_on_cursor_row prompt n
                (mk_rl_vars (histposition s * MAX_CMDLINE) 0 0)
                (histposition s) eq_refl
                (set_console (console s ++ cstr prompt ++ chars "> ") s)
                _ _ eq_refl Hrun) as Hcur.
  simpl in Hcur.
  destruct (rl_leave_spec v s1 s2 p Hleave) as (-> & Hnul & Hsame & _).
  specialize (Hsame Hlen). rewrite Hlen, Z.add_0_r in Hnul.
  unfold rl_enter in Henter.
  apply bind_inv in Henter as (hp & sa & Ha & Henter). injection Ha as <- <-.
  apply bind_inv in Henter as (? & sb & Hb & Henter). injection Hb as _ <-.
  injection Henter as <- <-. simpl.
  rewrite Hsame. by repeat split.
Qed.


(** * Further properties of the code *)

(** ** parse_argument: the word it delimits *)

(** Inside a word the loop runs to the first blank or to the end. *)
Lemma parse_argument_loop_to_blank (cmdline : list Z) (fuel : nat) :
  forall i start : Z,
  exists i',
    parse_argument_loop cmdline fuel i start true = (i', start, true) /\
    i <= i' <= i + Z.of_nat fuel /\
    (forall j, i <= j < i' -> isspace (char_at cmdline (Z.to_nat j)) = false) /\
    (i' < i + Z.of_nat fuel ->
     isspace (char_at cmdline (Z.to_nat i')) = true).
Proof.
  induction fuel as [|fuel IH]; intros i start.
  - exists i. simpl. repeat split; lia.
  - simpl. destruct (isspace (char_at cmdline (Z.to_nat i))) eqn:Hsp.
    + exists i. repeat split; [lia|lia|intros; lia|done].
    + destruct (IH (i + 1) start) as (i' & Heq & Hr & Hin & Hout).
      exists i'. rewrite Heq. repeat split; [lia|lia| |intros; apply Hout; lia].
      intros j Hj. destruct (decide (j = i)) as [->|]; [done|].
      apply Hin. lia.
Qed.

(** Before a word the loop skips the blanks, moving [*start] along. *)
Lemma parse_argument_loop_skips_blanks (cmdline : list Z) (fuel : nat) :
  forall i : Z,
  (parse_argument_loop cmdline fuel i i false =
     (i + Z.of_nat fuel, i + Z.of_nat fuel, false) /\
   forall j, i <= j < i + Z.of_nat fuel ->
     isspace (char_at cmdline (Z.to_nat j)) = true)
  \/
  (exists i' start',
     parse_argument_loop cmdline fuel i i false = (i', start', true) /\
     i <= start' < i' /\ i' <= i + Z.of_nat fuel /\
     (forall j, i <= j < start' ->
        isspace (char_at cmdline (Z.to_nat j)) = true) /\
     (forall j, start' <= j < i' ->
        isspace (char_at cmdline (Z.to_nat j)) = false) /\
     (i' < i + Z.of_nat fuel ->
      isspace (char_at cmdline (Z.to_nat i')) = true)).
Proof.
  induction fuel as [|fuel IH]; intros i.
  - left. simpl. rewrite Z.add_0_r. split; [done|]. intros; lia.
  - simpl. destruct (isspace (char_at cmdline (Z.to_nat i))) eqn:Hsp.
    + destruct (IH (i + 1))
        as [[Heq Hall]|(i' & start' & Heq & Hr & Hle & Hbl & Hin & Hout)].
      * left. rewrite Heq. split; [do 2 f_equal; lia|].
        intros j Hj. destruct (decide (j = i)) as [->|]; [done|].
        apply Hall. lia.
      * right. exists i', start'. rewrite Heq.
        repeat split; [lia|lia|lia| |done|intros; apply Hout; lia].
        intros j Hj. destruct (decide (j = i)) as [->|]; [done|].
        apply Hbl. lia.
    + right.
      destruct (parse_argument_loop_to_blank cmdline fuel (i + 1) i)
        as (i' & Heq & Hr & Hin & Hout).
      exists i', i. rewrite Heq.
      repeat split; [lia|lia|lia|intros; lia| |intros; apply Hout; lia].
      intros j Hj. destruct (decide (j = i)) as [->|]; [done|].
      apply Hin. lia.
Qed.

(** X13.  [parse_argument] finds the next word: it either reports that only
    blanks are left, with [*start] moved to [len] and [*end] to [len - 1]
    (which wraps for an empty line), or delimits the first run of bytes that
    are no blanks: blanks before [*start], none from [*start] to [*end], and
    a blank or the end of the line behind [*end]. *)
Theorem parse_argument_delimits_word (cmdline : list Z) (len start : Z) :
  0 <= start <= len -> len < 2 ^ word_bits ->
  (parse_argument cmdline len start = (false, len, wrap (len - 1)) /\
   forall j, start <= j < len ->
     isspace (char_at cmdline (Z.to_nat j)) = true)
  \/
  (exists start' end',
     parse_argument cmdline len start = (true, start', end') /\
     start <= start' <= end' /\ end' < len /\
     (forall j, start <= j < start' ->
        isspace (char_at cmdline (Z.to_nat j)) = true) /\
     (forall j, start' <= j <= end' ->
        isspace (char_at cmdline (Z.to_nat j)) = false) /\
     (end' + 1 < len ->
      isspace (char_at cmdline (Z.to_nat (end' + 1))) = true)).
Proof.
  intros Hstart Hbits. unfold parse_argument.
  destruct (parse_argument_loop_skips_blanks cmdline (Z.to_nat (len - start))
              start)
    as [[Heq Hall]|(i' & start' & Heq & Hr & Hle & Hbl & Hin & Hout)];
    rewrite Heq; rewrite Z2Nat.id in * by lia.
  - left. split; [by replace (start + (len - start)) with len by lia|].
    intros j Hj. apply Hall. lia.
  - right. exists start', (i' - 1).
    rewrite (wrap_small len (i' - 1) Hbits) by lia.
    repeat split; [lia|lia|lia|done|intros; apply Hin; lia|].
    intros Hlt. replace (i' - 1 + 1) with i' by lia. apply Hout. lia.
Qed.

(** ** parse_cmdline: lines without a word, and the choice of the command *)

(** X14.  A line that holds blanks only, the empty line included, makes
    [parse_cmdline] return NULL at once: nothing is printed and no lock is
    touched, whatever the state of the registry. *)
Theorem parse_cmdline_blank_line (cmdline : list Z) (len : Z) (s : kstate) :
  (forall j, 0 <= j < len ->
     isspace (char_at cmdline (Z.to_nat j)) = true) ->
  parse_cmdline cmdline len s = Ok (None, s).
Proof.
  intros Hblank. unfold parse_cmdline, parse_argument.
  destruct (parse_argument_loop_skips_blanks cmdline (Z.to_nat (len - 0)) 0)
    as [[Heq _]|(i' & start' & Heq & Hr & Hle & _ & Hin & _)]; rewrite Heq.
  - reflexivity.
  - exfalso. assert (0 <= start' < len) as Hs by lia.
    specialize (Hblank start' Hs). rewrite (Hin start') in Hblank by lia.
    discriminate.
Qed.

(** What a successful [parse_argument] tells about the line. *)
Lemma parse_argument_found (cmdline : list Z) (len start start' end' : Z) :
  0 <= start <= len -> len < 2 ^ word_bits ->
  parse_argument cmdline len start = (true, start', end') ->
  start <= start' <= end' /\ end' < len /\
  (forall j, start <= j < start' ->
     isspace (char_at cmdline (Z.to_nat j)) = true) /\
  (forall j, start' <= j <= end' ->
     isspace (char_at cmdline (Z.to_nat j)) = false) /\
  (end' + 1 < len -> isspace (char_at cmdline (Z.to_nat (end' + 1))) = true).
Proof.
  intros Hstart Hbits. unfold parse_argument.
  destruct (parse_argument_loop_skips_blanks cmdline (Z.to_nat (len - start))
              start)
    as [[Heq _]|(i' & s1 & Heq & Hr & Hle & Hbl & Hin & Hout)];
    rewrite Heq; [done|]. rewrite Z2Nat.id in * by lia.
  rewrite (wrap_small len (i' - 1) Hbits) by lia.
  intros [= <- <-].
  repeat split; [lia|lia|lia|done|intros; apply Hin; lia|].
  intros Hlt. replace (i' - 1 + 1) with i' by lia. apply Hout. lia.
Qed.

(** A string starts with its characters before the first NUL. *)
Lemma cstr_prefix (s : list Z) : exists t, s = cstr s ++ t.
Proof.
  induction s as [|c s [t IH]]; [by exists []|].
  simpl. destruct (c =? 0).
  - by exists (c :: s).
  - exists t. simpl. by rewrite <- IH.
Qed.

Lemma char_at_cstr (s : list Z) (j : nat) :
  (j < length (cstr s))%nat -> cstr s !! j = Some (char_at s j).
Proof.
  intros Hj. destruct (cstr_prefix s) as [t Hs].
  unfold char_at. rewrite Hs at 2. rewrite lookup_app_l by done.
  destruct (cstr s !! j) eqn:Hl; [done|].
  apply lookup_ge_None in Hl. lia.
Qed.

(** The word of a line that was delimited by [parse_argument], read in the
    line as a string. *)
Lemma word_at_cstr (cmdline : list Z) (start end_ : Z) :
  0 <= start <= end_ + 1 -> end_ < strlen cmdline ->
  word_at cmdline start end_ =
  take (Z.to_nat (end_ - start + 1)) (cstr (drop (Z.to_nat start) cmdline)).
Proof.
  intros Hs He. unfold strlen in He. unfold word_at.
  rewrite cstr_drop by lia.
  destruct (cstr_prefix cmdline) as [t Ht]. rewrite Ht at 1.
  rewrite drop_app_le by lia. rewrite take_app_le; [done|].
  rewrite length_drop. lia.
Qed.

(** The comparison of [parse_cmdline] on a line that ends at its length:
    a name that is one word compares equal exactly when it is the word. *)
Lemma names_word_iff (s : kstate) (cmdline : list Z) (start end_ hlp : Z)
    (h : cmd_info) :
  0 <= start <= end_ -> end_ < strlen cmdline ->
  end_ + 2 < 2 ^ word_bits ->
  (end_ + 1 < strlen cmdline ->
   isspace (char_at cmdline (Z.to_nat (end_ + 1))) = true) ->
  cmds s !! hlp = Some h -> one_word (cstr (name h)) ->
  names_word s cmdline start end_ hlp = true <->
  cstr (name h) = word_at cmdline start end_.
Proof.
  intros Hs He Hbits Hbehind Hh Hone.
  rewrite word_at_cstr by lia.
  unfold names_word. rewrite Hh.
  rewrite (wrap_small _ (end_ - start) Hbits) by lia.
  rewrite (wrap_small _ (end_ - start + 1) Hbits) by lia.
  rewrite Z.eqb_eq, strncmp_0_iff.
  unfold strlen in *.
  set (N := cstr (name h)) in *.
  assert (cstr (drop (Z.to_nat start) cmdline) =
          drop (Z.to_nat start) (cstr cmdline)) as Hrest
    by (apply cstr_drop; lia).
  rewrite Hrest.
  set (rest := drop (Z.to_nat start) (cstr cmdline)).
  assert (Z.of_nat (length rest) = Z.of_nat (length (cstr cmdline)) - start)
    as Hlen by (unfold rest; rewrite length_drop; lia).
  split.
  - intros Heq.
    destruct (Z.lt_ge_cases (Z.of_nat (length N)) (end_ - start + 1))
      as [Hshort|Hlong].
    { apply (f_equal length) in Heq. rewrite !length_take in Heq. lia. }
    rewrite Z.max_l, Nat2Z.id in Heq by lia.
    rewrite firstn_all in Heq.
    destruct (Z.eq_dec (Z.of_nat (length N)) (end_ - start + 1)) as [Hsame|Hne].
    { rewrite Heq at 1. f_equal. lia. }
    exfalso.
    assert (N !! Z.to_nat (end_ - start + 1) =
            Some (char_at cmdline (Z.to_nat (end_ + 1)))) as Hc.
    { rewrite Heq. rewrite lookup_take_lt by lia.
      unfold rest. rewrite lookup_drop.
      replace (Z.to_nat start + Z.to_nat (end_ - start + 1))%nat
        with (Z.to_nat (end_ + 1)) by lia.
      apply char_at_cstr.
      apply (f_equal length) in Heq. rewrite length_take in Heq. lia. }
    assert (end_ + 1 < Z.of_nat (length (cstr cmdline))) as Hin.
    { apply (f_equal length) in Heq. rewrite length_take in Heq. lia. }
    unfold one_word in Hone. rewrite Forall_forall in Hone.
    apply list_elem_of_lookup_2, Hone in Hc.
    rewrite Hbehind in Hc by done. discriminate.
  - intros Heq.
    assert (Z.of_nat (length N) = end_ - start + 1) as HN.
    { rewrite Heq. rewrite length_take. lia. }
    rewrite Z.max_r by lia. rewrite firstn_all2 by lia.
    rewrite Heq at 1. done.
Qed.

(** X15.  On a line that ends at its length and a registry of one-word
    names, [parse_cmdline] selects by the first word: when no linked
    descriptor bears the word as its name the answer is NULL after
    "Unknown command." and nothing else has changed, and a descriptor that
    is returned is linked and bears the word as its name. *)
Theorem parse_cmdline_selects_by_name (cmdline : list Z) (start end_ : Z)
    (s : kstate) :
  strlen cmdline + 2 < 2 ^ word_bits ->
  parser_ready s ->
  (forall hlp h, hlp ∈ cmd_head s -> cmds s !! hlp = Some h ->
     one_word (cstr (name h))) ->
  parse_argument cmdline (strlen cmdline) 0 = (true, start, end_) ->
  exists r s',
    parse_cmdline cmdline (strlen cmdline) s = Ok (r, s') /\
    ((forall hlp h, hlp ∈ cmd_head s -> cmds s !! hlp = Some h ->
        cstr (name h) <> word_at cmdline start end_) ->
     r = None /\ s' = printed msg_unknown_command s) /\
    (forall cmd, r = Some cmd ->
       exists d, cmd ∈ cmd_head s /\ cmds s !! cmd = Some d /\
                 cstr (name d) = word_at cmdline start end_).
Proof.
  intros Hbits Hready Hnames Harg.
  pose proof (strlen_nonneg cmdline) as Hnn.
  pose proof (strlen_le_length cmdline) as Hle.
  destruct (parse_argument_found cmdline (strlen cmdline) 0 start end_)
    as (Hs & He & _ & _ & Hbehind); [lia|lia|done|].
  assert (forall hlp h, hlp ∈ cmd_head s -> cmds s !! hlp = Some h ->
            (names_word s cmdline start end_ hlp = true <->
             cstr (name h) = word_at cmdline start end_)) as Hiff.
  { intros hlp h Hin Hh. apply names_word_iff; try done; try lia.
    by apply (Hnames hlp). }
  destruct (parse_cmdline_cases cmdline (strlen cmdline) (conj Hnn Hle) Hbits
              s Hready)
    as (r & s' & Hrun & [(s1 & e1 & Heq & _)|(s1 & e1 & Heq & _ & _ & Hcase)]);
    rewrite Harg in Heq; [done|]. injection Heq as <- <-.
  exists r, s'. split; [done|].
  destruct Hcase as [(Hnone & -> & ->)
                    |(cmd & d & Hfind & Hin & Hd & _ & Hres)].
  - split; [done|]. intros ? [=].
  - apply find_some in Hfind as [_ Hm].
    apply (Hiff cmd d Hin Hd) in Hm.
    split.
    + intros Hno. by destruct (Hno cmd d Hin Hd).
    + intros cmd' ->.
      assert (cmd' = cmd) as ->; [|by exists d].
      destruct Hres as [(_ & s1 & _ & [=] & _)
                       |(_ & end1 & e1 & s1 & _ & _ & _ & Hrs)].
      destruct (negb (e1 =? 0)); [done|].
      destruct (0 <? _)%nat; [done|]. by injection Hrs.
Qed.

(** ** cmd_register: what the registry keeps *)

(** A descriptor that does not stop the scan differs from [cmd] in address
    and in name. *)
Lemma clashes_false (s : kstate) (cmd hlp : Z) (h c : cmd_info) :
  cmds s !! hlp = Some h -> cmds s !! cmd = Some c ->
  clashes s cmd hlp = false ->
  hlp <> cmd /\ cstr (name h) <> cstr (name c).
Proof.
  intros Hh Hc. unfold clashes. rewrite Hh, Hc.
  intros [Hne Hcmp]%orb_false_iff. split; [lia|].
  intros Heq. apply strncmp_max_eq in Heq. rewrite Heq in Hcmp. done.
Qed.

(** X2.  Registration keeps the registry free of duplicates: when no
    descriptor is linked twice and no two linked descriptors bear the same
    name, this is still so after [cmd_register], whatever it returns. *)
Theorem cmd_register_keeps_names_distinct (s : kstate) (cmd : Z) :
  registry_ready s cmd -> names_distinct s ->
  exists r s',
    cmd_register cmd s = Ok (r, s') /\
    names_distinct s' /\
    (r = 1 -> cmd ∈ cmd_head s' /\ cmd ∉ cmd_head s).
Proof.
  intros Hready [Hnodup Hnames].
  rewrite (cmd_register_spec s cmd Hready).
  destruct Hready as (_ & (c & Hc & _) & Hall).
  destruct (existsb (clashes s cmd) (cmd_head s)) eqn:Hclash.
  { exists 0, s. split; [done|]. split; [by split|]. intros [=]. }
  assert (forall hlp, hlp ∈ cmd_head s -> clashes s cmd hlp = false) as Hfree.
  { intros hlp Hin. destruct (clashes s cmd hlp) eqn:Hcl; [|done].
    assert (existsb (clashes s cmd) (cmd_head s) = true) as Hex
      by (apply existsb_exists; exists hlp; by rewrite <- list_elem_of_In).
    congruence. }
  assert (cmd ∉ cmd_head s) as Hnew.
  { intros Hin. apply (existsb_clashes_self s) in Hin. congruence. }
  assert (forall hlp h, hlp ∈ cmd_head s -> cmds s !! hlp = Some h ->
            cstr (name h) <> cstr (name c)) as Hother.
  { intros hlp h Hin Hh. by apply (clashes_false s cmd hlp h c Hh Hc), Hfree. }
  eexists 1, _. split; [reflexivity|]. split.
  - split; simpl.
    + apply NoDup_app. split; [done|]. split; [|apply NoDup_singleton].
      intros x Hx Hx'. apply list_elem_of_singleton in Hx'. by subst.
    + intros a b h h' Ha Hb Hab Hh Hh'.
      apply elem_of_app in Ha as [Ha|Ha%list_elem_of_singleton];
        apply elem_of_app in Hb as [Hb|Hb%list_elem_of_singleton]; subst.
      * by apply (Hnames a b).
      * assert (h' = c) as -> by congruence. by apply (Hother a).
      * assert (h = c) as -> by congruence.
        intros Heq. by apply (Hother b h' Hb Hh').
      * done.
  - intros _. simpl. split; [|done]. apply elem_of_app. right.
    by apply list_elem_of_singleton.
Qed.

Lemma cstr_nonzero (s : list Z) : Forall (fun c => c <> 0) (cstr s).
Proof.
  induction s as [|c s IH]; simpl; [done|].
  destruct (Z.eqb_spec c 0); [done|]. by apply Forall_cons.
Qed.

Lemma cstr_of_nonzero (w t : list Z) :
  Forall (fun c => c <> 0) w -> cstr (w ++ 0 :: t) = w.
Proof.
  induction 1 as [|c w Hc _ IH]; simpl; [done|].
  destruct (Z.eqb_spec c 0); [done|]. by rewrite IH.
Qed.

Lemma cstr_id (w : list Z) : Forall (fun c => c <> 0) w -> cstr w = w.
Proof.
  induction 1 as [|c w Hc _ IH]; simpl; [done|].
  destruct (Z.eqb_spec c 0); [done|]. by rewrite IH.
Qed.


Lemma find_only (f : Z -> bool) (l : list Z) (x : Z) :
  x ∈ l -> f x = true -> (forall y, y ∈ l -> y <> x -> f y = false) ->
  List.find f l = Some x.
Proof.
  intros Hin Hx Hl. induction l as [|y l IH]; [by apply elem_of_nil in Hin|].
  simpl. destruct (f y) eqn:Hy.
  - f_equal. destruct (Z.eq_dec y x) as [|Hne]; [done|].
    rewrite (Hl y) in Hy; [done|apply elem_of_cons; by left|done].
  - apply elem_of_cons in Hin as [->|Hin]; [congruence|].
    apply IH; [done|]. intros z Hz. apply Hl. apply elem_of_cons. by right.
Qed.

(** [parse_argument] reads the first [len] bytes of the line only. *)
Lemma parse_argument_loop_ext (a b : list Z) (fuel : nat) :
  forall (i start : Z) (found : bool),
  (forall j, i <= j < i + Z.of_nat fuel ->
     char_at a (Z.to_nat j) = char_at b (Z.to_nat j)) ->
  parse_argument_loop a fuel i start found =
  parse_argument_loop b fuel i start found.
Proof.
  induction fuel as [|fuel IH]; intros i start found Hsame; [done|].
  simpl. rewrite (Hsame i) by lia.
  rewrite !(IH (i + 1)) by (intros j Hj; apply Hsame; lia). done.
Qed.

Lemma parse_argument_ext (a b : list Z) (len start : Z) :
  0 <= start ->
  (forall j, 0 <= j < len -> char_at a (Z.to_nat j) = char_at b (Z.to_nat j)) ->
  parse_argument a len start = parse_argument b len start.
Proof.
  intros Hs Hsame. unfold parse_argument.
  rewrite (parse_argument_loop_ext a b); [done|].
  intros j Hj. apply Hsame. lia.
Qed.

(** A name that is one word is the only word of the line that spells it. *)
Lemma parse_argument_one_word (w : list Z) :
  w <> [] -> one_word w -> Z.of_nat (length w) < 2 ^ word_bits ->
  parse_argument w (Z.of_nat (length w)) 0 =
    (true, 0, Z.of_nat (length w) - 1).
Proof.
  intros Hne Hone Hbits.
  assert (0 < Z.of_nat (length w)) as Hpos by (destruct w; [done|simpl; lia]).
  assert (forall j, 0 <= j < Z.of_nat (length w) ->
            isspace (char_at w (Z.to_nat j)) = false) as Hin.
  { intros j Hj. unfold char_at.
    destruct (w !! Z.to_nat j) as [c|] eqn:Hl.
    - unfold one_word in Hone. rewrite Forall_forall in Hone.
      by apply list_elem_of_lookup_2, Hone in Hl.
    - apply lookup_ge_None in Hl. lia. }
  destruct (parse_argument w (Z.of_nat (length w)) 0) as [[found s1] e1] eqn:Heq.
  destruct found.
  - destruct (parse_argument_found w (Z.of_nat (length w)) 0 s1 e1)
      as (Hs & He & Hbl & _ & Hbeh); [lia|done|done|].
    assert (s1 = 0) as ->.
    { destruct (Z.eq_dec s1 0); [done|].
      assert (0 <= 0 < s1) as H0 by lia.
      specialize (Hbl 0 H0). rewrite Hin in Hbl by lia. discriminate. }
    assert (e1 = Z.of_nat (length w) - 1) as ->; [|done].
    destruct (Z.eq_dec e1 (Z.of_nat (length w) - 1)); [done|].
    assert (e1 + 1 < Z.of_nat (length w)) as H1 by lia.
    specialize (Hbeh H1). rewrite Hin in Hbeh by lia. discriminate.
  - exfalso. unfold parse_argument in Heq.
    destruct (parse_argument_loop_skips_blanks w
                (Z.to_nat (Z.of_nat (length w) - 0)) 0)
      as [[Hl Hall]|(i' & s2 & Hl & _)]; rewrite Hl in Heq; [|done].
    assert (0 <= 0 < 0 + Z.of_nat (Z.to_nat (Z.of_nat (length w) - 0)))
      as H0 by lia.
    specialize (Hall 0 H0). rewrite Hin in Hall by lia. discriminate.
Qed.

(** A line that spells the name of a linked command without arguments, a
    name no other linked command bears, makes [parse_cmdline] return that
    command and leave the state as it was. *)
Lemma parse_cmdline_by_name (cmdline : list Z) (s : kstate) (cmd : Z)
    (c : cmd_info) :
  parser_ready s -> cmd ∈ cmd_head s ->
  cmds s !! cmd = Some c -> argc c = 0 ->
  cstr (name c) <> [] -> one_word (cstr (name c)) ->
  strlen (name c) + 2 < 2 ^ word_bits ->
  (forall hlp h, hlp ∈ cmd_head s -> hlp <> cmd -> cmds s !! hlp = Some h ->
     cstr (name h) <> cstr (name c)) ->
  cstr cmdline = cstr (name c) ->
  parse_cmdline cmdline (strlen cmdline) s = Ok (Some cmd, s).
Proof.
  intros Hready Hin Hc Hargc Hne Hone Hbits Hothers Hline.
  pose proof Hready as (Hlock & Hlinked & Hsym).
  assert (strlen cmdline = strlen (name c)) as Hlen
    by (unfold strlen; by rewrite Hline).
  assert (0 < strlen (name c)) as Hpos.
  { unfold strlen. destruct (cstr (name c)); [done|simpl; lia]. }
  assert (parse_argument cmdline (strlen cmdline) 0 =
          (true, 0, strlen cmdline - 1)) as Harg.
  { rewrite (parse_argument_ext cmdline (cstr (name c))); [|lia|].
    - rewrite Hlen. apply parse_argument_one_word; [done|done|].
      unfold strlen in Hbits. lia.
    - intros j Hj. unfold strlen in Hj.
      pose proof (char_at_cstr cmdline (Z.to_nat j) ltac:(lia)) as Hcj.
      unfold char_at at 2. by rewrite <- Hline, Hcj. }
  assert (forall hlp h, cmds s !! hlp = Some h ->
            names_word s cmdline 0 (strlen cmdline - 1) hlp =
            bool_decide (cstr (name h) = cstr (name c))) as Hcmp.
  { intros hlp h Hh. unfold names_word. rewrite Hh.
    rewrite (wrap_small _ (strlen cmdline - 1 - 0) Hbits) by lia.
    rewrite (wrap_small _ (strlen cmdline - 1 - 0 + 1) Hbits) by lia.
    replace (strlen cmdline - 1 - 0 + 1) with (strlen cmdline) by lia.
    rewrite Z.max_comm. change (drop (Z.to_nat 0) cmdline) with cmdline.
    destruct (Z.eqb_spec (strncmp (name h) cmdline
                (Z.to_nat (Z.max (strlen cmdline) (strlen (name h))))) 0)
      as [He|He]; rewrite strncmp_max_eq, Hline in He; symmetry.
    - by apply bool_decide_eq_true_2.
    - by apply bool_decide_eq_false_2. }
  assert (List.find (names_word s cmdline 0 (strlen cmdline - 1)) (cmd_head s)
          = Some cmd) as Hfind.
  { apply find_only; [done| |].
    - rewrite (Hcmp cmd c Hc). by apply bool_decide_eq_true_2.
    - intros hlp Hhlp Hne'. rewrite Forall_forall in Hlinked.
      destruct (Hlinked hlp Hhlp) as (h & Hh & _).
      rewrite (Hcmp hlp h Hh). apply bool_decide_eq_false_2.
      by apply (Hothers hlp). }
  pose proof (strlen_nonneg cmdline) as Hnn.
  pose proof (strlen_le_length cmdline) as Hle.
  destruct (parse_cmdline_cases cmdline (strlen cmdline) (conj Hnn Hle)
              ltac:(lia) s Hready)
    as (r & s2 & Hrun & [(s1 & e1 & Heq & _)|(s1 & e1 & Heq & _ & _ & Hcase)]);
    rewrite Harg in Heq; [done|]. injection Heq as <- <-.
  rewrite Hrun. f_equal.
  destruct Hcase as [(Hnone & _)|(cmd' & d & Hfind' & _ & Hd & Hld & Hres)];
    [congruence|].
  assert (cmd' = cmd) as -> by congruence.
  assert (d = c) as -> by congruence.
  rewrite Hargc in Hres. simpl in Hres.
  destruct Hres as [(Hlt & _)|(_ & end1 & e1 & s1 & Hargs & _ & Hwords & Hrs)];
    [lia|].
  injection Hargs as <- <- <-. simpl in Hrs.
  assert (words_from cmdline (strlen cmdline) (strlen cmdline - 1 + 1) = O)
    as Hnomore.
  { unfold words_from. rewrite drop_ge; [done|]. rewrite length_take. lia. }
  rewrite Hnomore in Hrs. simpl in Hrs. rewrite Hrs. f_equal.
  apply release_hold. by exists c.
Qed.

(** X3.  A command that was registered is the command its name calls: when
    [cmd_register] returns 1 for a descriptor without arguments whose name
    is one word, [parse_cmdline] on a line that spells that name returns
    the descriptor and leaves the state as registration left it. *)
Theorem cmd_register_then_parse_cmdline (s : kstate) (cmd : Z) (c : cmd_info)
    (cmdline : list Z) :
  parser_ready s -> linked_ok s cmd ->
  cmds s !! cmd = Some c -> argc c = 0 ->
  cstr (name c) <> [] -> one_word (cstr (name c)) ->
  strlen (name c) + 2 < 2 ^ word_bits ->
  cstr cmdline = cstr (name c) ->
  exists r s',
    cmd_register cmd s = Ok (r, s') /\
    (r = 1 ->
     parse_cmdline cmdline (strlen cmdline) s' = Ok (Some cmd, s')).
Proof.
  intros Hready Hcmd Hc Hargc Hne Hone Hbits Hline.
  destruct Hready as (Hlock & Hlinked & Hsym).
  assert (Forall (unlocked_at s) (cmd_head s)) as Hall.
  { eapply Forall_impl; [exact Hlinked|]. intros a (d & ? & ? & _). by exists d. }
  assert (registry_ready s cmd) as Hreg.
  { split; [done|]. split; [|done].
    destruct Hcmd as (d & ? & ? & _). by exists d. }
  rewrite (cmd_register_spec s cmd Hreg).
  destruct (existsb (clashes s cmd) (cmd_head s)) eqn:Hclash.
  { exists 0, s. split; [done|]. intros [=]. }
  eexists 1, _. split; [reflexivity|]. intros _.
  apply (parse_cmdline_by_name cmdline _ cmd c); try done.
  - split; [done|]. split; [|done]. simpl.
    apply Forall_app. split; [done|]. by apply Forall_singleton.
  - simpl. apply elem_of_app. right. by apply list_elem_of_singleton.
  - simpl. intros hlp h [Hin|Hin%list_elem_of_singleton]%elem_of_app Hne' Hh;
      [|done].
    apply (clashes_false s cmd hlp h c Hh Hc).
    destruct (clashes s cmd hlp) eqn:Hcl; [|done].
    assert (existsb (clashes s cmd) (cmd_head s) = true) as Hex
      by (apply existsb_exists; exists hlp; by rewrite <- list_elem_of_In).
    congruence.
Qed.

(** ** Loops over the history *)

(** A [for] loop keeps what each of its passes keeps. *)
Lemma for_up_invariant (I : Z -> kstate -> Prop) (body : Z -> M unit)
    (count : nat) : forall (i : Z) (s : kstate),
  I i s ->
  (forall j t, i <= j < i + Z.of_nat count -> I j t ->
     exists t', body j t = Ok (tt, t') /\ I (j + 1) t') ->
  exists s', for_up count i body s = Ok (tt, s') /\ I (i + Z.of_nat count) s'.
Proof.
  induction count as [|count IH]; intros i s Hi Hbody.
  - exists s. simpl. by rewrite Z.add_0_r.
  - destruct (Hbody i s ltac:(lia) Hi) as (t & Hrun & Ht).
    destruct (IH (i + 1) t Ht) as (s' & Hrest & Hs').
    { intros j t' Hj. apply Hbody. lia. }
    exists s'. simpl. rewrite (bind_ok _ _ _ _ _ Hrun).
    split; [done|].
    by replace (i + Z.of_nat (S count)) with (i + 1 + Z.of_nat count) by lia.
Qed.

(** ** kconsole_init *)

(** X1.  [kconsole_init] runs [cmd_init] and then makes every row of the
    history the empty string, whatever the array held: in the state that
    [cmd_init] left, it writes the first byte of each row and no other
    byte, and nothing but the history. *)
Theorem kconsole_init_clears_history (cmd_init : M unit) (s s0 : kstate) :
  0 < MAX_CMDLINE -> 0 <= KCONSOLE_HISTORY ->
  cmd_init s = Ok (tt, s0) ->
  Z.of_nat (length (history s0)) = KCONSOLE_HISTORY * MAX_CMDLINE ->
  exists s',
    kconsole_init cmd_init s = Ok (tt, s') /\
    (forall k, 0 <= k < KCONSOLE_HISTORY ->
       history_string s' (k * MAX_CMDLINE) = []) /\
    (forall i, 0 <= i -> i mod MAX_CMDLINE <> 0 ->
       load (history s') i = load (history s0) i) /\
    s' = set_history (history s') s0.
Proof.
  intros Hmax Hring Hinit Hsize. unfold kconsole_init.
  rewrite (bind_ok _ _ _ _ _ Hinit).
  destruct (for_up_invariant
              (fun j t =>
                 length (history t) = length (history s0) /\
                 (forall k, 0 <= k < j ->
                    load (history t) (k * MAX_CMDLINE) = Ok 0) /\
                 (forall i, 0 <= i -> i mod MAX_CMDLINE <> 0 ->
                    load (history t) i = load (history s0) i) /\
                 t = set_history (history t) s0)
              (fun i => store_history (i * MAX_CMDLINE) 0)
              (Z.to_nat KCONSOLE_HISTORY) 0 s0)
    as (s' & Hrun & _ & Hrows & Hrest & Hframe).
  - split; [done|]. split; [intros; lia|]. split; [done|]. by destruct s0.
  - intros j t Hj (Hlen & Hrows & Hrest & Hframe).
    assert (0 <= j * MAX_CMDLINE < Z.of_nat (length (history t))) as Hin
      by (rewrite Hlen; nia).
    rewrite store_history_ok by done.
    eexists. split; [reflexivity|]. simpl.
    split; [by rewrite length_insert|].
    split; [|split].
    + intros k Hk. destruct (Z.eq_dec k j) as [->|Hne].
      * by apply load_insert_eq.
      * rewrite load_insert_ne by nia. apply Hrows. lia.
    + intros i Hi Hmod. rewrite load_insert_ne; [by apply Hrest|lia|lia|].
      intros <-. by rewrite Z.mod_mul in Hmod by lia.
    + rewrite Hframe at 2. reflexivity.
  - exists s'. split; [done|]. split; [|done].
    intros k Hk. unfold history_string.
    assert (load (history s') (k * MAX_CMDLINE) = Ok 0) as Hl
      by (apply Hrows; lia).
    apply load_drop in Hl. by rewrite Hl.
Qed.

(** ** The line editor: the row under the caret *)

Lemma set_history_id (s : kstate) : set_history (history s) s = s.
Proof. by destruct s. Qed.

Lemma editor_only_refl (s : kstate) : editor_only s s.
Proof. by destruct s. Qed.

Lemma editor_only_trans (s1 s2 s3 : kstate) :
  editor_only s1 s2 -> editor_only s2 s3 -> editor_only s1 s3.
Proof.
  unfold editor_only. intros H12 H23. rewrite H23. rewrite H12 at 1.
  reflexivity.
Qed.

Lemma other_rows_kept_refl (k : Z) (h : list Z) : other_rows_kept k h h.
Proof. by intros x _ _. Qed.

Lemma other_rows_kept_trans (k : Z) (h1 h2 h3 : list Z) :
  other_rows_kept k h1 h2 -> other_rows_kept k h2 h3 ->
  other_rows_kept k h1 h3.
Proof. intros H12 H23 x Hx Hout. by rewrite H23, H12. Qed.

(** A byte that is in the array can be loaded. *)
Lemma load_in_range (h : list Z) (i : Z) :
  0 <= i < Z.of_nat (length h) -> exists c, load h i = Ok c.
Proof.
  intros Hi. destruct (lookup_lt_is_Some_2 h (Z.to_nat i)) as [c Hc]; [lia|].
  exists c. unfold load. destruct (Z.ltb_spec i 0); [lia|]. by rewrite Hc.
Qed.

(** The echo of a part of the line changes the console only. *)
Lemma put_range_frame (str to : Z) (s : kstate) : forall from : Z,
  0 <= str + from -> str + to <= Z.of_nat (length (history s)) ->
  exists out,
    put_range str from to s = Ok (tt, set_console (console s ++ out) s).
Proof.
  unfold put_range. intros from.
  remember (Z.to_nat (to - from)) as cnt eqn:Hcnt.
  revert from s Hcnt.
  induction cnt as [|cnt IH]; intros from s Hcnt Hlo Hhi.
  - exists []. simpl. rewrite app_nil_r. unfold ret. by destruct s.
  - simpl.
    destruct (load_in_range (history s) (str + from)) as [c Hload]; [lia|].
    unfold bind at 1. unfold bind at 1.
    rewrite (load_history_ok _ _ _ Hload).
    unfold putchar, print, modify.
    destruct (IH (from + 1) (set_console (console s ++ [c]) s))
      as (out & Hrun); [lia|lia|simpl; lia|].
    exists (c :: out). etrans; [exact Hrun|]. simpl.
    by rewrite <- app_assoc.
Qed.

(** The loop of [insert_char] moves the bytes from [i - fuel] to [i - 1] up
    by one. *)
Lemma insert_char_shift_loads (str : Z) (fuel : nat) :
  forall (i : Z) (s : kstate),
  0 <= str + i - Z.of_nat fuel ->
  str + i < Z.of_nat (length (history s)) ->
  exists h',
    insert_char_shift str fuel i s = Ok (tt, set_history h' s) /\
    length h' = length (history s) /\
    forall x, 0 <= x ->
      load h' x =
        if (str + i - Z.of_nat fuel <? x) && (x <=? str + i)
        then load (history s) (x - 1) else load (history s) x.
Proof.
  induction fuel as [|fuel IH]; intros i s Hlo Hhi.
  - exists (history s). simpl. rewrite set_history_id.
    split; [done|]. split; [done|]. intros x Hx.
    destruct (Z.ltb_spec (str + i - Z.of_nat 0) x);
      destruct (Z.leb_spec x (str + i)); simpl; try done; lia.
  - simpl.
    destruct (load_in_range (history s) (str + (i - 1))) as [c Hc]; [lia|].
    rewrite (bind_ok _ _ _ _ _ (load_history_ok _ _ _ Hc)).
    rewrite (bind_ok _ _ _ _ _ (store_history_ok (str + i) c s ltac:(lia))).
    set (h1 := <[Z.to_nat (str + i) := c]> (history s)).
    destruct (IH (i - 1) (set_history h1 s)) as (h' & Hrun & Hlen & Hloads).
    { lia. }
    { simpl. unfold h1. rewrite length_insert. lia. }
    exists h'. split; [exact Hrun|].
    split; [rewrite Hlen; simpl; unfold h1; by rewrite length_insert|].
    intros x Hx. rewrite Hloads by done. simpl history.
    destruct (Z.ltb_spec (str + (i - 1) - Z.of_nat fuel) x);
      destruct (Z.leb_spec x (str + (i - 1)));
      destruct (Z.ltb_spec (str + i - Z.of_nat (S fuel)) x);
      destruct (Z.leb_spec x (str + i)); simpl; try lia; unfold h1;
      first
        [ by rewrite load_insert_ne by lia
        | assert (x = str + i) as -> by lia;
          rewrite load_insert_eq by lia;
          by replace (str + i - 1) with (str + (i - 1)) by lia ].
Qed.

Lemma char_at_inserted (w : list Z) (c : Z) (p j : nat) :
  (p <= length w)%nat ->
  char_at (take p w ++ c :: drop p w) j =
    if (j <? p)%nat then char_at w j
    else if (j =? p)%nat then c else char_at w (j - 1).
Proof.
  intros Hp. unfold char_at.
  destruct (Nat.ltb_spec j p).
  - rewrite lookup_app_l by (rewrite length_take; lia).
    by rewrite lookup_take_lt.
  - rewrite lookup_app_r by (rewrite length_take; lia).
    rewrite length_take, Nat.min_l by lia.
    destruct (Nat.eqb_spec j p) as [->|Hne].
    + by rewrite Nat.sub_diag.
    + destruct (j - p)%nat as [|d] eqn:Hd; [lia|]. simpl.
      rewrite lookup_drop. f_equal. f_equal. lia.
Qed.

(** [insert_char] on a row that spells [w]: the new byte takes the place
    [pos], what was there and behind it moves up by one, and no byte
    outside the row changes. *)
Lemma insert_char_row (k : Z) (w : list Z) (c p : Z) (s : kstate) :
  0 <= k -> row_holds (history s) k w -> Forall (fun c => c <> 0) w ->
  Z.of_nat (length w) < MAX_CMDLINE -> 0 <= p <= Z.of_nat (length w) ->
  exists h',
    insert_char (k * MAX_CMDLINE) c p s = Ok (tt, set_history h' s) /\
    length h' = length (history s) /\
    row_holds h' k (take (Z.to_nat p) w ++ c :: drop (Z.to_nat p) w) /\
    other_rows_kept k (history s) h'.
Proof.
  intros Hk Hrow Hnz Hlen Hp.
  destruct (row_holds_string (history s) k w Hk Hrow Hnz Hlen) as [_ Hstrlen].
  set (n := Z.of_nat (length w)) in *.
  assert (0 <= k * MAX_CMDLINE + n < Z.of_nat (length (history s))) as Hn
    by (apply (load_range _ _ (char_at w (Z.to_nat n))); apply Hrow; lia).
  unfold insert_char.
  rewrite (bind_ok _ _ _ _ _ (strlen_history_ok _ _ s Hstrlen)).
  destruct (insert_char_shift_loads (k * MAX_CMDLINE) (Z.to_nat (n - p)) n s)
    as (h1 & Hrun & Hlen1 & Hloads); [nia|lia|].
  rewrite (bind_ok _ _ _ _ _ Hrun).
  rewrite store_history_ok by (simpl; rewrite Hlen1; nia).
  simpl history.
  eexists. split; [reflexivity|].
  split; [by rewrite length_insert|].
  split.
  - intros j Hj. rewrite char_at_inserted by lia.
    destruct (Z.eq_dec j p) as [->|Hne].
    + rewrite load_insert_eq by (rewrite Hlen1; nia).
      destruct (Nat.ltb_spec (Z.to_nat p) (Z.to_nat p)); [lia|].
      by rewrite Nat.eqb_refl.
    + rewrite load_insert_ne by nia. rewrite Hloads by nia.
      rewrite Z2Nat.id by lia.
      destruct (Nat.ltb_spec (Z.to_nat j) (Z.to_nat p)).
      * destruct (Z.ltb_spec (k * MAX_CMDLINE + n - (n - p))
                    (k * MAX_CMDLINE + j)); [lia|]. simpl. by apply Hrow.
      * destruct (Nat.eqb_spec (Z.to_nat j) (Z.to_nat p)); [lia|].
        destruct (Z.ltb_spec (k * MAX_CMDLINE + n - (n - p))
                    (k * MAX_CMDLINE + j)); [|lia].
        destruct (Z.leb_spec (k * MAX_CMDLINE + j) (k * MAX_CMDLINE + n));
          simpl.
        -- replace (k * MAX_CMDLINE + j - 1) with (k * MAX_CMDLINE + (j - 1))
             by lia.
           rewrite Hrow by lia. do 2 f_equal. lia.
        -- rewrite Hrow by lia. rewrite !char_at_beyond; [done|lia|lia].
  - intros x Hx Hout. rewrite load_insert_ne by nia.
    rewrite Hloads by done. rewrite Z2Nat.id by lia.
    destruct (Z.ltb_spec (k * MAX_CMDLINE + n - (n - p)) x);
      destruct (Z.leb_spec x (k * MAX_CMDLINE + n)); simpl; try done.
    exfalso. apply Hout. nia.
Qed.

(** The loops of Backspace and Delete move the bytes from [a] on down by
    one; [body] stores at [j - 1] the byte it finds at [j], and may print. *)
Lemma shift_left_loop (cur : Z) (body : Z -> M unit) (count : nat) :
  (forall j t x, load (history t) (cur + j) = Ok x ->
     exists out,
       body j t =
       store_history (cur + (j - 1)) x (set_console (console t ++ out) t)) ->
  forall (a : Z) (s : kstate),
  0 <= cur + a - 1 ->
  cur + a + Z.of_nat count <= Z.of_nat (length (history s)) ->
  exists h' out,
    for_up count a body s =
      Ok (tt, set_console (console s ++ out) (set_history h' s)) /\
    length h' = length (history s) /\
    forall x, 0 <= x ->
      load h' x =
        if (cur + a - 1 <=? x) && (x <? cur + a - 1 + Z.of_nat count)
        then load (history s) (x + 1) else load (history s) x.
Proof.
  intros Hbody. induction count as [|count IH]; intros a s Hlo Hhi.
  - exists (history s), []. simpl. rewrite app_nil_r.
    split; [unfold ret; by destruct s|]. split; [done|]. intros x Hx.
    destruct (Z.leb_spec (cur + a - 1) x);
      destruct (Z.ltb_spec x (cur + a - 1 + Z.of_nat 0)); simpl; try done; lia.
  - simpl.
    destruct (load_in_range (history s) (cur + a)) as [c Hc]; [lia|].
    destruct (Hbody a s c Hc) as [out1 Hrun1].
    set (s0 := set_console (console s ++ out1) s) in *.
    rewrite store_history_ok in Hrun1 by (simpl; lia).
    rewrite (bind_ok _ _ _ _ _ Hrun1).
    set (h1 := <[Z.to_nat (cur + (a - 1)) := c]> (history s0)).
    destruct (IH (a + 1) (set_history h1 s0)) as (h' & out2 & Hrun & Hlen & Hloads).
    { lia. }
    { simpl. unfold h1. rewrite length_insert. simpl. lia. }
    exists h', (out1 ++ out2). split.
    { etrans; [exact Hrun|]. simpl. rewrite <- app_assoc. by destruct s. }
    split; [rewrite Hlen; simpl; unfold h1; by rewrite length_insert|].
    intros x Hx. rewrite Hloads by done. simpl history.
    destruct (Z.leb_spec (cur + (a + 1) - 1) x);
      destruct (Z.ltb_spec x (cur + (a + 1) - 1 + Z.of_nat count));
      destruct (Z.leb_spec (cur + a - 1) x);
      destruct (Z.ltb_spec x (cur + a - 1 + Z.of_nat (S count)));
      simpl; try lia; unfold h1;
      first
        [ by rewrite load_insert_ne by lia
        | assert (x = cur + (a - 1)) as -> by lia;
          rewrite load_insert_eq by (simpl; lia);
          by replace (cur + (a - 1) + 1) with (cur + a) by lia ].
Qed.

Lemma shift_left_length (w : list Z) (r b : nat) :
  (r <= b < length w)%nat -> length (shift_left w r b) = length w.
Proof.
  intros Hb. unfold shift_left.
  rewrite !length_app, !length_take, !length_drop. lia.
Qed.

Lemma shift_left_char_at (w : list Z) (r b j : nat) :
  (r <= b < length w)%nat ->
  char_at (shift_left w r b) j =
    if (r <=? j)%nat && (j <? b)%nat then char_at w (S j) else char_at w j.
Proof.
  intros Hb. unfold char_at, shift_left.
  destruct (Nat.leb_spec r j); simpl.
  - rewrite lookup_app_r by (rewrite length_take; lia).
    rewrite length_take, Nat.min_l by lia.
    destruct (Nat.ltb_spec j b).
    + rewrite lookup_app_l by (rewrite length_take, length_drop; lia).
      rewrite lookup_take_lt by lia. rewrite lookup_drop.
      do 2 f_equal. lia.
    + rewrite lookup_app_r by (rewrite length_take, length_drop; lia).
      rewrite length_take, length_drop, Nat.min_l by lia.
      rewrite lookup_drop. do 2 f_equal. lia.
  - rewrite lookup_app_l by (rewrite length_take; lia).
    by rewrite lookup_take_lt by lia.
Qed.

Lemma shift_left_nonzero (w : list Z) (r b : nat) :
  Forall (fun c => c <> 0) w -> Forall (fun c => c <> 0) (shift_left w r b).
Proof.
  intros Hw. unfold shift_left.
  repeat apply Forall_app_2;
    auto using Forall_take, Forall_drop.
Qed.

(** The line that is left: the line without its byte at [r]. *)
Lemma shift_left_line (w : list Z) (r b : nat) :
  (r <= b < length w)%nat ->
  take b (shift_left w r b) =
  take r (take (S b) w) ++ drop (S r) (take (S b) w).
Proof.
  intros Hb. unfold shift_left.
  rewrite app_assoc. rewrite take_app_le.
  2:{ rewrite length_app, !length_take, length_drop. lia. }
  rewrite firstn_all2.
  2:{ rewrite length_app, !length_take, length_drop. lia. }
  rewrite take_take, Nat.min_l by lia.
  f_equal. rewrite take_drop_commute. f_equal. f_equal. lia.
Qed.

Lemma take_inserted (l : list Z) (c : Z) : forall p n : nat,
  (p <= n <= length l)%nat ->
  take (S n) (take p l ++ c :: drop p l) =
  take p (take n l) ++ c :: drop p (take n l).
Proof.
  induction l as [|x l IH]; intros p n Hp.
  - simpl in Hp. assert (p = O) as -> by lia. assert (n = O) as -> by lia.
    done.
  - destruct p as [|p]; [by destruct n|].
    destruct n as [|n]; [lia|]. simpl in Hp.
    change (take (S (S n)) (take (S p) (x :: l) ++ c :: drop (S p) (x :: l)))
      with (x :: take (S n) (take p l ++ c :: drop p l)).
    rewrite IH by lia. done.
Qed.

(** The line of a row that is being edited. *)
Lemma line_of_row (s : kstate) (k : Z) (w : list Z) (v : rl_vars) :
  editing s k w v -> line_of s v = take (Z.to_nat (curlen v)) w.
Proof.
  intros (Hk & Hcur & Hrow & _ & Hp & Hlen & Hmax).
  assert (0 <= k * MAX_CMDLINE) as Hoff by nia.
  unfold line_of. rewrite Hcur. apply list_eq. intros i.
  destruct (Nat.lt_ge_cases i (Z.to_nat (curlen v))) as [Hi|Hi].
  - rewrite !lookup_take_lt by done. rewrite lookup_drop.
    specialize (Hrow (Z.of_nat i) ltac:(lia)).
    unfold load in Hrow.
    destruct (Z.ltb_spec (k * MAX_CMDLINE + Z.of_nat i) 0); [done|].
    replace (Z.to_nat (k * MAX_CMDLINE + Z.of_nat i))
      with (Z.to_nat (k * MAX_CMDLINE) + i)%nat in Hrow by lia.
    destruct (history s !! (Z.to_nat (k * MAX_CMDLINE) + i)%nat) as [x|];
      [|done].
    injection Hrow as ->. rewrite Nat2Z.id. unfold char_at.
    destruct (w !! i) eqn:Hw; [done|]. apply lookup_ge_None in Hw. lia.
  - by rewrite !lookup_take_ge by done.
Qed.

Lemma getc_ok (c : Z) (rest : list Z) (s : kstate) :
  stdin s = c :: rest -> _getc s = Ok (c, set_stdin rest s).
Proof. intros Hin. unfold _getc. by rewrite Hin. Qed.

(** The array reaches to the end of a row that can be read. *)
Lemma row_holds_in_array (h : list Z) (k : Z) (w : list Z) :
  0 <= k -> 0 < MAX_CMDLINE -> row_holds h k w ->
  (k + 1) * MAX_CMDLINE <= Z.of_nat (length h).
Proof.
  intros Hk Hmax Hrow.
  assert (0 <= MAX_CMDLINE - 1 < MAX_CMDLINE) as Hlast by lia.
  pose proof (load_range _ _ _ (Hrow (MAX_CMDLINE - 1) Hlast)). nia.
Qed.

(** ** The line editor: one key *)

(** A byte that is typed goes into the line at the caret. *)
Lemma rl_iteration_key_char (prompt : list Z) (k : Z) (w : list Z)
    (v : rl_vars) (c : Z) (rest : list Z) (s : kstate) :
  editing s k w v -> plain c -> Z.of_nat (length w) + 1 < MAX_CMDLINE ->
  stdin s = c :: rest ->
  key_pass prompt (KeyChar c) k w v s rest.
Proof.
  intros Hed (H0 & H10 & H8 & H9 & H27) Hroom Hin.
  pose proof Hed as (Hk & Hcur & Hrow & Hnz & Hp & Hlen & Hmax).
  destruct v as [cur cl p]. simpl in Hcur, Hp, Hlen. subst cur.
  unfold key_pass, rl_iteration. simpl current. simpl curlen. simpl position.
  rewrite (bind_ok _ _ _ _ _ (getc_ok _ _ _ Hin)).
  destruct (Z.eqb_spec c 10); [done|]. destruct (Z.eqb_spec c 8); [done|].
  destruct (Z.eqb_spec c 9); [done|]. destruct (Z.eqb_spec c 27); [done|].
  destruct (Z.leb_spec MAX_CMDLINE cl); [lia|].
  set (s1 := set_stdin rest s).
  destruct (insert_char_row k w c p s1) as (h' & Hins & Hlen' & Hrow' & Hoth);
    [done|done|done|lia|lia|].
  rewrite (bind_ok _ _ _ _ _ Hins).
  pose proof (row_holds_in_array _ _ _ Hk ltac:(lia) Hrow) as Harr.
  destruct (put_range_frame (k * MAX_CMDLINE) (cl + 1) (set_history h' s1) p)
    as (out & Hput); [nia|simpl; rewrite Hlen'; simpl; nia|].
  rewrite (bind_ok _ _ _ _ _ Hput).
  set (w' := take (Z.to_nat p) w ++ c :: drop (Z.to_nat p) w) in *.
  assert (length w' = S (length w)) as Hw'.
  { unfold w'. rewrite length_app, length_take. simpl. rewrite length_drop.
    lia. }
  eexists _, w', _. split; [reflexivity|].
  match goal with
  | |- editing ?S _ _ ?V /\ _ => set (s' := S); set (v' := V)
  end.
  assert (editing s' k w' v') as Hed'.
  { split; [done|]. split; [done|]. split; [exact Hrow'|].
    split; [|simpl; lia].
    unfold w'. apply Forall_app. split; [by apply Forall_take|].
    apply Forall_cons. split; [done|]. by apply Forall_drop. }
  split; [exact Hed'|]. split; [lia|]. split.
  { unfold view. rewrite (line_of_row _ _ _ _ Hed'), (line_of_row _ _ _ _ Hed).
    simpl. f_equal; [|lia].
    replace (Z.to_nat (cl + 1)) with (S (Z.to_nat cl)) by lia.
    unfold w'. apply take_inserted. lia. }
  split; [done|]. split; [done|]. split; [exact Hoth|].
  unfold editor_only. by destruct s.
Qed.

(** The row after the bytes from [r + 1] to [b] moved down by one. *)
Lemma row_after_shift_left (k : Z) (w h h' : list Z) (r b : Z) :
  0 <= k -> row_holds h k w ->
  0 <= r <= b -> b < Z.of_nat (length w) -> Z.of_nat (length w) < MAX_CMDLINE ->
  (forall x, 0 <= x ->
     load h' x =
       if (k * MAX_CMDLINE + r <=? x) && (x <? k * MAX_CMDLINE + b)
       then load h (x + 1) else load h x) ->
  row_holds h' k (shift_left w (Z.to_nat r) (Z.to_nat b)) /\
  other_rows_kept k h h'.
Proof.
  intros Hk Hrow Hr Hb Hmax Hloads. split.
  - intros j Hj. rewrite Hloads by nia.
    rewrite shift_left_char_at by lia.
    destruct (Z.leb_spec (k * MAX_CMDLINE + r) (k * MAX_CMDLINE + j));
      destruct (Z.ltb_spec (k * MAX_CMDLINE + j) (k * MAX_CMDLINE + b));
      destruct (Nat.leb_spec (Z.to_nat r) (Z.to_nat j));
      destruct (Nat.ltb_spec (Z.to_nat j) (Z.to_nat b));
      simpl; try lia; try (by apply Hrow).
    replace (k * MAX_CMDLINE + j + 1) with (k * MAX_CMDLINE + (j + 1)) by lia.
    rewrite Hrow by lia. do 2 f_equal. lia.
  - intros x Hx Hout. rewrite Hloads by done.
    destruct (Z.leb_spec (k * MAX_CMDLINE + r) x);
      destruct (Z.ltb_spec x (k * MAX_CMDLINE + b)); simpl; try done.
    exfalso. apply Hout. nia.
Qed.

(** Backspace takes the byte before the caret out of the line; at the
    start of the line it does nothing. *)
Lemma rl_iteration_key_backspace (prompt : list Z) (k : Z) (w : list Z)
    (v : rl_vars) (rest : list Z) (s : kstate) :
  editing s k w v -> stdin s = 8 :: rest ->
  key_pass prompt KeyBackspace k w v s rest.
Proof.
  intros Hed Hin.
  pose proof Hed as (Hk & Hcur & Hrow & Hnz & Hp & Hlen & Hmax).
  destruct v as [cur cl p]. simpl in Hcur, Hp, Hlen. subst cur.
  unfold key_pass, rl_iteration. simpl current. simpl curlen. simpl position.
  rewrite (bind_ok _ _ _ _ _ (getc_ok _ _ _ Hin)).
  change (8 =? 10) with false. change (8 =? 8) with true. cbv iota.
  set (s1 := set_stdin rest s).
  destruct (Z.eqb_spec p 0) as [->|Hp0].
  { exists s1, w, (mk_rl_vars (k * MAX_CMDLINE) cl 0).
    split; [reflexivity|]. split; [exact Hed|]. split; [lia|].
    split; [reflexivity|]. split; [done|]. split; [done|].
    split; [apply other_rows_kept_refl|]. unfold editor_only. by destruct s. }
  pose proof (row_holds_in_array _ _ _ Hk ltac:(lia) Hrow) as Harr.
  destruct (shift_left_loop (k * MAX_CMDLINE)
              (fun i => do x <- load_history (k * MAX_CMDLINE + i) ;;
                        store_history (k * MAX_CMDLINE + (i - 1)) x)
              (Z.to_nat (cl - p))) with (a := p) (s := s1)
    as (h' & out0 & Hloop & Hlen' & Hloads).
  { intros j t x Hx. exists [].
    rewrite (bind_ok _ _ _ _ _ (load_history_ok _ _ _ Hx)).
    f_equal. rewrite app_nil_r. by destruct t. }
  { nia. }
  { simpl. nia. }
  rewrite (bind_ok _ _ _ _ _ Hloop).
  destruct (row_after_shift_left k w (history s) h' (p - 1) (cl - 1))
    as [Hrow' Hoth]; [done|done|lia|lia|lia| |].
  { intros x Hx. rewrite Hloads by done. simpl history.
    replace (k * MAX_CMDLINE + p - 1 + Z.of_nat (Z.to_nat (cl - p)))
      with (k * MAX_CMDLINE + (cl - 1)) by lia.
    by replace (k * MAX_CMDLINE + p - 1) with (k * MAX_CMDLINE + (p - 1))
      by lia. }
  set (s2 := set_console (console s1 ++ out0) (set_history h' s1)).
  unfold putchar at 1. unfold bind at 1, print at 1, modify at 1.
  set (s3 := set_console (console s2 ++ [8]) s2).
  destruct (put_range_frame (k * MAX_CMDLINE) (cl - 1) s3 (p - 1))
    as (out & Hput); [nia|simpl; rewrite Hlen'; simpl; nia|].
  rewrite (bind_ok _ _ _ _ _ Hput).
  set (w' := shift_left w (Z.to_nat (p - 1)) (Z.to_nat (cl - 1))) in *.
  assert (length w' = length w) as Hw'
    by (unfold w'; apply shift_left_length; lia).
  eexists _, w', _. split; [reflexivity|].
  match goal with
  | |- editing ?S _ _ ?V /\ _ => set (s' := S); set (v' := V)
  end.
  assert (editing s' k w' v') as Hed'.
  { split; [done|]. split; [done|]. split; [exact Hrow'|].
    split; [by apply shift_left_nonzero|simpl; lia]. }
  split; [exact Hed'|]. split; [lia|]. split.
  { unfold view. rewrite (line_of_row _ _ _ _ Hed'), (line_of_row _ _ _ _ Hed).
    simpl curlen. simpl position. unfold w'.
    rewrite shift_left_line by lia.
    replace (S (Z.to_nat (cl - 1))) with (Z.to_nat cl) by lia.
    replace (Z.to_nat p) with (S (Z.to_nat (p - 1))) by lia.
    reflexivity. }
  split; [done|]. split; [done|]. split; [exact Hoth|].
  unfold editor_only. by destruct s.
Qed.

(** Delete takes the byte under the caret out of the line; at the end of
    the line it does nothing. *)
Lemma rl_iteration_key_delete (prompt : list Z) (k : Z) (w : list Z)
    (v : rl_vars) (rest : list Z) (s : kstate) :
  editing s k w v -> stdin s = 27 :: 91 :: 51 :: 126 :: rest ->
  key_pass prompt KeyDelete k w v s rest.
Proof.
  intros Hed Hin.
  pose proof Hed as (Hk & Hcur & Hrow & Hnz & Hp & Hlen & Hmax).
  destruct v as [cur cl p]. simpl in Hcur, Hp, Hlen. subst cur.
  unfold key_pass, rl_iteration. simpl current. simpl curlen. simpl position.
  rewrite (bind_ok _ _ _ _ _ (getc_ok _ _ _ Hin)).
  change (27 =? 10) with false. change (27 =? 8) with false.
  change (27 =? 9) with false. change (27 =? 27) with true. cbv iota.
  unfold rl_escape. simpl current. simpl curlen. simpl position.
  rewrite (bind_ok _ _ _ _ _
             (getc_ok 91 _ (set_stdin (91 :: 51 :: 126 :: rest) s) eq_refl)).
  rewrite (bind_ok _ _ _ _ _
             (getc_ok 51 _ (set_stdin (51 :: 126 :: rest)
                              (set_stdin (91 :: 51 :: 126 :: rest) s))
                eq_refl)).
  change (negb (91 =? 91) && negb (91 =? 79)) with false. cbv iota.
  change (51 =? 51) with true. cbv iota.
  set (s0 := set_stdin (126 :: rest) _).
  rewrite (bind_ok _ _ _ (set_stdin rest s0) true).
  2:{ rewrite (bind_ok _ _ _ _ _ (getc_ok 126 rest s0 eq_refl)). reflexivity. }
  cbv iota.
  set (s1 := set_stdin rest s0).
  assert (length (line_of s (mk_rl_vars (k * MAX_CMDLINE) cl p)) = Z.to_nat cl)
    as Hline.
  { rewrite (line_of_row _ _ _ _ Hed). simpl. rewrite length_take. lia. }
  destruct (Z.eqb_spec p cl) as [->|Hpc].
  { exists s1, w, (mk_rl_vars (k * MAX_CMDLINE) cl cl).
    split; [reflexivity|]. split; [exact Hed|]. split; [lia|].
    split.
    { unfold view, edit. rewrite Hline. simpl position.
      destruct (Nat.ltb_spec (Z.to_nat cl) (Z.to_nat cl)); [lia|done]. }
    split; [done|]. split; [done|].
    split; [apply other_rows_kept_refl|]. unfold editor_only. by destruct s. }
  pose proof (row_holds_in_array _ _ _ Hk ltac:(lia) Hrow) as Harr.
  destruct (shift_left_loop (k * MAX_CMDLINE)
              (fun i => do x <- load_history (k * MAX_CMDLINE + i) ;;
                        putchar x ;;
                        do y <- load_history (k * MAX_CMDLINE + i) ;;
                        store_history (k * MAX_CMDLINE + (i - 1)) y)
              (Z.to_nat (cl - (p + 1)))) with (a := p + 1) (s := s1)
    as (h' & out0 & Hloop & Hlen' & Hloads).
  { intros j t x Hx. exists [x].
    rewrite (bind_ok _ _ _ _ _ (load_history_ok _ _ _ Hx)).
    unfold putchar at 1. unfold bind at 1, print at 1, modify at 1.
    rewrite (bind_ok _ _ _ _ _
               (load_history_ok _ x (set_console (console t ++ [x]) t) Hx)).
    reflexivity. }
  { nia. }
  { simpl. nia. }
  rewrite (bind_ok _ _ _ _ _ Hloop).
  destruct (row_after_shift_left k w (history s) h' p (cl - 1))
    as [Hrow' Hoth]; [done|done|lia|lia|lia| |].
  { intros x Hx. rewrite Hloads by done. simpl history.
    replace (k * MAX_CMDLINE + (p + 1) - 1
             + Z.of_nat (Z.to_nat (cl - (p + 1))))
      with (k * MAX_CMDLINE + (cl - 1)) by lia.
    by replace (k * MAX_CMDLINE + (p + 1) - 1) with (k * MAX_CMDLINE + p)
      by lia. }
  set (w' := shift_left w (Z.to_nat p) (Z.to_nat (cl - 1))) in *.
  assert (length w' = length w) as Hw'
    by (unfold w'; apply shift_left_length; lia).
  eexists _, w', _. split; [reflexivity|].
  match goal with
  | |- editing ?S _ _ ?V /\ _ => set (s' := S); set (v' := V)
  end.
  assert (editing s' k w' v') as Hed'.
  { split; [done|]. split; [done|]. split; [exact Hrow'|].
    split; [by apply shift_left_nonzero|simpl; lia]. }
  split; [exact Hed'|]. split; [lia|]. split.
  { unfold view, edit. rewrite Hline.
    rewrite (line_of_row _ _ _ _ Hed'), (line_of_row _ _ _ _ Hed).
    simpl curlen. simpl position.
    destruct (Nat.ltb_spec (Z.to_nat p) (Z.to_nat cl)); [|lia].
    unfold w'. rewrite shift_left_line by lia.
    by replace (S (Z.to_nat (cl - 1))) with (Z.to_nat cl) by lia. }
  split; [done|]. split; [done|]. split; [exact Hoth|].
  unfold editor_only. by destruct s.
Qed.

(** Up to the branch of [rl_escape] for a key that is sent as ESC [ c. *)
Ltac rl_escape_key Hin :=
  unfold key_pass, rl_iteration; simpl current; simpl curlen; simpl position;
  rewrite (bind_ok _ _ _ _ _ (getc_ok _ _ _ Hin));
  change (27 =? 10) with false; change (27 =? 8) with false;
  change (27 =? 9) with false; change (27 =? 27) with true; cbv iota;
  unfold rl_escape; simpl current; simpl curlen; simpl position;
  match type of Hin with
  | stdin ?s = 27 :: 91 :: ?c :: ?rest =>
      rewrite (bind_ok _ _ _ _ _
                 (getc_ok 91 _ (set_stdin (91 :: c :: rest) s) eq_refl));
      rewrite (bind_ok _ _ _ _ _
                 (getc_ok c _ (set_stdin (c :: rest)
                                 (set_stdin (91 :: c :: rest) s)) eq_refl));
      change (negb (91 =? 91) && negb (91 =? 79)) with false; cbv iota
  end.

(** Home, End, Left and Right move the caret and leave the line. *)
Lemma rl_iteration_key_home (prompt : list Z) (k : Z) (w : list Z)
    (v : rl_vars) (rest : list Z) (s : kstate) :
  editing s k w v -> stdin s = 27 :: 91 :: 72 :: rest ->
  key_pass prompt KeyHome k w v s rest.
Proof.
  intros Hed Hin.
  pose proof Hed as (Hk & Hcur & Hrow & Hnz & Hp & Hlen & Hmax).
  destruct v as [cur cl p]. simpl in Hcur, Hp, Hlen. subst cur.
  rl_escape_key Hin.
  change (72 =? 51) with false. cbv iota.
  unfold bind at 1, ret at 1. cbv iota.
  change (72 =? 72) with true. cbv iota.
  eexists _, w, _. split; [reflexivity|].
  split; [repeat split; simpl; try done; lia|].
  split; [lia|]. split; [reflexivity|].
  split; [done|]. split; [done|]. split; [apply other_rows_kept_refl|].
  unfold editor_only. by destruct s.
Qed.

Lemma rl_iteration_key_end (prompt : list Z) (k : Z) (w : list Z)
    (v : rl_vars) (rest : list Z) (s : kstate) :
  editing s k w v -> stdin s = 27 :: 91 :: 70 :: rest ->
  key_pass prompt KeyEnd k w v s rest.
Proof.
  intros Hed Hin.
  pose proof Hed as (Hk & Hcur & Hrow & Hnz & Hp & Hlen & Hmax).
  destruct v as [cur cl p]. simpl in Hcur, Hp, Hlen. subst cur.
  rl_escape_key Hin.
  change (70 =? 51) with false. cbv iota.
  unfold bind at 1, ret at 1. cbv iota.
  change (70 =? 72) with false. change (70 =? 70) with true. cbv iota.
  pose proof (row_holds_in_array _ _ _ Hk ltac:(lia) Hrow) as Harr.
  match goal with
  | |- context [put_range _ _ _ ;; _] =>
      match goal with
      | |- exists _ _ _, bind _ _ ?S = _ /\ _ => set (s1 := S)
      end
  end.
  destruct (put_range_frame (k * MAX_CMDLINE) cl s1 p) as (out & Hput);
    [nia|simpl; nia|].
  rewrite (bind_ok _ _ _ _ _ Hput).
  eexists _, w, _. split; [reflexivity|].
  split; [repeat split; simpl; try done; lia|].
  split; [lia|]. split.
  { assert (length (line_of s (mk_rl_vars (k * MAX_CMDLINE) cl p))
            = Z.to_nat cl) as Hline.
    { rewrite (line_of_row _ _ _ _ Hed). simpl. rewrite length_take. lia. }
    unfold view, edit. rewrite Hline. reflexivity. }
  split; [done|]. split; [done|]. split; [apply other_rows_kept_refl|].
  unfold editor_only. by destruct s.
Qed.

Lemma rl_iteration_key_left (prompt : list Z) (k : Z) (w : list Z)
    (v : rl_vars) (rest : list Z) (s : kstate) :
  editing s k w v -> stdin s = 27 :: 91 :: 68 :: rest ->
  key_pass prompt KeyLeft k w v s rest.
Proof.
  intros Hed Hin.
  pose proof Hed as (Hk & Hcur & Hrow & Hnz & Hp & Hlen & Hmax).
  destruct v as [cur cl p]. simpl in Hcur, Hp, Hlen. subst cur.
  rl_escape_key Hin.
  change (68 =? 51) with false. cbv iota.
  unfold bind at 1, ret at 1. cbv iota.
  change (68 =? 72) with false. change (68 =? 70) with false.
  change (68 =? 68) with true. cbv iota.
  destruct (Z.ltb_spec 0 p).
  - eexists _, w, _. split; [reflexivity|].
    split; [repeat split; simpl; try done; lia|].
    split; [lia|]. split; [unfold view; simpl; f_equal; lia|].
    split; [done|]. split; [done|]. split; [apply other_rows_kept_refl|].
    unfold editor_only. by destruct s.
  - eexists _, w, _. split; [reflexivity|].
    split; [repeat split; simpl; try done; lia|].
    split; [lia|]. split; [unfold view; simpl; f_equal; lia|].
    split; [done|]. split; [done|]. split; [apply other_rows_kept_refl|].
    unfold editor_only. by destruct s.
Qed.

Lemma rl_iteration_key_right (prompt : list Z) (k : Z) (w : list Z)
    (v : rl_vars) (rest : list Z) (s : kstate) :
  editing s k w v -> stdin s = 27 :: 91 :: 67 :: rest ->
  key_pass prompt KeyRight k w v s rest.
Proof.
  intros Hed Hin.
  pose proof Hed as (Hk & Hcur & Hrow & Hnz & Hp & Hlen & Hmax).
  destruct v as [cur cl p]. simpl in Hcur, Hp, Hlen. subst cur.
  assert (length (line_of s (mk_rl_vars (k * MAX_CMDLINE) cl p)) = Z.to_nat cl)
    as Hline.
  { rewrite (line_of_row _ _ _ _ Hed). simpl. rewrite length_take. lia. }
  rl_escape_key Hin.
  change (67 =? 51) with false. cbv iota.
  unfold bind at 1, ret at 1. cbv iota.
  change (67 =? 72) with false. change (67 =? 70) with false.
  change (67 =? 68) with false. change (67 =? 67) with true. cbv iota.
  destruct (Z.ltb_spec p cl).
  - assert (load (history s) (k * MAX_CMDLINE + p) =
            Ok (char_at w (Z.to_nat p))) as Hload by (apply Hrow; lia).
    rewrite (bind_ok _ _ _ _ _
               (load_history_ok _ _
                  (set_stdin rest
                     (set_stdin (67 :: rest) (set_stdin (91 :: 67 :: rest) s)))
                  Hload)).
    eexists _, w, _. split; [reflexivity|].
    split; [repeat split; simpl; try done; lia|].
    split; [lia|]. split.
    { unfold view, edit. rewrite Hline. simpl position.
      destruct (Nat.ltb_spec (Z.to_nat p) (Z.to_nat cl)); [|lia].
      f_equal. lia. }
    split; [done|]. split; [done|]. split; [apply other_rows_kept_refl|].
    unfold editor_only. by destruct s.
  - eexists _, w, _. split; [reflexivity|].
    split; [repeat split; simpl; try done; lia|].
    split; [lia|]. split.
    { unfold view, edit. rewrite Hline. simpl position.
      destruct (Nat.ltb_spec (Z.to_nat p) (Z.to_nat cl)); [lia|]. done. }
    split; [done|]. split; [done|]. split; [apply other_rows_kept_refl|].
    unfold editor_only. by destruct s.
Qed.

(** Every editing key does to the line what it is to do. *)
Lemma rl_iteration_key (prompt : list Z) (key : edit_key) (k : Z)
    (w : list Z) (v : rl_vars) (rest : list Z) (s : kstate) :
  editing s k w v -> key_ok key ->
  Z.of_nat (length w) + 1 < MAX_CMDLINE ->
  stdin s = key_bytes key ++ rest ->
  key_pass prompt key k w v s rest.
Proof.
  intros Hed Hok Hroom Hin. destruct key; simpl in Hin, Hok.
  - by apply rl_iteration_key_char.
  - by apply rl_iteration_key_backspace.
  - by apply rl_iteration_key_delete.
  - by apply rl_iteration_key_home.
  - by apply rl_iteration_key_end.
  - by apply rl_iteration_key_left.
  - by apply rl_iteration_key_right.
Qed.

(** ** The line editor: a script of keys *)

(** The keys of a script up to the newline, one pass of the loop each. *)
Lemma rl_iterate_edit_script (prompt : list Z) (keys : list edit_key) :
  forall (k : Z) (w : list Z) (v : rl_vars) (s : kstate) (fuel : nat)
         (rest : list Z),
  editing s k w v -> Forall key_ok keys ->
  Z.of_nat (length w) + Z.of_nat (length keys) < MAX_CMDLINE ->
  stdin s = script_bytes keys ++ 10 :: rest -> (length keys < fuel)%nat ->
  exists s' w' v',
    rl_iterate prompt fuel v s = Ok (Break v', s') /\
    editing s' k w' v' /\
    view s' v' = edit_all keys (view s v) /\
    stdin s' = rest /\ histposition s' = histposition s /\
    other_rows_kept k (history s) (history s') /\ editor_only s s'.
Proof.
  induction keys as [|key keys IH]; intros k w v s fuel rest Hed Hok Hroom Hin
    Hfuel.
  - destruct fuel as [|fuel]; [simpl in Hfuel; lia|].
    simpl rl_iterate. unfold rl_iteration.
    rewrite (bind_ok _ _ _ _ _ (bind_ok _ _ _ _ _ (getc_ok _ _ _ Hin))).
    change (10 =? 10) with true. cbv iota.
    eexists _, w, v. split; [reflexivity|].
    split; [exact Hed|]. split; [reflexivity|].
    split; [done|]. split; [done|]. split; [apply other_rows_kept_refl|].
    unfold editor_only. by destruct s.
  - destruct fuel as [|fuel]; [simpl in Hfuel; lia|].
    apply Forall_cons in Hok as [Hkey Hok]. simpl in Hroom, Hfuel.
    unfold script_bytes in Hin. simpl in Hin. rewrite <- app_assoc in Hin.
    destruct (rl_iteration_key prompt key k w v _ s Hed Hkey ltac:(lia) Hin)
      as (s1 & w1 & v1 & Hrun & Hed1 & Hw1 & Hview1 & Hin1 & Hp1 & Hoth1 & Hfr1).
    destruct (IH k w1 v1 s1 fuel rest Hed1 Hok ltac:(lia) Hin1 ltac:(lia))
      as (s2 & w2 & v2 & Hrun2 & Hed2 & Hview2 & Hin2 & Hp2 & Hoth2 & Hfr2).
    exists s2, w2, v2. simpl rl_iterate. rewrite (bind_ok _ _ _ _ _ Hrun).
    split; [exact Hrun2|]. split; [exact Hed2|].
    split; [by rewrite Hview2, Hview1|].
    split; [done|]. split; [congruence|].
    split; [by eapply other_rows_kept_trans|by eapply editor_only_trans].
Qed.

Lemma script_bytes_length (keys : list edit_key) :
  (length keys <= length (script_bytes keys))%nat.
Proof.
  induction keys as [|key keys IH]; [done|].
  unfold script_bytes in *. simpl. rewrite length_app.
  destruct key; simpl; lia.
Qed.

(** A session of the editor on a script of keys: the row of the history
    cursor ends up holding the line the keys make, with its terminator. *)
Lemma clever_readline_script (prompt : list Z) (keys : list edit_key)
    (w0 rest : list Z) (s : kstate) :
  0 <= histposition s ->
  row_holds (history s) (histposition s) w0 ->
  Forall (fun c => c <> 0) w0 ->
  Forall key_ok keys ->
  Z.of_nat (length w0) + Z.of_nat (length keys) < MAX_CMDLINE ->
  stdin s = script_bytes keys ++ 10 :: rest ->
  exists s' line,
    clever_readline prompt s = Ok (histposition s * MAX_CMDLINE, s') /\
    line = fst (edit_all keys ([], O)) /\
    Forall (fun c => c <> 0) line /\ Z.of_nat (length line) < MAX_CMDLINE /\
    (forall j : nat, (j < length line)%nat ->
       load (history s') (histposition s * MAX_CMDLINE + Z.of_nat j) =
         Ok (char_at line j)) /\
    load (history s')
      (histposition s * MAX_CMDLINE + Z.of_nat (length line)) = Ok 0 /\
    stdin s' = rest /\
    histposition s' =
      (if Z.of_nat (length line) =? 0 then histposition s
       else Z.rem (histposition s + 1) KCONSOLE_HISTORY) /\
    other_rows_kept (histposition s) (history s) (history s') /\
    editor_only s s'.
Proof.
  intros Hhp Hrow Hnz Hok Hroom Hin.
  set (hp := histposition s) in *.
  unfold clever_readline, rl_enter.
  unfold bind at 1. unfold bind at 1, gets at 1.
  unfold bind at 1, print at 1, modify at 1. unfold ret at 1.
  set (s0 := set_console _ s).
  unfold bind at 1, gets at 1.
  set (v0 := mk_rl_vars (hp * MAX_CMDLINE) 0 0).
  assert (editing s0 hp w0 v0) as Hed0.
  { repeat split; simpl; try done; lia. }
  destruct (rl_iterate_edit_script prompt keys hp w0 v0 s0
              (S (length (stdin s0))) rest Hed0 Hok Hroom Hin)
    as (s1 & w1 & v1 & Hrun & Hed1 & Hview & Hin1 & Hp1 & Hoth1 & Hfr1).
  { simpl stdin. rewrite Hin, length_app.
    pose proof (script_bytes_length keys). lia. }
  rewrite (bind_ok _ _ _ _ _ Hrun).
  assert (view s0 v0 = ([], O)) as Hview0 by reflexivity.
  rewrite Hview0 in Hview.
  pose proof Hed1 as (_ & Hcur1 & Hrow1 & Hnz1 & Hpos1 & Hlen1 & Hmax1).
  pose proof (line_of_row _ _ _ _ Hed1) as Hline.
  destruct v1 as [cur1 cl p1]. simpl in Hcur1, Hpos1, Hlen1, Hline. subst cur1.
  unfold view in Hview. rewrite Hline in Hview. simpl position in Hview.
  destruct (edit_all keys ([], O)) as [line pos] eqn:Hedit.
  injection Hview as Hl Hpos. subst line. simpl fst.
  pose proof (row_holds_in_array _ _ _ Hhp ltac:(lia) Hrow1) as Harr.
  unfold rl_leave. simpl current. simpl curlen.
  set (s2 := if negb (cl =? 0)
             then set_histposition (Z.rem (histposition s1 + 1) KCONSOLE_HISTORY)
                    s1
             else s1).
  assert ((if negb (cl =? 0)
           then do hp0 <- gets histposition ;;
                modify (set_histposition (Z.rem (hp0 + 1) KCONSOLE_HISTORY))
           else ret tt) s1 = Ok (tt, s2)) as Hmove.
  { unfold s2. by destruct (negb (cl =? 0)). }
  rewrite (bind_ok _ _ _ _ _ Hmove).
  assert (history s2 = history s1) as Hh2
    by (unfold s2; by destruct (negb (cl =? 0))).
  rewrite (bind_ok _ _ _ _ _
             (store_history_ok (hp * MAX_CMDLINE + cl) 0 s2
                ltac:(rewrite Hh2; nia))).
  unfold ret. eexists _, _. split; [reflexivity|].
  simpl history. rewrite Hh2.
  set (h' := <[Z.to_nat (hp * MAX_CMDLINE + cl) := 0]> (history s1)).
  assert (Z.of_nat (length (take (Z.to_nat cl) w1)) = cl) as Hcl
    by (rewrite length_take; lia).
  split; [reflexivity|]. split; [by apply Forall_take|].
  split; [lia|]. split.
  { intros j Hj. unfold h'. rewrite load_insert_ne by nia.
    rewrite Hrow1 by lia. rewrite Nat2Z.id. unfold char_at.
    by rewrite lookup_take_lt by lia. }
  split.
  { rewrite Hcl. unfold h'. apply load_insert_eq. nia. }
  split.
  { simpl. unfold s2. by destruct (negb (cl =? 0)). }
  split.
  { rewrite Hcl. simpl. unfold s2.
    destruct (Z.eqb_spec cl 0); simpl; [done|]. by rewrite Hp1. }
  split.
  { eapply other_rows_kept_trans; [exact Hoth1|].
    intros x Hx Hout. unfold h'. apply load_insert_ne; [nia|done|].
    intros <-. apply Hout. nia. }
  apply (editor_only_trans s s0); [unfold editor_only; by destruct s|].
  apply (editor_only_trans s0 s1); [exact Hfr1|].
  unfold editor_only, s2. destruct (negb (cl =? 0)); by destruct s1.
Qed.

(** X7.  The line editor does what its keys say.  For a script of editing
    keys (bytes typed, Backspace, Delete, Home, End, Left, Right) followed
    by the newline, on a row that has room for the bytes typed,
    [clever_readline] returns the row of the history cursor, and the string
    there is the line that the keys make of the empty line, one after the
    other.  The cursor moves on when that line is not empty, the other rows
    of the history are not written, and the registry and the buffers of the
    parser are not touched. *)
Theorem clever_readline_edits_line (prompt : list Z) (keys : list edit_key)
    (w0 rest : list Z) (s : kstate) :
  0 <= histposition s ->
  row_holds (history s) (histposition s) w0 ->
  Forall (fun c => c <> 0) w0 ->
  Forall key_ok keys ->
  Z.of_nat (length w0) + Z.of_nat (length keys) < MAX_CMDLINE ->
  stdin s = script_bytes keys ++ 10 :: rest ->
  exists s',
    clever_readline prompt s = Ok (histposition s * MAX_CMDLINE, s') /\
    history_string s' (histposition s * MAX_CMDLINE) =
      fst (edit_all keys ([], O)) /\
    stdin s' = rest /\
    (fst (edit_all keys ([], O)) = [] -> histposition s' = histposition s) /\
    (fst (edit_all keys ([], O)) <> [] ->
     histposition s' = Z.rem (histposition s + 1) KCONSOLE_HISTORY) /\
    other_rows_kept (histposition s) (history s) (history s') /\
    editor_only s s'.
Proof.
  intros Hhp Hrow Hnz Hok Hroom Hin.
  destruct (clever_readline_script prompt keys w0 rest s Hhp Hrow Hnz Hok
              Hroom Hin)
    as (s' & line & Hrun & Hline & Hlnz & Hllen & Hloads & Hnul & Hrest & Hmove
        & Hoth & Hfr).
  rewrite <- Hline. exists s'. split; [exact Hrun|].
  split.
  { unfold history_string.
    apply (string_in_array (history s') line); [nia|done|done|done]. }
  split; [done|]. split.
  { intros ->. by rewrite Hmove. }
  split; [|by split].
  intros Hne. rewrite Hmove.
  destruct (Z.eqb_spec (Z.of_nat (length line)) 0) as [Hz|]; [|done].
  by destruct line.
Qed.

(** ** The line editor: the history keys *)

(** The echo of a row from [from] to its end. *)
Lemma put_range_row_tail (k : Z) (w : list Z) (s : kstate) :
  0 <= k -> row_holds (history s) k w -> Z.of_nat (length w) <= MAX_CMDLINE ->
  forall (cnt : nat) (from : Z),
  0 <= from -> from + Z.of_nat cnt = Z.of_nat (length w) ->
  forall t, history t = history s ->
  for_up cnt from
    (fun i => do c <- load_history (k * MAX_CMDLINE + i) ;; putchar c) t =
  Ok (tt, set_console (console t ++ drop (Z.to_nat from) w) t).
Proof.
  intros Hk Hrow Hmax. induction cnt as [|cnt IH]; intros from Hfrom Hcnt t Ht.
  - simpl. rewrite drop_ge by lia. rewrite app_nil_r. unfold ret.
    by destruct t.
  - simpl.
    assert (load (history t) (k * MAX_CMDLINE + from) =
            Ok (char_at w (Z.to_nat from))) as Hload
      by (rewrite Ht; apply Hrow; lia).
    rewrite (bind_ok _ _ _ _ _
               (bind_ok _ _ _ _ _ (load_history_ok _ _ _ Hload))).
    unfold putchar, print, modify.
    rewrite (IH (from + 1)) by (simpl; first [lia|done]).
    assert (drop (Z.to_nat from) w =
            char_at w (Z.to_nat from) :: drop (Z.to_nat (from + 1)) w) as ->.
    { destruct (w !! Z.to_nat from) as [x|] eqn:Hx.
      - unfold char_at. rewrite Hx. simpl.
        rewrite (drop_S _ _ _ Hx).
        by replace (Z.to_nat (from + 1)) with (S (Z.to_nat from)) by lia.
      - apply lookup_ge_None in Hx. lia. }
    simpl. rewrite <- app_assoc. by destruct t.
Qed.

(** X8.  The history keys move the cursor round the ring, "up" from row 0
    to the last row and "down" from the last row to row 0.  The line on the
    screen is wiped and the line of the new row is shown, with the caret at
    its end; the history itself is not written. *)
Theorem rl_iteration_history_key (prompt : list Z) (v : rl_vars) (c : Z)
    (w rest : list Z) (s : kstate) :
  0 < KCONSOLE_HISTORY -> 0 <= histposition s < KCONSOLE_HISTORY ->
  c = 65 \/ c = 66 ->
  let hp' :=
    (if c =? 65 then histposition s - 1 else histposition s + 1)
      mod KCONSOLE_HISTORY in
  row_holds (history s) hp' w ->
  Forall (fun c => c <> 0) w -> Z.of_nat (length w) < MAX_CMDLINE ->
  stdin s = 27 :: 91 :: c :: rest ->
  rl_iteration prompt v s =
    Ok (Continue
          (mk_rl_vars (hp' * MAX_CMDLINE) (Z.of_nat (length w))
             (Z.of_nat (length w))),
        set_console
          (console s ++ repeat 8 (Z.to_nat (position v))
           ++ repeat 32 (Z.to_nat (curlen v))
           ++ repeat 8 (Z.to_nat (curlen v)) ++ w)
          (set_histposition hp' (set_stdin rest s))).
Proof.
  intros Hring Hhp Hc hp' Hrow Hnz Hlen Hin.
  assert (0 <= hp' < KCONSOLE_HISTORY) as Hhp'
    by (apply Z.mod_pos_bound; lia).
  assert ((if (if c =? 65 then histposition s - 1 else histposition s + 1) <? 0
           then KCONSOLE_HISTORY - 1
           else Z.rem (if c =? 65 then histposition s - 1
                       else histposition s + 1) KCONSOLE_HISTORY) = hp')
    as Hmove.
  { unfold hp'. destruct Hc as [-> | ->]; simpl.
    - destruct (Z.ltb_spec (histposition s - 1) 0).
      + assert (histposition s = 0) as -> by lia.
        apply (Z.mod_unique_pos (0 - 1) KCONSOLE_HISTORY (-1)); lia.
      + by rewrite Z.rem_mod_nonneg by lia.
    - destruct (Z.ltb_spec (histposition s + 1) 0); [lia|].
      by rewrite Z.rem_mod_nonneg by lia. }
  destruct (row_holds_string (history s) hp' w ltac:(lia) Hrow Hnz Hlen)
    as [_ Hstrlen].
  destruct v as [cur cl p].
  unfold rl_iteration. simpl current. simpl curlen. simpl position.
  rewrite (bind_ok _ _ _ _ _ (getc_ok _ _ _ Hin)).
  change (27 =? 10) with false. change (27 =? 8) with false.
  change (27 =? 9) with false. change (27 =? 27) with true. cbv iota.
  unfold rl_escape. simpl current. simpl curlen. simpl position.
  rewrite (bind_ok _ _ _ _ _
             (getc_ok 91 _ (set_stdin (91 :: c :: rest) s) eq_refl)).
  rewrite (bind_ok _ _ _ _ _
             (getc_ok c _ (set_stdin (c :: rest)
                             (set_stdin (91 :: c :: rest) s)) eq_refl)).
  change (negb (91 =? 91) && negb (91 =? 79)) with false. cbv iota.
  assert ((c =? 51) = false /\ (c =? 72) = false /\ (c =? 70) = false /\
          (c =? 68) = false /\ (c =? 67) = false /\
          ((c =? 65) || (c =? 66)) = true) as (-> & -> & -> & -> & -> & ->)
    by (destruct Hc as [-> | ->]; done).
  unfold bind at 1, ret at 1.
  unfold rdln_print_c, print. unfold bind at 1, modify at 1.
  unfold bind at 1, modify at 1. unfold bind at 1, modify at 1.
  unfold bind at 1, gets at 1. simpl histposition. rewrite Hmove.
  unfold bind at 1, modify at 1.
  set (s1 := set_histposition hp' _).
  unfold put_string.
  unfold bind at 1.
  rewrite (bind_ok _ _ _ _ _ (strlen_history_ok _ _ s1 Hstrlen)).
  unfold put_range. rewrite Z.sub_0_r, Nat2Z.id.
  rewrite (put_range_row_tail hp' w s ltac:(lia) Hrow ltac:(lia)
             (length w) 0 ltac:(lia) ltac:(lia) s1 eq_refl).
  match goal with
  | |- bind (strlen_history _) _ ?S = _ =>
      rewrite (bind_ok _ _ _ _ _ (strlen_history_ok _ _ S Hstrlen))
  end.
  unfold ret. do 2 f_equal. unfold s1. simpl.
  rewrite <- !app_assoc. by destruct s.
Qed.

(** ** kconsole: from the line to the command *)







(** With [kcon] set, a pass of the loop of [kconsole] never leaves it. *)
Lemma kconsole_iteration_kcon (prompt : list Z) (s s' : kstate) (b : bool) :
  kconsole_iteration prompt true s = Ok (b, s') -> b = true.
Proof.
  unfold kconsole_iteration. intros Hrun.
  apply bind_inv in Hrun as (p & s1 & _ & Hrun).
  apply bind_inv in Hrun as (n & s2 & _ & Hrun).
  apply bind_inv in Hrun as (h & s3 & _ & Hrun).
  destruct (n =? 0); [by injection Hrun as <- _|].
  simpl in Hrun. apply bind_inv in Hrun as (? & s4 & _ & Hrun).
  by injection Hrun as <- _.
Qed.

(** X12.  With [stdin] set, the console is never left under [kcon]:
    however many lines are read, [kconsole] has not returned, and so has
    not the console thread, which runs it under [kcon]. *)
Theorem kconsole_kcon_never_returns (LOG : list Z -> M unit)
    (prompt : list Z) (msg : option (list Z)) (fuel : nat)
    (s s' : kstate) (r : bool) :
  (kconsole true LOG prompt msg true fuel s = Ok (r, s') -> r = false) /\
  (kconsole_thread true LOG fuel s = Ok (r, s') -> r = false).
Proof.
  assert (forall n t t' b,
            kconsole_loop prompt true n t = Ok (b, t') -> b = false) as Hloop.
  { induction n as [|n IH]; intros t t' b Hrun.
    - by injection Hrun as <- _.
    - simpl in Hrun. apply bind_inv in Hrun as (again & t1 & Hit & Hrun).
      apply kconsole_iteration_kcon in Hit as ->. by apply IH in Hrun. }
  assert (forall (pr : list Z) (m : option (list Z)) n t t' b,
            (forall n t t' b,
               kconsole_loop pr true n t = Ok (b, t') -> b = false) ->
            kconsole true LOG pr m true n t = Ok (b, t') -> b = false)
    as Hk.
  { intros pr m n t t' b Hl Hrun. unfold kconsole in Hrun. simpl in Hrun.
    apply bind_inv in Hrun as (? & t1 & _ & Hrun).
    apply bind_inv in Hrun as (? & t2 & _ & Hrun).
    by apply Hl in Hrun. }
  split.
  - by apply Hk.
  - unfold kconsole_thread. apply Hk.
    induction n as [|n IH]; intros t t' b Hrun.
    + by injection Hrun as <- _.
    + simpl in Hrun. apply bind_inv in Hrun as (again & t1 & Hit & Hrun).
      apply kconsole_iteration_kcon in Hit as ->. by apply IH in Hrun.
Qed.

(** ** The conversions of parse_cmdline *)

Lemma char_at_strlen (s : list Z) : char_at s (length (cstr s)) = 0.
Proof.
  induction s as [|c s IH]; [done|]. simpl.
  destruct (Z.eqb_spec c 0) as [->|]; [done|]. exact IH.
Qed.

Lemma cstr_app_nonzero (a b : list Z) :
  Forall (fun c => c <> 0) a -> cstr (a ++ b) = a ++ cstr b.
Proof.
  induction 1 as [|c a Hc _ IH]; simpl; [done|].
  destruct (Z.eqb_spec c 0); [done|]. by rewrite IH.
Qed.

(** Writing a NUL into a buffer cuts the string it holds. *)
Lemma cstr_insert_zero (buf : list Z) : forall m : nat,
  (m < length buf)%nat -> cstr (<[m := 0]> buf) = take m (cstr buf).
Proof.
  induction buf as [|c buf IH]; intros m Hm; [simpl in Hm; lia|].
  destruct m as [|m]; simpl.
  - by destruct (c =? 0).
  - destruct (Z.eqb_spec c 0); [done|]. simpl. rewrite IH; [done|].
    simpl in Hm. lia.
Qed.

(** The copy of [strncpy], with the first [i] bytes in place; [rd] reads
    the string [src] up to its terminator. *)
Lemma strncpy_loop_string (src : list Z) (rd : Z -> result Z) (fuel : nat) :
  (forall j : nat, (j <= length (cstr src))%nat ->
     rd (Z.of_nat j) = Ok (char_at src j)) ->
  forall (dest : list Z) (i : nat),
  (1 <= i + fuel <= length dest)%nat -> (i <= length (cstr src))%nat ->
  take i dest = take i (cstr src) ->
  exists dest',
    strncpy_loop dest rd (Z.of_nat i) fuel = Ok dest' /\
    length dest' = length dest /\
    cstr dest' = take (i + fuel - 1) (cstr src).
Proof.
  intros Hrd. induction fuel as [|fuel IH]; intros dest i Hfit Hi Hpre.
  - simpl. rewrite store_ok by lia. eexists. split; [reflexivity|].
    split; [by rewrite length_insert|].
    replace (Z.to_nat (Z.of_nat i - 1)) with (i - 1)%nat by lia.
    rewrite cstr_insert_zero by lia.
    rewrite <- (take_drop i dest), Hpre.
    rewrite cstr_app_nonzero by (apply Forall_take, cstr_nonzero).
    rewrite take_app_le by (rewrite length_take; lia).
    rewrite take_take. f_equal. lia.
  - simpl. rewrite (Hrd i Hi).
    rewrite store_ok by lia. rewrite Nat2Z.id.
    destruct (Z.eqb_spec (char_at src i) 0) as [Hz|Hnz].
    + eexists. split; [reflexivity|]. split; [by rewrite length_insert|].
      rewrite Hz, cstr_insert_zero by lia.
      rewrite <- (take_drop i dest), Hpre.
      rewrite cstr_app_nonzero by (apply Forall_take, cstr_nonzero).
      rewrite take_app_le by (rewrite length_take; lia).
      rewrite take_take.
      assert (i = length (cstr src)) as Hend.
      { destruct (Nat.eq_dec i (length (cstr src))) as [|Hne]; [done|].
        pose proof (char_at_cstr src i ltac:(lia)) as Hc.
        apply list_elem_of_lookup_2 in Hc.
        pose proof (cstr_nonzero src) as Hall. rewrite Forall_forall in Hall.
        by apply Hall in Hc. }
      rewrite !firstn_all2; [done|lia|lia].
    + assert (i < length (cstr src))%nat as Hin.
      { destruct (Nat.eq_dec i (length (cstr src))) as [->|]; [|lia].
        by rewrite char_at_strlen in Hnz. }
      destruct (IH (<[i := char_at src i]> dest) (S i))
        as (dest' & Hrun & Hlen & Hstr).
      * rewrite length_insert. lia.
      * lia.
      * rewrite (take_S_r (cstr src) i (char_at src i))
          by (by apply char_at_cstr).
        rewrite (take_S_r _ i (char_at src i))
          by (apply list_lookup_insert_eq; lia).
        rewrite take_insert_ge by lia. by rewrite Hpre.
      * exists dest'.
        replace (Z.of_nat i + 1) with (Z.of_nat (S i)) by lia.
        split; [exact Hrun|]. split; [by rewrite Hlen, length_insert|].
        rewrite Hstr. f_equal. lia.
Qed.

(** [strncpy] of [n] bytes leaves the first [n - 1] characters of the
    source in the destination, as a string. *)
Lemma strncpy_string (dest src : list Z) (n : Z) :
  1 <= n <= Z.of_nat (length dest) ->
  exists dest',
    strncpy dest (from_string src) n = Ok dest' /\
    length dest' = length dest /\
    cstr dest' = take (Z.to_nat (n - 1)) (cstr src).
Proof.
  intros Hn. unfold strncpy. rewrite Z.min_l by lia.
  destruct (strncpy_loop_string src (from_string src) (Z.to_nat n)) with
    (dest := dest) (i := O) as (dest' & Hrun & Hlen & Hstr);
    [intros j _; unfold from_string; by rewrite Nat2Z.id|lia|lia|done|].
  exists dest'. split; [exact Hrun|]. split; [done|].
  rewrite Hstr. f_equal. lia.
Qed.


Lemma put_arg_ok (cmd i : Z) (a : cmd_arg) (d : cmd_info) (s : kstate) :
  cmds s !! cmd = Some d ->
  put_arg cmd i a s =
    Ok (tt, set_cmds (<[cmd := set_argv (<[Z.to_nat i := a]> (argv d)) d]>
                        (cmds s)) s).
Proof. intros Hd. unfold put_arg, bind, get_cmd. by rewrite Hd. Qed.

Lemma lift_ok {A} (a : A) (s : kstate) : lift (Ok a) s = Ok (a, s).
Proof. reflexivity. Qed.

(** X16.  A string argument is copied into the buffer of the descriptor and
    cut to fit: the buffer ends up holding, as a string, the first
    [len - 1] bytes of the word, and nothing is printed.  The word that is
    too long is cut without an error. *)
Theorem parse_cmdline_convert_string (cmdline : list Z) (cmd i start end_ : Z)
    (d : cmd_info) (a : cmd_arg) (s : kstate) :
  cmds s !! cmd = Some d -> argv d !! Z.to_nat i = Some a ->
  type a = ARG_TYPE_STRING ->
  1 <= len a <= Z.of_nat (length (buffer a)) -> len a < 2 ^ word_bits ->
  0 <= start <= end_ -> end_ + 2 < 2 ^ word_bits -> end_ < strlen cmdline ->
  exists buf,
    parse_cmdline_convert cmdline cmd i start end_ s =
      Ok (0, set_cmds
               (<[cmd := set_argv (<[Z.to_nat i := set_buffer buf a]> (argv d))
                           d]> (cmds s)) s) /\
    length buf = length (buffer a) /\
    cstr buf = take (Z.to_nat (len a - 1)) (word_at cmdline start end_).
Proof.
  intros Hd Ha Hty Hlen Hlbits Hs Hbits Hin.
  unfold parse_cmdline_convert.
  rewrite (bind_ok _ _ _ _ _ (get_arg_ok cmd i a d s Hd Ha)). rewrite Hty.
  rewrite (wrap_small _ (end_ - start) Hbits) by lia.
  rewrite (wrap_small _ (end_ - start + 2) Hbits) by lia.
  rewrite (wrap_small _ (end_ - start + 1) Hbits) by lia.
  rewrite (wrap_small _ (len a - 1) Hlbits) by lia.
  destruct (strncpy_string (buffer a) (drop (Z.to_nat start) cmdline)
              (Z.min (end_ - start + 2) (len a)))
    as (buf1 & Hcopy & Hlen1 & Hstr1); [lia|].
  rewrite Hcopy, (bind_ok _ _ _ _ _ (lift_ok buf1 s)).
  rewrite store_ok by lia.
  rewrite (bind_ok _ _ _ _ _ (lift_ok _ s)).
  rewrite (bind_ok _ _ _ _ _ (put_arg_ok cmd i _ d s Hd)).
  eexists. split; [reflexivity|].
  split; [by rewrite length_insert|].
  rewrite cstr_insert_zero by lia. rewrite Hstr1.
  rewrite word_at_cstr by lia. rewrite !take_take. f_equal. lia.
Qed.

(** X17.  A variable argument written between double quotes is taken as a
    string: the bytes between the quotes are copied into the buffer and
    cut to [len - 1] bytes, the variable type becomes "string" and the
    integer value the address of the buffer. *)
Theorem parse_cmdline_convert_quoted (cmdline : list Z) (cmd i start end_ : Z)
    (d : cmd_info) (a : cmd_arg) (s : kstate) :
  cmds s !! cmd = Some d -> argv d !! Z.to_nat i = Some a ->
  type a = ARG_TYPE_VAR ->
  1 <= len a <= Z.of_nat (length (buffer a)) -> len a < 2 ^ word_bits ->
  0 <= start < end_ -> end_ + 2 < 2 ^ word_bits -> end_ < strlen cmdline ->
  char_at cmdline (Z.to_nat start) = 34 ->
  char_at cmdline (Z.to_nat end_) = 34 ->
  exists buf,
    parse_cmdline_convert cmdline cmd i start end_ s =
      Ok (0, set_cmds
               (<[cmd := set_argv
                           (<[Z.to_nat i :=
                                set_vartype ARG_TYPE_STRING
                                  (set_intval (buffer_addr a)
                                     (set_buffer buf a))]> (argv d))
                           d]> (cmds s)) s) /\
    length buf = length (buffer a) /\
    cstr buf =
      take (Z.to_nat (len a - 1)) (word_at cmdline (start + 1) (end_ - 1)).
Proof.
  intros Hd Ha Hty Hlen Hlbits Hs Hbits Hin Hq1 Hq2.
  unfold parse_cmdline_convert.
  rewrite (bind_ok _ _ _ _ _ (get_arg_ok cmd i a d s Hd Ha)). rewrite Hty.
  rewrite Hq1, Hq2.
  destruct (Z.eqb_spec start end_); [lia|].
  change (negb false && (34 =? 34) && (34 =? 34)) with true. cbv iota.
  rewrite (wrap_small _ (end_ - start) Hbits) by lia.
  rewrite (wrap_small _ (start + 1) Hbits) by lia.
  rewrite (wrap_small _ (len a - 1) Hlbits) by lia.
  destruct (strncpy_string (buffer a) (drop (Z.to_nat (start + 1)) cmdline)
              (Z.min (end_ - start) (len a)))
    as (buf1 & Hcopy & Hlen1 & Hstr1); [lia|].
  rewrite Hcopy, (bind_ok _ _ _ _ _ (lift_ok buf1 s)).
  rewrite store_ok by lia.
  rewrite (bind_ok _ _ _ _ _ (lift_ok _ s)).
  rewrite (bind_ok _ _ _ _ _ (put_arg_ok cmd i _ d s Hd)).
  eexists. split; [reflexivity|].
  split; [by rewrite length_insert|].
  rewrite cstr_insert_zero by lia. rewrite Hstr1.
  rewrite word_at_cstr by lia. rewrite !take_take. f_equal. lia.
Qed.

(** ** parse_int_arg: numbers and symbols *)

Lemma char_at_drop (s : list Z) (n j : nat) :
  char_at (drop n s) j = char_at s (n + j).
Proof. unfold char_at. by rewrite lookup_drop. Qed.

(** X19.  A word that is not a number is never converted: it is cut to
    [MAX_SYMBOL_NAME - 1] bytes, a leading [&] or [*] left out, and looked
    up; whatever the lookup answers, [parse_int_arg] prints a message,
    "Symbol ... not found." for [ENOENT], "Duplicate symbol ..." and the
    list of the matches for [EOVERFLOW], "No symbol information available."
    for every other code, and returns -1 with [*result] as it was. *)
Theorem parse_int_arg_symbol (text : list Z) (n result : Z) (s : kstate) :
  let sigil := (char_at text 0 =? 38) || (char_at text 0 =? 42) in
  let text1 := if sigil then tail text else text in
  let len1 := if sigil then n - 1 else n in
  1 <= MAX_SYMBOL_NAME <= Z.of_nat (length (symname s)) ->
  0 <= len1 -> n + 1 < 2 ^ word_bits ->
  char_at text1 0 < 48 \/ 57 < char_at text1 0 ->
  exists buf,
    length buf = length (symname s) /\
    cstr buf =
      take (Z.to_nat (Z.min len1 (MAX_SYMBOL_NAME - 1))) (cstr text1) /\
    parse_int_arg text n result s =
      Ok ((-1, result),
          set_console
            (console s ++
             let rc := fst (symtab_addr_lookup (cstr buf)) in
             if rc =? ENOENT then msg_symbol_not_found buf
             else if rc =? EOVERFLOW
                  then msg_duplicate_symbol buf
                       ++ symtab_print_search (cstr buf)
                  else msg_no_symbol_information)
            (set_symname buf s)).
Proof.
  intros sigil text1 len1 Hsym Hlen Hbits Hnan. unfold parse_int_arg.
  assert ((char_at text 0 =? 38)
          || negb (char_at text 0 =? 38) && (char_at text 0 =? 42) = sigil)
    as -> by (unfold sigil; by destruct (char_at text 0 =? 38)).
  fold text1.
  assert ((if sigil then wrap (n - 1) else n) = len1) as ->.
  { unfold len1 in *. destruct sigil; [|done].
    by rewrite (wrap_small _ (n - 1) Hbits) by lia. }
  assert ((char_at text1 0 <? 48) || (57 <? char_at text1 0) = true) as ->.
  { destruct Hnan as [Hlow|Hhigh].
    - by destruct (Z.ltb_spec (char_at text1 0) 48); [|lia].
    - destruct (Z.ltb_spec 57 (char_at text1 0)); [|lia]. apply orb_true_r. }
  assert (len1 <= n) as Hle by (unfold len1; destruct sigil; lia).
  rewrite (wrap_small _ (len1 + 1) Hbits) by lia.
  unfold bind at 1, gets. unfold bind at 1.
  destruct (strncpy_string (symname s) text1
              (Z.min (len1 + 1) MAX_SYMBOL_NAME))
    as (buf & Hcopy & Hbuf & Hstr); [lia|].
  rewrite Hcopy. simpl lift. unfold bind at 1, modify.
  exists buf. split; [done|]. split.
  { rewrite Hstr. f_equal. lia. }
  destruct (symtab_addr_lookup (cstr buf)) as [rc symaddr]. simpl fst.
  unfold bind at 1, parse_int_arg_switch.
  destruct (rc =? ENOENT); [|destruct (rc =? EOVERFLOW)];
    unfold bind, print, modify, ret; cbv beta iota;
    [reflexivity| |reflexivity].
  rewrite app_assoc. reflexivity.
Qed.

(** X18.  A word that starts with a digit, after a [&] or a [*] or
    without one, is converted with [atoi]: an integer argument and a
    variable argument get the number as their value, or, behind a [*], the
    word stored at the address which the number is; a [&] changes nothing.
    A variable argument becomes one of type "integer".  Nothing is
    printed, and the buffer of the lookup is not written. *)
Theorem parse_cmdline_convert_number (cmdline : list Z) (cmd i start end_ : Z)
    (d : cmd_info) (a : cmd_arg) (s : kstate) :
  let text := drop (Z.to_nat start) cmdline in
  let sigil := (char_at text 0 =? 38) || (char_at text 0 =? 42) in
  let text1 := if sigil then tail text else text in
  let value := if char_at text 0 =? 42 then peek (atoi text1) else atoi text1 in
  cmds s !! cmd = Some d -> argv d !! Z.to_nat i = Some a ->
  type a = ARG_TYPE_INT \/ type a = ARG_TYPE_VAR ->
  48 <= char_at text1 0 <= 57 ->
  parse_cmdline_convert cmdline cmd i start end_ s =
    Ok (0, set_cmds
             (<[cmd := set_argv
                         (<[Z.to_nat i :=
                              match type a with
                              | ARG_TYPE_VAR =>
                                  set_vartype ARG_TYPE_INT (set_intval value a)
                              | _ => set_intval value a
                              end]> (argv d))
                         d]> (cmds s)) s).
Proof.
  intros text sigil text1 value Hd Ha Hty Hdigit.
  assert (forall n r,
            parse_int_arg text n r s = Ok ((0, value), s)) as Hint.
  { intros n r. unfold parse_int_arg.
    assert ((char_at text 0 =? 38)
            || negb (char_at text 0 =? 38) && (char_at text 0 =? 42) = sigil)
      as -> by (unfold sigil; by destruct (char_at text 0 =? 38)).
    fold text1.
    destruct (Z.ltb_spec (char_at text1 0) 48); [lia|].
    destruct (Z.ltb_spec 57 (char_at text1 0)); [lia|]. simpl.
    unfold ret, value. do 3 f_equal.
    destruct (Z.eqb_spec (char_at text 0) 38) as [->|]; [done|].
    by destruct (char_at text 0 =? 42). }
  unfold parse_cmdline_convert.
  rewrite (bind_ok _ _ _ _ _ (get_arg_ok cmd i a d s Hd Ha)).
  destruct Hty as [-> | ->].
  - fold text. rewrite (bind_ok _ _ _ _ _ (Hint _ _)). cbn [fst snd].
    rewrite (bind_ok _ _ _ _ _ (put_arg_ok cmd i _ d s Hd)). reflexivity.
  - assert (char_at cmdline (Z.to_nat start) = char_at text 0) as ->.
    { unfold text. rewrite char_at_drop. f_equal. lia. }
    assert ((char_at text 0 =? 34) = false) as ->.
    { unfold text1, sigil in Hdigit.
      destruct (Z.eqb_spec (char_at text 0) 38) as [->|]; [done|].
      destruct (Z.eqb_spec (char_at text 0) 42) as [->|]; [done|].
      simpl in Hdigit. destruct (Z.eqb_spec (char_at text 0) 34); [lia|done]. }
    rewrite andb_false_r. cbn [andb]. fold text.
    rewrite (bind_ok _ _ _ _ _ (Hint _ _)). cbn [fst snd].
    change (0 =? 0) with true. cbv iota.
    rewrite (bind_ok _ _ _ _ _ (put_arg_ok cmd i _ d s Hd)). reflexivity.
Qed.

(** ** Completion of commands *)

(** The test of [cmdtab_search_one]: long enough, and equal over the
    length of the prefix. *)
Lemma prefix_test (curname name0 : list Z) :
  (strlen curname <? strlen name0) = false /\
  (strncmp curname name0 (Z.to_nat (strlen name0)) =? 0) = true <->
  cstr name0 `prefix_of` cstr curname.
Proof.
  unfold strlen. rewrite Z.ltb_ge, Z.eqb_eq, strncmp_0_iff, Nat2Z.id.
  rewrite firstn_all. split.
  - intros [Hlen Heq]. exists (drop (length (cstr name0)) (cstr curname)).
    rewrite <- (take_drop (length (cstr name0)) (cstr curname)) at 1.
    by rewrite Heq.
  - intros [k Hk]. rewrite Hk. split.
    + rewrite length_app. lia.
    + by rewrite take_app_length.
Qed.

Lemma prefix_test_false (curname name0 : list Z) :
  ~ cstr name0 `prefix_of` cstr curname ->
  (strlen curname <? strlen name0) = true \/
  (strncmp curname name0 (Z.to_nat (strlen name0)) =? 0) = false.
Proof.
  intros Hno.
  destruct (strlen curname <? strlen name0) eqn:Hlen; [by left|]. right.
  destruct (strncmp curname name0 (Z.to_nat (strlen name0)) =? 0) eqn:Hcmp;
    [|done].
  destruct Hno. by apply prefix_test.
Qed.

Lemma classic_prefix (a b : list Z) : a `prefix_of` b \/ ~ a `prefix_of` b.
Proof. destruct (decide (a `prefix_of` b)); [by left|by right]. Qed.

(** The scan of [cmdtab_search_one] over the links from the cursor on. *)
Lemma cmdtab_search_scan_spec (name0 : list Z) (cur : list Z) (s : kstate) :
  Forall (fun a => is_Some (cmds s !! a)) cur ->
  (exists before hlp after h,
     cur = before ++ hlp :: after /\ cmds s !! hlp = Some h /\
     cstr name0 `prefix_of` cstr (name h) /\
     Forall (fun a => ~ begins_with s name0 a) before /\
     cmdtab_search_scan name0 cur s =
       Ok ((Some (drop (Z.to_nat (strlen name0)) (name h)), hlp :: after), s))
  \/
  (Forall (fun a => ~ begins_with s name0 a) cur /\
   cmdtab_search_scan name0 cur s = Ok ((None, []), s)).
Proof.
  induction cur as [|hlp next IH]; intros Hall.
  - right. by split.
  - apply Forall_cons in Hall as [[h Hh] Hnext].
    assert (cmdtab_search_scan name0 (hlp :: next) s =
            if strlen (name h) <? strlen name0
            then cmdtab_search_scan name0 next s
            else if strncmp (name h) name0 (Z.to_nat (strlen name0)) =? 0
                 then Ok ((Some (drop (Z.to_nat (strlen name0)) (name h)),
                           hlp :: next), s)
                 else cmdtab_search_scan name0 next s) as ->.
    { simpl. unfold bind, get_cmd. rewrite Hh.
      destruct (strlen (name h) <? strlen name0); [done|].
      by destruct (strncmp (name h) name0 (Z.to_nat (strlen name0)) =? 0). }
    destruct (classic_prefix (cstr name0) (cstr (name h))) as [Hpre|Hno].
    + left. exists [], hlp, next, h.
      apply prefix_test in Hpre as Htest. destruct Htest as [-> ->].
      by repeat split.
    + assert (~ begins_with s name0 hlp) as Hnb.
      { intros (d & Hd & Hp). rewrite Hh in Hd. injection Hd as <-. done. }
      destruct (IH Hnext)
        as [(before & hlp' & after & h' & -> & Hh' & Hp' & Hbefore & Hrun)
           |[Hnone Hrun]].
      * left. exists (hlp :: before), hlp', after, h'.
        split; [done|]. split; [done|]. split; [done|].
        split; [by apply Forall_cons|].
        by destruct (prefix_test_false _ _ Hno) as [-> | ->];
          [|destruct (strlen (name h) <? strlen name0)].
      * right. split; [by apply Forall_cons|].
        by destruct (prefix_test_false _ _ Hno) as [-> | ->];
          [|destruct (strlen (name h) <? strlen name0)].
Qed.

Lemma begins_with_frame (s s' : kstate) (name0 : list Z) (a : Z) :
  cmds s' = cmds s -> begins_with s' name0 a <-> begins_with s name0 a.
Proof. intros Hc. unfold begins_with. by rewrite Hc. Qed.

(** [cmdtab_search_one] with the list lock free: the first descriptor from
    the cursor on whose name begins with the prefix, or none. *)
Lemma cmdtab_search_one_spec (name0 : list Z) (startpos : option (list Z))
    (s : kstate) :
  cmd_lock s = false ->
  Forall (fun a => is_Some (cmds s !! a)) (default (cmd_head s) startpos) ->
  (exists before hlp after h,
     default (cmd_head s) startpos = before ++ hlp :: after /\
     cmds s !! hlp = Some h /\
     cstr name0 `prefix_of` cstr (name h) /\
     Forall (fun a => ~ begins_with s name0 a) before /\
     cmdtab_search_one name0 startpos s =
       Ok ((Some (drop (Z.to_nat (strlen name0)) (name h)), hlp :: after), s))
  \/
  (Forall (fun a => ~ begins_with s name0 a) (default (cmd_head s) startpos) /\
   cmdtab_search_one name0 startpos s = Ok ((None, []), s)).
Proof.
  intros Hlock Hall.
  assert (set_cmd_lock false (set_cmd_lock true s) = s) as Hback
    by (destruct s; simpl in *; by subst).
  assert (cmdtab_search_one name0 startpos s =
          match cmdtab_search_scan name0 (default (cmd_head s) startpos)
                  (set_cmd_lock true s) with
          | Ok (r, s') => Ok (r, set_cmd_lock false s')
          | Err e => Err e
          end) as ->.
  { unfold cmdtab_search_one, bind, spinlock_lock_cmd_lock, gets,
      spinlock_unlock_cmd_lock, modify, ret. rewrite Hlock. simpl cmd_head.
    by destruct (cmdtab_search_scan _ _ _) as [[? ?]|]. }
  destruct (cmdtab_search_scan_spec name0 (default (cmd_head s) startpos)
              (set_cmd_lock true s) Hall)
    as [(before & hlp & after & h & Hcur & Hh & Hp & Hbefore & Hrun)
       |[Hnone Hrun]]; rewrite Hrun, Hback.
  - left. by exists before, hlp, after, h.
  - by right.
Qed.

(** X5.  [cmdtab_search_one] finds the first command, from the cursor on,
    whose name begins with the prefix, and gives the rest of that name and
    the cursor on that command; it gives NULL when there is none.  It takes
    the lock of the list and gives it back, takes no other lock, and
    leaves the state as it was.  It spins when the lock of the list is
    held. *)
Theorem cmdtab_search_one_first_match (name0 : list Z)
    (startpos : option (list Z)) (s : kstate) :
  Forall (fun a => is_Some (cmds s !! a)) (default (cmd_head s) startpos) ->
  (cmd_lock s = true -> cmdtab_search_one name0 startpos s = Err Deadlock) /\
  (cmd_lock s = false ->
   exists r,
     cmdtab_search_one name0 startpos s = Ok (r, s) /\
     match r with
     | (Some rest, cur) =>
         exists before hlp after h,
           default (cmd_head s) startpos = before ++ cur /\
           cur = hlp :: after /\ cmds s !! hlp = Some h /\
           cstr name0 ++ cstr rest = cstr (name h) /\
           Forall (fun a => ~ begins_with s name0 a) before
     | (None, _) =>
         Forall (fun a => ~ begins_with s name0 a)
           (default (cmd_head s) startpos)
     end).
Proof.
  intros Hall. split.
  - intros Hlock. unfold cmdtab_search_one, bind, spinlock_lock_cmd_lock.
    by rewrite Hlock.
  - intros Hlock.
    destruct (cmdtab_search_one_spec name0 startpos s Hlock Hall)
      as [(before & hlp & after & h & Hcur & Hh & Hp & Hbefore & Hrun)
         |[Hnone Hrun]]; rewrite Hrun; eexists; (split; [reflexivity|]).
    + exists before, hlp, after, h. repeat split; try done.
      destruct Hp as [k Hk]. unfold strlen. rewrite Nat2Z.id.
      rewrite cstr_drop by (rewrite Hk, length_app; lia).
      rewrite Hk at 1. rewrite drop_app_length. done.
    + done.
Qed.





(** What is left of a state once the descriptor whose arguments were
    converted is unlocked again. *)
Lemma release_converted_kept (cmd : Z) (d : cmd_info) (s s1 : kstate) :
  cmds s !! cmd = Some d -> lock d = false ->
  converted cmd (hold cmd s) s1 ->
  cmd_lock (release cmd s1) = cmd_lock s /\
  cmd_head (release cmd s1) = cmd_head s /\
  (forall a da, cmds s !! a = Some da ->
     exists d', cmds (release cmd s1) !! a = Some d' /\ same_shape da d') /\
  length (symname (release cmd s1)) = length (symname s) /\
  exists out, console (release cmd s1) = console s ++ out.
Proof.
  intros Hd Hl (Hcl & Hhd & Hoth & (d0 & d1 & Hd0 & Hd1 & Hsh) & Hsym & Hout).
  rewrite (hold_lookup cmd d s Hd) in Hd0. injection Hd0 as <-.
  split_and!; [exact Hcl|exact Hhd| |exact Hsym|exact Hout].
  intros a da Ha. unfold release. simpl cmds.
  destruct (decide (a = cmd)) as [->|Hne].
  - rewrite lookup_alter_eq, Hd1. simpl. eexists. split; [done|].
    rewrite Hd in Ha. injection Ha as <-.
    destruct Hsh as (_ & Hn & Hde & Hf & Hc & Hm).
    by split_and!.
  - rewrite lookup_alter_ne, Hoth by done.
    unfold hold. simpl. rewrite lookup_alter_ne by done.
    exists da. split; [done|]. by split_and!.
Qed.

(** X20.  [parse_cmdline] leaves a state it can run on again: from a state
    with no lock held, sound schemas and a [symname] of its size it returns
    in such a state, with the same list of descriptors, each descriptor with
    its lock, name, description, handler, argument count and argument
    schema, and a console that only grew. *)
Theorem parse_cmdline_keeps_parser_ready (cmdline : list Z) (len : Z)
    (s : kstate) :
  0 <= len <= Z.of_nat (length cmdline) -> len + 2 < 2 ^ word_bits ->
  parser_ready s ->
  exists r s',
    parse_cmdline cmdline len s = Ok (r, s') /\
    parser_ready s' /\
    cmd_head s' = cmd_head s /\
    (forall a d, cmds s !! a = Some d ->
       exists d', cmds s' !! a = Some d' /\ same_shape d d') /\
    (exists out, console s' = console s ++ out).
Proof.
  intros Hlen Hbits Hready.
  destruct (parse_cmdline_cases cmdline len Hlen Hbits s Hready)
    as (r & s' & Hrun & Hcase).
  exists r, s'. split; [exact Hrun|].
  assert (Hkept : cmd_lock s' = cmd_lock s /\ cmd_head s' = cmd_head s /\
    (forall a da, cmds s !! a = Some da ->
       exists d', cmds s' !! a = Some d' /\ same_shape da d') /\
    length (symname s') = length (symname s) /\
    exists out, console s' = console s ++ out).
  { assert (Hsame : forall text,
      cmd_lock (printed text s) = cmd_lock s /\
      cmd_head (printed text s) = cmd_head s /\
      (forall a da, cmds s !! a = Some da ->
         exists d', cmds (printed text s) !! a = Some d' /\ same_shape da d') /\
      length (symname (printed text s)) = length (symname s) /\
      exists out, console (printed text s) = console s ++ out).
    { intros text. split_and!; [done|done| |done|by exists text].
      intros a da Ha. exists da. by split_and!. }
    destruct Hcase as [(? & ? & _ & -> & ->)
      |(start & end_ & _ & _ & _ &
        [(_ & -> & ->)
        |(cmd & d & _ & _ & Hd & Hl &
          [(_ & s1 & Hf & -> & ->)
          |(_ & end1 & e & s1 & Hargs & Hf & _ & Hres)])])].
    - split_and!; [done|done| |done|exists []; by rewrite app_nil_r].
      intros a da Ha. exists da. by split_and!.
    - apply Hsame.
    - by apply (release_converted_kept cmd d), converted_printed.
    - destruct (Z.eqb_spec e 0) as [->|Hne]; simpl in Hres;
        [destruct (0 <? _)%nat|]; injection Hres as -> ->.
      + by apply (release_converted_kept cmd d), converted_printed.
      + by apply (release_converted_kept cmd d).
      + by apply (release_converted_kept cmd d). }
  destruct Hkept as (Hcl & Hhd & Hds & Hsym & Hout).
  destruct Hready as (Hlock & Hlinked & Hsz).
  split_and!; [|done..].
  split; [by rewrite Hcl|]. split; [|by rewrite Hsym].
  rewrite Hhd. eapply Forall_impl; [exact Hlinked|].
  intros a (da & Ha & Hla & Hsa).
  destruct (Hds a da Ha) as (d' & Hd' & Hsh).
  exists d'. split_and!; [done| |by apply (schema_ok_same_shape da)].
  destruct Hsh as (-> & _). done.
Qed.

Lemma load_eq_lookup (a b : list Z) (x y : Z) :
  0 <= x -> 0 <= y -> load a x = load b y ->
  a !! Z.to_nat x = b !! Z.to_nat y.
Proof.
  intros Hx Hy. unfold load.
  destruct (Z.ltb_spec x 0); [lia|]. destruct (Z.ltb_spec y 0); [lia|].
  destruct (a !! Z.to_nat x), (b !! Z.to_nat y); congruence.
Qed.

(** X4.  [insert_char] on a string of length [n] that ends inside the
    array: the bytes from [pos] to the end of the string move up by one, the
    last of them onto the terminator, and [ch] is stored at [pos]; nothing
    else changes and no new terminator is written, so the string that is
    read afterwards runs on into what lay behind the old terminator. *)
Theorem insert_char_overwrites_terminator (str ch pos n : Z) (s : kstate) :
  strlen_at (history s) str = Ok n -> 0 <= pos <= n -> ch <> 0 ->
  exists h',
    insert_char str ch pos s = Ok (tt, set_history h' s) /\
    h' = take (Z.to_nat (str + pos)) (history s) ++
         ch :: take (Z.to_nat (n - pos))
                 (drop (Z.to_nat (str + pos)) (history s)) ++
         drop (Z.to_nat (str + n + 1)) (history s) /\
    length h' = length (history s) /\
    history_string (set_history h' s) str =
      take (Z.to_nat pos) (history_string s str) ++
      ch :: drop (Z.to_nat pos) (history_string s str) ++
      cstr (drop (Z.to_nat (str + n + 1)) (history s)).
Proof.
  intros Hs Hp Hch. pose proof Hs as Hs'. unfold strlen_at in Hs'.
  destruct (Z.ltb_spec str 0) as [|Hstr]; [done|].
  destruct (Nat.ltb_spec (length (cstr (drop (Z.to_nat str) (history s))))
              (length (drop (Z.to_nat str) (history s)))) as [Hin|];
    [|done].
  injection Hs' as Hn. unfold strlen in Hn. rewrite length_drop in Hin.
  unfold history_string.
  set (h := history s) in *. set (o := Z.to_nat str) in *.
  set (w := cstr (drop o h)) in *.
  set (p := Z.to_nat pos).
  replace (Z.to_nat (str + pos)) with (o + p)%nat by lia.
  replace (Z.to_nat (n - pos)) with (length w - p)%nat by lia.
  replace (Z.to_nat (str + n + 1)) with (o + length w + 1)%nat by lia.
  assert (p <= length w)%nat as Hpw by lia.
  destruct (cstr_prefix (drop o h)) as (t & Ht). fold w in Ht.
  assert (h = take o h ++ w ++ t) as Hh by (by rewrite <- Ht, take_drop).
  assert (length (take o h) = o) as Hlo by (rewrite length_take; lia).
  unfold insert_char.
  rewrite (bind_ok _ _ _ _ _ (strlen_history_ok _ _ s Hs)).
  destruct (insert_char_shift_loads str (Z.to_nat (n - pos)) n s)
    as (h1 & Hrun & Hlen1 & Hloads); [lia|fold h; lia|].
  rewrite (bind_ok _ _ _ _ _ Hrun).
  rewrite store_history_ok by (simpl; rewrite Hlen1; fold h; lia).
  simpl history. fold h in Hlen1, Hloads.
  replace (Z.to_nat (str + pos)) with (o + p)%nat by lia.
  assert (Hl : forall i : nat, h1 !! i =
    if (o + p <? i)%nat && (i <=? o + length w)%nat
    then h !! (i - 1)%nat else h !! i).
  { intros i. specialize (Hloads (Z.of_nat i) ltac:(lia)).
    destruct (Nat.ltb_spec (o + p) i);
      destruct (Z.ltb_spec (str + n - Z.of_nat (Z.to_nat (n - pos)))
                  (Z.of_nat i)); try lia;
      [destruct (Nat.leb_spec i (o + length w));
       destruct (Z.leb_spec (Z.of_nat i) (str + n)); try lia|];
      cbn [andb] in *.
    - apply load_eq_lookup in Hloads; [|lia..].
      rewrite Nat2Z.id in Hloads. rewrite Hloads. f_equal. lia.
    - apply load_eq_lookup in Hloads; [|lia..].
      by rewrite !Nat2Z.id in Hloads.
    - apply load_eq_lookup in Hloads; [|lia..].
      by rewrite !Nat2Z.id in Hloads. }
  assert (Heq : <[(o + p)%nat := ch]> h1 =
    take (o + p) h ++ ch :: take (length w - p) (drop (o + p) h) ++
    drop (o + length w + 1) h).
  { assert (length (take (o + p) h) = (o + p)%nat) as Hl1
      by (rewrite length_take; lia).
    assert (length (take (length w - p) (drop (o + p) h)) =
            (length w - p)%nat) as Hl2
      by (rewrite length_take, length_drop; lia).
    apply list_eq. intros i.
    destruct (decide (i = (o + p)%nat)) as [->|Hne].
    - rewrite list_lookup_insert_eq by lia.
      symmetry. by apply list_lookup_middle.
    - rewrite list_lookup_insert_ne by done. rewrite Hl.
      destruct (Nat.ltb_spec (o + p) i) as [Hlt|Hge]; cbn [andb].
      + rewrite lookup_app_r by lia. rewrite Hl1.
        destruct (i - (o + p))%nat as [|k] eqn:Hk; [lia|].
        rewrite lookup_cons_ne_0 by done. simpl Nat.pred.
        destruct (Nat.leb_spec i (o + length w)).
        * rewrite lookup_app_l by lia.
          rewrite lookup_take_lt by lia. rewrite lookup_drop.
          f_equal. lia.
        * rewrite lookup_app_r by lia. rewrite Hl2, lookup_drop.
          f_equal. lia.
      + rewrite lookup_app_l by lia. by rewrite lookup_take_lt by lia. }
  eexists. split; [reflexivity|]. split; [exact Heq|].
  split; [by rewrite length_insert|].
  simpl history. rewrite Heq.
  assert (take (o + p) h = take o h ++ take p w) as ->.
  { rewrite Hh at 1. rewrite take_app_ge by lia. rewrite Hlo.
    replace (o + p - o)%nat with p by lia.
    f_equal. by rewrite take_app_le by lia. }
  assert (take (length w - p) (drop (o + p) h) = drop p w) as ->.
  { rewrite Hh at 1. rewrite drop_app_ge by lia. rewrite Hlo.
    replace (o + p - o)%nat with p by lia.
    rewrite drop_app_le by lia.
    rewrite take_app_ge by (rewrite length_drop; lia).
    rewrite length_drop.
    replace (length w - p - (length w - p))%nat with O by lia.
    by rewrite take_0, app_nil_r. }
  rewrite <- app_assoc. rewrite drop_app_length' by done.
  pose proof (cstr_nonzero (drop o h)) as Hnz. fold w in Hnz.
  replace (take p w ++ ch :: drop p w ++ drop (o + length w + 1) h)
    with ((take p w ++ ch :: drop p w) ++ drop (o + length w + 1) h)
    by (by rewrite <- app_assoc).
  rewrite cstr_app_nonzero.
  - by rewrite <- app_assoc.
  - apply Forall_app_2; [by apply Forall_take|].
    apply Forall_cons; split; [done|by apply Forall_drop].
Qed.

(** No linked descriptor begins with the word in [tmp]. *)
Lemma cmdtab_compl_no_match (s : kstate) (n : Z) :
  cmd_lock s = false ->
  Forall (fun a => is_Some (cmds s !! a)) (cmd_head s) ->
  strlen_at (tmp s) 0 = Ok n ->
  (0 < length (output s))%nat ->
  Forall (fun a => ~ begins_with s (cstr (tmp s)) a) (cmd_head s) ->
  cmdtab_compl s = Ok (0, set_output (<[O := 0]> (output s)) s).
Proof.
  intros Hlock Hall Htmp Hout Hnone.
  assert (store_output 0 0 s =
          Ok (tt, set_output (<[O := 0]> (output s)) s)) as Hstore.
  { unfold store_output, bind, gets, lift, modify.
    rewrite store_ok by lia. done. }
  set (s0 := set_output (<[O := 0]> (output s)) s) in *.
  assert (strlen_tmp s0 = Ok (n, s0)) as Hlen
    by (unfold strlen_tmp, bind, gets, lift; simpl; by rewrite Htmp).
  unfold cmdtab_compl.
  rewrite (bind_ok _ _ _ _ _ Hstore), (bind_ok _ _ _ _ _ Hlen).
  unfold bind at 1, gets at 1. unfold bind at 1, gets at 1.
  simpl cmd_head. simpl cmdtab_compl_collect.
  destruct (cmdtab_search_one_spec (cstr (tmp s0)) None s0 Hlock Hall)
    as [(before & hlp & after & h & Hcur & Hh & Hp & _)|[_ Hrun]].
  - exfalso. simpl in Hcur. rewrite Forall_forall in Hnone.
    apply (Hnone hlp); [rewrite Hcur; apply elem_of_app; right;
                        apply elem_of_cons; by left|].
    by exists h.
  - rewrite (bind_ok _ _ _ _ _ (bind_ok _ _ _ _ _ Hrun)). reflexivity.
Qed.

(** ** Completion in the line editor *)

Lemma load_char_at (l : list Z) (i : nat) :
  (i < length l)%nat -> load l (Z.of_nat i) = Ok (char_at l i).
Proof.
  intros Hi. unfold load, char_at.
  destruct (Z.ltb_spec (Z.of_nat i) 0); [lia|]. rewrite Nat2Z.id.
  destruct (lookup_lt_is_Some_2 l i Hi) as [c ->]. done.
Qed.

Lemma char_at_elem (Q : Z -> Prop) (w : list Z) (j : nat) :
  Forall Q w -> (j < length w)%nat -> Q (char_at w j).
Proof.
  intros Hall Hj. unfold char_at.
  destruct (lookup_lt_is_Some_2 w j Hj) as [c Hc]. rewrite Hc. simpl.
  rewrite Forall_forall in Hall. apply Hall.
  by apply list_elem_of_lookup_2 with j.
Qed.

(** The caret runs to the end of a line without blanks, echoing what it
    passes. *)
Lemma rl_word_end_ok (k : Z) (w h : list Z) :
  0 <= k -> row_holds h k w -> Forall (fun c => c <> 32) w ->
  Z.of_nat (length w) < MAX_CMDLINE ->
  forall (fuel : nat) (pos : Z) (t : kstate),
  0 <= pos -> pos + Z.of_nat fuel = Z.of_nat (length w) ->
  history t = h ->
  rl_word_end (k * MAX_CMDLINE) fuel pos t =
    Ok (Z.of_nat (length w),
        set_console (console t ++ drop (Z.to_nat pos) w) t).
Proof.
  intros Hk Hrow Hns Hmax. induction fuel as [|fuel IH]; intros pos t Hp Hf Ht.
  - simpl. unfold ret. rewrite drop_ge by lia. rewrite app_nil_r.
    replace pos with (Z.of_nat (length w)) by lia. by destruct t.
  - simpl rl_word_end.
    assert (load (history t) (k * MAX_CMDLINE + pos) =
            Ok (char_at w (Z.to_nat pos))) as Hload
      by (rewrite Ht; apply Hrow; lia).
    rewrite (bind_ok _ _ _ _ _ (load_history_ok _ _ _ Hload)).
    assert (char_at w (Z.to_nat pos) <> 32) as Hc
      by (apply (char_at_elem (fun c => c <> 32)); [done|lia]).
    destruct (Z.eqb_spec (char_at w (Z.to_nat pos)) 32); [done|].
    cbn [negb]. unfold putchar, print. unfold bind at 1, modify at 1.
    rewrite IH by (simpl; lia || done). simpl console.
    do 2 f_equal. 
    assert (drop (Z.to_nat pos) w =
            char_at w (Z.to_nat pos) :: drop (Z.to_nat (pos + 1)) w) as ->.
    { replace (Z.to_nat (pos + 1)) with (S (Z.to_nat pos)) by lia.
      apply drop_S. unfold char_at.
      destruct (lookup_lt_is_Some_2 w (Z.to_nat pos) ltac:(lia)) as [c ->].
      done. }
    rewrite <- app_assoc. by destruct t.
Qed.

(** The scan for the start of the word falls off the front of a line
    without blanks. *)
Lemma rl_word_start_ok (k : Z) (w h : list Z) :
  0 <= k -> row_holds h k w -> Forall (fun c => c <> 32) w ->
  Z.of_nat (length w) < MAX_CMDLINE ->
  forall (fuel : nat) (t : kstate),
  (fuel <= length w)%nat -> history t = h ->
  rl_word_start (k * MAX_CMDLINE) fuel (Z.of_nat fuel - 1) t = Ok (-1, t).
Proof.
  intros Hk Hrow Hns Hmax. induction fuel as [|fuel IH]; intros t Hf Ht.
  - reflexivity.
  - simpl rl_word_start.
    replace (Z.of_nat (S fuel) - 1) with (Z.of_nat fuel) by lia.
    assert (load (history t) (k * MAX_CMDLINE + Z.of_nat fuel) =
            Ok (char_at w fuel)) as Hload.
    { rewrite Ht, Hrow by lia. by rewrite Nat2Z.id. }
    rewrite (bind_ok _ _ _ _ _ (load_history_ok _ _ _ Hload)).
    assert (char_at w fuel <> 32) as Hc
      by (apply (char_at_elem (fun c => c <> 32)); [done|lia]).
    destruct (Z.eqb_spec (char_at w fuel) 32); [done|].
    cbn [negb]. apply IH; [lia|done].
Qed.


Lemma strlen_at_cstr (l w : list Z) :
  cstr l = w -> (length w < length l)%nat ->
  strlen_at l 0 = Ok (Z.of_nat (length w)).
Proof.
  intros Hc Hl. unfold strlen_at. change (0 <? 0) with false. cbv iota zeta.
  change (drop (Z.to_nat 0) l) with l. unfold strlen. rewrite Hc.
  by destruct (Nat.ltb_spec (length w) (length l)); [|lia].
Qed.


(** X21.  Tab on a line without blanks, with nothing behind its end, that
    no linked command begins with, when [tmp] does not begin with a [*]
    or a [&] left there before: the line stays as it is, the caret goes to
    its end, echoing the characters it passes, and nothing else is
    printed.  The word is left in [tmp] and [output] is emptied. *)
Theorem rl_iteration_tab_no_match (prompt : list Z) (k : Z) (w : list Z)
    (v : rl_vars) (tail : list Z) (s : kstate) :
  editing s k w v -> curlen v = Z.of_nat (length w) ->
  Forall (fun c => c <> 32) w ->
  stdin s = 9 :: tail ->
  cmd_lock s = false ->
  Forall (fun a => is_Some (cmds s !! a)) (cmd_head s) ->
  char_at (tmp s) 0 <> 42 -> char_at (tmp s) 0 <> 38 ->
  MAX_CMDLINE <= Z.of_nat (length (tmp s)) ->
  MAX_CMDLINE < 2 ^ word_bits ->
  (0 < length (output s))%nat ->
  Forall (fun a => ~ begins_with s w a) (cmd_head s) ->
  exists t',
    rl_iteration prompt v s =
      Ok (Continue (mk_rl_vars (current v) (curlen v) (curlen v)),
          set_console (console s ++ drop (Z.to_nat (position v)) w)
            (set_tmp t' (set_output (<[O := 0]> (output s))
               (set_stdin tail s)))) /\
    length t' = length (tmp s) /\ cstr t' = w.
Proof.
  intros Hed Hcl Hns Hin Hlock Hall H42 H38 Htl Hbits Hout Hnone.
  pose proof Hed as (Hk & Hcur & Hrow & Hnz & Hp & _ & Hmax).
  destruct v as [cur cl p]. simpl in Hcur, Hp, Hcl. subst cur cl.
  unfold rl_iteration. simpl current. simpl curlen. simpl position.
  rewrite (bind_ok _ _ _ _ _ (getc_ok _ _ _ Hin)).
  change (9 =? 10) with false. change (9 =? 8) with false.
  change (9 =? 9) with true. cbv iota.
  set (s1 := set_stdin tail s).
  unfold rl_tab. simpl current. simpl curlen. simpl position.
  rewrite (bind_ok _ _ _ _ _
    (rl_word_end_ok k w (history s1) Hk Hrow Hns Hmax
       (Z.to_nat (Z.of_nat (length w) - p)) p s1
       ltac:(lia) ltac:(lia) eq_refl)).
  set (s2 := set_console (console s1 ++ drop (Z.to_nat p) w) s1).
  rewrite Nat2Z.id.
  rewrite (bind_ok _ _ _ _ _
    (rl_word_start_ok k w (history s2) Hk Hrow Hns Hmax (length w) s2
       ltac:(lia) eq_refl)).
  assert (load_tmp 0 s2 = Ok (char_at (tmp s) 0, s2)) as Ht0.
  { pose proof (load_char_at (tmp s) 0 ltac:(lia)) as Hl0.
    change (Z.of_nat 0) with 0 in Hl0.
    unfold load_tmp, bind, gets, lift. simpl tmp. by rewrite Hl0. }
  rewrite (bind_ok _ _ _ _ _ Ht0).
  destruct (Z.eqb_spec (char_at (tmp s) 0) 42); [done|].
  destruct (Z.eqb_spec (char_at (tmp s) 0) 38); [done|].
  cbn [orb]. unfold bind at 1, ret at 1. change (-1 + 1) with 0.
  cbv zeta.
  (* the word goes to [tmp] *)
  assert (exists t1,
    strncpy (tmp s) (fun j => load (history s) (k * MAX_CMDLINE + 0 + j))
      (wrap (Z.of_nat (length w) - 0 + 1)) = Ok t1 /\
    length t1 = length (tmp s) /\ cstr t1 = w) as (t1 & Hcopy & Hlen1 & Hstr1).
  { rewrite (wrap_small MAX_CMDLINE) by lia. unfold strncpy.
    replace (Z.to_nat (Z.min (Z.of_nat (length w) - 0 + 1)
                         (Z.of_nat (length (tmp s)) + 1)))
      with (length w + 1)%nat by lia.
    destruct (strncpy_loop_string w
                (fun j => load (history s) (k * MAX_CMDLINE + 0 + j))
                (length w + 1)) with (dest := tmp s) (i := O)
      as (t1 & Hrun & Hl & Hc).
    - intros j Hj. rewrite cstr_id in Hj by done.
      replace (k * MAX_CMDLINE + 0 + Z.of_nat j)
        with (k * MAX_CMDLINE + Z.of_nat j) by lia.
      rewrite Hrow by lia. by rewrite Nat2Z.id.
    - lia.
    - lia.
    - done.
    - exists t1. split; [exact Hrun|]. split; [done|].
      rewrite Hc, cstr_id by done.
      replace (0 + (length w + 1) - 1)%nat with (length w) by lia.
      by rewrite firstn_all. }
  unfold bind at 1, gets at 1. unfold bind at 1. simpl tmp. simpl history.
  rewrite Hcopy. unfold lift at 1. unfold bind at 1, modify at 1.
  set (s3 := set_tmp t1 s2).
  change (0 =? 0) with true. cbv iota.
  rewrite (bind_ok _ _ _ _ _
    (cmdtab_compl_no_match s3 (Z.of_nat (length w)) Hlock Hall
       (strlen_at_cstr t1 w Hstr1 ltac:(lia)) Hout
       ltac:(simpl tmp; rewrite Hstr1; exact Hnone))).
  change (0 =? 0) with true. cbv iota.
  exists t1. split; [|by split].
  unfold ret, s3, s2, s1. by destruct s.
Qed.
End KconsoleProperties.

(** * The theorems at work on the sample configuration *)

Section OnTheSample.

Local Existing Instance sample_platform.


Lemma sample_registry_ready (head : list Z) (cmd : Z) :
  Forall (fun a => a ∈ [256; 512; 768]) (cmd :: head) ->
  registry_ready (sample_state head) cmd.
Proof.
  intros Hall. apply Forall_cons in Hall as [Hcmd Hhead].
  assert (forall a, a ∈ [256; 512; 768] -> unlocked_at (sample_state head) a)
    as Hun.
  { intros a Ha.
    repeat (apply elem_of_cons in Ha as [->|Ha];
            [eexists; split; reflexivity|]).
    by apply elem_of_nil in Ha. }
  split; [reflexivity|]. split; [by apply Hun|].
  eapply Forall_impl; [exact Hhead|]. exact Hun.
Qed.

Lemma sample_listed :
  forall l : list Z, forallb (fun a => bool_decide (a ∈ [256; 512; 768])) l = true ->
  Forall (fun a => a ∈ [256; 512; 768]) l.
Proof.
  intros l Hl. apply Forall_forall. intros a Ha.
  rewrite forallb_forall in Hl. apply list_elem_of_In in Ha.
  apply Hl in Ha. by apply bool_decide_eq_true in Ha.
Qed.

(** C1, as stated, fails: [dump] and [dumpall] agree on the four bytes of
    the shorter name, and yet each is registered after the other. *)
Lemma cmd_register_prefix_names_both_registered :
  strncmp (chars "dump") (chars "dumpall") 4 = 0 /\
  cmd_register 512 (sample_state [256]) =
    Ok (1, sample_state [256; 512]) /\
  cmd_register 256 (sample_state [512]) =
    Ok (1, sample_state [512; 256]).
Proof. split_and!; reflexivity. Qed.

Lemma cmd_register_collides_on_equal_names_witness :
  registry_ready (sample_state [256]) 512 /\
  cmds (sample_state [256]) !! 512 = Some (sample_cmd "dumpall" []) /\
  (512 ∉ cmd_head (sample_state [256])) /\
  exists r s',
    cmd_register 512 (sample_state [256]) = Ok (r, s') /\
    (r = 0 <-> exists hlp h,
                 hlp ∈ cmd_head (sample_state [256]) /\
                 cmds (sample_state [256]) !! hlp = Some h /\
                 cstr (name h) = cstr (name (sample_cmd "dumpall" []))) /\
    (r = 0 -> s' = sample_state [256]) /\
    (r <> 0 ->
     r = 1 /\
     s' = set_cmd_head (cmd_head (sample_state [256]) ++ [512])
            (sample_state [256])).
Proof.
  assert (registry_ready (sample_state [256]) 512) as Hready
    by (apply sample_registry_ready, sample_listed; reflexivity).
  assert (512 ∉ cmd_head (sample_state [256])) as Hnotin
    by (intros H; apply list_elem_of_In in H; simpl in H; intuition lia).
  refine (conj Hready (conj eq_refl (conj Hnotin _))).
  exact (cmd_register_collides_on_equal_names (sample_state [256]) 512
           (sample_cmd "dumpall" []) Hready eq_refl Hnotin).
Defined.

Lemma cmd_register_same_instance_witness :
  registry_ready (sample_state [256; 512]) 256 /\
  (256 ∈ cmd_head (sample_state [256; 512])) /\
  exists s',
    cmd_register 256 (sample_state [256; 512]) = Ok (0, s') /\
    cmd_head s' = cmd_head (sample_state [256; 512]) /\
    length (cmd_head s') = length (cmd_head (sample_state [256; 512])) /\
    s' = sample_state [256; 512].
Proof.
  assert (registry_ready (sample_state [256; 512]) 256) as Hready
    by (apply sample_registry_ready, sample_listed; reflexivity).
  assert (256 ∈ cmd_head (sample_state [256; 512])) as Hin
    by (apply elem_of_cons; by left).
  refine (conj Hready (conj Hin _)).
  exact (cmd_register_same_instance (sample_state [256; 512]) 256 Hready Hin).
Defined.

Lemma cmd_register_frame_witness :
  registry_ready (sample_state [256]) 768 /\
  exists r s',
    cmd_register 768 (sample_state [256]) = Ok (r, s') /\
    cmds s' = cmds (sample_state [256]) /\
    ((r = 1 /\
      s' = set_cmd_head (cmd_head (sample_state [256]) ++ [768])
             (sample_state [256])) \/
     (r = 0 /\ s' = sample_state [256])).
Proof.
  assert (registry_ready (sample_state [256]) 768) as Hready
    by (apply sample_registry_ready, sample_listed; reflexivity).
  split; [exact Hready|].
  exact (cmd_register_frame (sample_state [256]) 768 Hready).
Defined.

Lemma sample_parser_ready (head : list Z) :
  Forall (fun a => a ∈ [256; 512; 768]) head ->
  parser_ready (sample_state head).
Proof.
  intros Hhead. split; [reflexivity|]. split.
  - eapply Forall_impl; [exact Hhead|]. intros a Ha.
    repeat (apply elem_of_cons in Ha as [->|Ha];
            [eexists; split; [reflexivity|]; split; [reflexivity|];
             split; [by vm_compute|repeat constructor]|]).
    by apply elem_of_nil in Ha.
  - by vm_compute.
Qed.

(** C2, where the code departs from the claim.  The sample symbol table
    resolves [main] to the address 4096 with return code 0, and still
    [&main], [main] and [*main] are all turned down with "No symbol
    information available.": [parse_int_arg] returns -1 and leaves the
    result where it was (99 here), instead of giving 4096, the word at 4096
    and the word that one points to. *)
Theorem parse_int_arg_resolved_symbol_rejected :
  sample_symtab_addr_lookup (chars "main") = (0, 4096) /\
  (exists s',
     parse_int_arg (chars "&main") 5 99 (sample_state []) =
       Ok ((-1, 99), s') /\
     console s' = msg_no_symbol_information) /\
  (exists s',
     parse_int_arg (chars "main") 4 99 (sample_state []) =
       Ok ((-1, 99), s') /\
     console s' = msg_no_symbol_information) /\
  (exists s',
     parse_int_arg (chars "*main") 5 99 (sample_state []) =
       Ok ((-1, 99), s') /\
     console s' = msg_no_symbol_information).
Proof.
  split; [reflexivity|].
  split_and!; eexists; (split; [vm_compute; reflexivity|reflexivity]).
Qed.

(** C3, as stated, fails: [dump] is parsed with success, and when
    [parse_cmdline] returns its descriptor the lock of that descriptor is
    free. *)
Lemma parse_cmdline_success_returns_lock_free :
  exists s',
    parse_cmdline (chars "dump") 4 (sample_state [256; 512; 768]) =
      Ok (Some 256, s') /\
    lock <$> (cmds s' !! 256) = Some false.
Proof. eexists. split; [vm_compute; reflexivity|reflexivity]. Qed.

(** C3 (as amended) on [call 42], where the argument loop converts one
    argument. *)
Lemma parse_cmdline_returns_unlocked_witness :
  0 <= 7 <= Z.of_nat (length (chars "call 42")) /\
  7 + 2 < 2 ^ word_bits /\
  parser_ready (sample_state [256; 512; 768]) /\
  exists r s',
    parse_cmdline (chars "call 42") 7 (sample_state [256; 512; 768]) =
      Ok (r, s') /\
    locks_as (sample_state [256; 512; 768]) s' /\
    forall cmd, r = Some cmd ->
      exists d1 s1 start end_ end1,
        parse_argument (chars "call 42") 7 0 = (true, start, end_) /\
        parse_cmdline_args (chars "call 42") 7 cmd (Z.to_nat (argc d1)) 0
          end_ 0 (hold cmd (sample_state [256; 512; 768])) =
          Ok (Some (end1, 0), s1) /\
        cmds s1 !! cmd = Some d1 /\ lock d1 = true /\
        s' = release cmd s1 /\
        cmds s' !! cmd = Some (set_lock false d1) /\
        kconsole_dispatch (chars "call 42") 7 (sample_state [256; 512; 768]) =
          (call_handler (func d1) (argv d1) ;; ret tt) s'.
Proof.
  assert (0 <= 7 <= Z.of_nat (length (chars "call 42"))) as Hlen
    by (by vm_compute).
  assert (7 + 2 < 2 ^ word_bits) as Hbits by reflexivity.
  assert (parser_ready (sample_state [256; 512; 768])) as Hready
    by (apply sample_parser_ready, sample_listed; reflexivity).
  refine (conj Hlen (conj Hbits (conj Hready _))).
  exact (parse_cmdline_returns_unlocked (chars "call 42") 7
           (sample_state [256; 512; 768]) Hlen Hbits Hready).
Defined.

Lemma parse_cmdline_find_longer_word_witness :
  strlen (chars "dumpall") < 2 ^ word_bits /\
  parse_argument (chars "dumpall")
    (strlen (chars "dumpall")) 0 = (true, 0, 6) /\
  (forall h : cmd_info,
     strlen (name h) < 6 - 0 + 1 ->
     strncmp (name h) (drop (Z.to_nat 0) (chars "dumpall"))
       (Z.to_nat (Z.max (strlen (name h)) (wrap (wrap (6 - 0) + 1))))
     <> 0) /\
  (forall s, Forall (unlocked_at s) (cmd_head s) ->
     exists r s',
       parse_cmdline_find (chars "dumpall") 0 6 (cmd_head s) s =
         Ok (r, s') /\
       forall hlp, r = Some hlp ->
         exists h, cmds s !! hlp = Some h /\ 6 - 0 + 1 <= strlen (name h)).
Proof.
  assert (strlen (chars "dumpall") < 2 ^ word_bits) as Hbits by reflexivity.
  assert (parse_argument (chars "dumpall")
            (strlen (chars "dumpall")) 0 = (true, 0, 6)) as Harg
    by reflexivity.
  split; [exact Hbits|]. split; [exact Harg|].
  exact (parse_cmdline_find_longer_word (chars "dumpall")
           0 6 Hbits Harg).
Defined.

(** C6, as stated, fails: [call] declares one argument and two words follow
    it, so a word remains after the declared argument is consumed; the parse
    fails, but what is reported is the failed conversion of [nosuch], and
    "Too many arguments." is not printed. *)
Lemma parse_cmdline_extra_word_after_failed_conversion :
  words_from (chars "call nosuch extra") 17 0 = 3%nat /\
  argc (sample_cmd "call" [sample_int_arg]) = 1 /\
  exists s',
    parse_cmdline (chars "call nosuch extra") 17
      (sample_state [256; 512; 768]) = Ok (None, s') /\
    console s' = msg_symbol_not_found (chars "nosuch").
Proof.
  split; [reflexivity|]. split; [reflexivity|].
  eexists. split; [vm_compute; reflexivity|reflexivity].
Qed.

Lemma parse_cmdline_arity_witness :
  let s := sample_state [256; 512; 768] in
  let cmdline := chars "call 42 extra" in
  let d := sample_cmd "call" [sample_int_arg] in
  0 <= 13 <= Z.of_nat (length cmdline) /\
  13 + 2 < 2 ^ word_bits /\
  parser_ready s /\
  parse_argument cmdline 13 0 = (true, 0, 3) /\
  List.find (names_word s cmdline 0 3) (cmd_head s) = Some 768 /\
  cmds s !! 768 = Some d /\
  (Z.of_nat (words_from cmdline 13 0) - 1 < argc d ->
   exists s' out,
     parse_cmdline cmdline 13 s = Ok (None, s') /\
     kconsole_dispatch cmdline 13 s = Ok (tt, s') /\
     console s' = console s ++ out ++ msg_too_few_arguments)
  /\
  (argc d < Z.of_nat (words_from cmdline 13 0) - 1 ->
   exists s' end1 error s1,
     parse_cmdline_args cmdline 13 768 (Z.to_nat (argc d)) 0 3 0 (hold 768 s) =
       Ok (Some (end1, error), s1) /\
     parse_cmdline cmdline 13 s = Ok (None, s') /\
     kconsole_dispatch cmdline 13 s = Ok (tt, s') /\
     (error = 0 -> console s' = console s1 ++ msg_too_many_arguments) /\
     (error <> 0 -> console s' = console s1)).
Proof.
  intros s cmdline d.
  assert (0 <= 13 <= Z.of_nat (length cmdline)) as Hlen by (by vm_compute).
  assert (13 + 2 < 2 ^ word_bits) as Hbits by reflexivity.
  assert (parser_ready s) as Hready
    by (apply sample_parser_ready, sample_listed; reflexivity).
  assert (parse_argument cmdline 13 0 = (true, 0, 3))
    as Harg by reflexivity.
  assert (List.find (names_word s cmdline 0 3) (cmd_head s) = Some 768)
    as Hfind by reflexivity.
  assert (cmds s !! 768 = Some d) as Hd by reflexivity.
  refine (conj Hlen (conj Hbits (conj Hready (conj Harg (conj Hfind
            (conj Hd _)))))).
  exact (parse_cmdline_arity cmdline 13 0 3 768 d s
             Hlen Hbits Hready Harg Hfind Hd).
Defined.

(** ** The line editor on the kernel's limits

    [MAX_CMDLINE] is 256 and [KCONSOLE_HISTORY] is 10.  The operator types a
    line of 256 times [a], a line [b], and then asks twice for the previous
    line. *)


(** C7, where the code departs from the claim.  After the second "previous"
    the editor is back at the head of its loop with a line of 257 bytes, one
    more than [MAX_CMDLINE]: the full first line was stored without room for
    its terminator, so its string runs on into the slot of the second. *)
Theorem clever_readline_line_longer_than_MAX_CMDLINE :
  exists v s',
    third_session 2
      (set_stdin (full_line_then_b ++ key_up ++ key_up)
         statics_at_boot) = Ok (Continue v, s') /\
    curlen v = 257 /\ position v = 257 /\
    ~ rl_bounds v.
Proof.
  eexists _, _. split; [vm_compute; reflexivity|].
  split; [reflexivity|]. split; [reflexivity|].
  unfold rl_bounds. simpl. lia.
Qed.

(** C8, where the code departs from the claim.  Two lines were submitted,
    the first of them full.  The first "previous" loads the second line,
    [b]; the second "previous" does not load the first line but the 257
    bytes of the first line followed by the second. *)
Theorem history_previous_after_full_line :
  (exists v s',
     third_session 1
       (set_stdin (full_line_then_b ++ key_up) statics_at_boot)
       = Ok (Continue v, s') /\
     history_string s' (current v) = chars "b") /\
  (exists v s',
     third_session 2
       (set_stdin (full_line_then_b ++ key_up ++ key_up)
          statics_at_boot) = Ok (Continue v, s') /\
     history_string s' (current v) = full_line ++ chars "b" /\
     history_string s' (current v) <> full_line).
Proof.
  split.
  - eexists _, _. split; [vm_compute; reflexivity|]. reflexivity.
  - eexists _, _. split; [vm_compute; reflexivity|].
    split; [reflexivity|]. intros H. apply (f_equal length) in H.
    vm_compute in H. discriminate.
Qed.

(** C10, where the code departs from the claim.  From the image at boot the
    operator goes to the previous slot, the last of the ring, types a full
    line and submits it: the terminator belongs at byte 2560 of the 2560
    bytes of [history], and [clever_readline] has no line to return. *)
Theorem clever_readline_terminator_outside_history :
  clever_readline (chars "kconsole")
    (set_stdin (key_up ++ full_line ++ key_enter) statics_at_boot)
  = Err OutOfBounds /\
  exists v s',
    (do v <- rl_enter (chars "kconsole") ;; rl_iterate (chars "kconsole") 258 v)
      (set_stdin (key_up ++ full_line ++ key_enter)
         statics_at_boot) = Ok (Break v, s') /\
    current v + curlen v = Z.of_nat (length (history s')) /\
    rl_leave v s' = Err OutOfBounds.
Proof.
  split; [vm_compute; reflexivity|].
  eexists _, _. split; [vm_compute; reflexivity|].
  split; vm_compute; reflexivity.
Qed.

(** The caret leaves the line by another way too.  With a command name
    longer than a line in the registry, 255 bytes of it typed and the
    tabulator pressed, one byte of the completion fits and is inserted, and
    the caret is moved by the length of the whole completion: to 260 in a
    line of 256. *)
Lemma clever_readline_tab_caret_beyond_line :
  exists v s',
    (do v0 <- rl_enter (chars "kconsole") ;;
     rl_iterate (chars "kconsole") 256 v0)
      (set_stdin (repeat 120 255 ++ [9]) sample_long_state)
    = Ok (Continue v, s') /\
    curlen v = 256 /\ position v = 260 /\ ~ rl_bounds v.
Proof.
  eexists _, _. split; [vm_compute; reflexivity|].
  split; [reflexivity|]. split; [reflexivity|].
  unfold rl_bounds. simpl. lia.
Qed.

(** The history at work on three short lines: the second "previous" brings
    back the line before the last. *)
Lemma history_previous_short_lines_witness :
  exists v s',
    (submit (chars "kconsole") 3 ;;
     do v0 <- rl_enter (chars "kconsole") ;;
     rl_iterate (chars "kconsole") 2 v0)
      (set_stdin (typed sample_lines ++ previous 2 ++ []) statics_at_boot)
    = Ok (Continue v, s') /\
    history_string s' (current v) = chars "call 42" /\
    curlen v = 7 /\ position v = curlen v /\
    histposition s' = (3 - 2) mod KCONSOLE_HISTORY.
Proof.
  assert (forall l : list Z,
            forallb (fun c => bool_decide (plain c)) l = true ->
            l <> [] -> Z.of_nat (length l) < MAX_CMDLINE -> short_line l)
    as Hshort.
  { intros l Hpl Hne Hlen. split; [|by split].
    apply Forall_forall. intros c Hc. rewrite forallb_forall in Hpl.
    apply list_elem_of_In in Hc. apply Hpl in Hc.
    by apply bool_decide_eq_true in Hc. }
  assert (Forall short_line sample_lines) as Hls.
  { unfold sample_lines.
    repeat (apply Forall_cons; split;
            [apply Hshort; [by vm_compute|discriminate|reflexivity]|]).
    apply Forall_nil_2. }
  exact (history_previous_short_lines (chars "kconsole") sample_lines 2 []
           (set_stdin (typed sample_lines ++ previous 2 ++ []) statics_at_boot)
           ltac:(by vm_compute) eq_refl eq_refl Hls ltac:(by vm_compute)
           ltac:(simpl; lia) eq_refl).
Defined.


(** ** Further properties at work *)

Lemma sample_Forall (Q : Z -> Prop) `{!forall c, Decision (Q c)}
    (l : list Z) :
  forallb (fun c => bool_decide (Q c)) l = true -> Forall Q l.
Proof.
  intros Hl. apply Forall_forall. intros c Hc.
  rewrite forallb_forall in Hl. apply list_elem_of_In in Hc.
  apply Hl in Hc. by apply bool_decide_eq_true in Hc.
Qed.

Lemma load_padded (w : list Z) (n : nat) (j : Z) :
  0 <= j < Z.of_nat (length w + n) ->
  load (w ++ repeat 0 n) j = Ok (char_at w (Z.to_nat j)).
Proof.
  intros Hj. unfold load, char_at. destruct (Z.ltb_spec j 0); [lia|].
  destruct (Nat.lt_ge_cases (Z.to_nat j) (length w)) as [Hlt|Hge].
  - rewrite lookup_app_l by done.
    by destruct (lookup_lt_is_Some_2 w _ Hlt) as [c ->].
  - rewrite lookup_app_r by done. rewrite (lookup_ge_None_2 w) by done.
    destruct (repeat 0 n !! (Z.to_nat j - length w)%nat) as [c|] eqn:Hl.
    + apply list_elem_of_lookup_2, list_elem_of_In, repeat_spec in Hl.
      by subst.
    + apply lookup_ge_None in Hl. rewrite repeat_length in Hl. lia.
Qed.

Lemma sample_row (w : list Z) (n : nat) (k : Z) :
  0 <= k -> (k + 1) * 256 <= Z.of_nat n ->
  (k = 0 \/ w = []) -> (length w <= 256)%nat ->
  row_holds (w ++ repeat 0 n) k (if bool_decide (k = 0) then w else []).
Proof.
  intros Hk Hn Hw Hlen j Hj. change MAX_CMDLINE with 256 in *.
  rewrite load_padded by lia.
  destruct Hw as [->| ->].
  - by rewrite bool_decide_eq_true_2, Z.mul_0_l, Z.add_0_l.
  - unfold char_at. rewrite !lookup_nil. by destruct (bool_decide _).
Qed.

(** X1 on a history that holds the byte 7 everywhere, with a [cmd_init]
    that registers the three sample commands. *)
Lemma kconsole_init_clears_history_witness :
  sample_cmd_init (sample_dirty_state []) =
    Ok (tt, sample_dirty_state [256; 512; 768]) /\
  exists s',
    kconsole_init sample_cmd_init (sample_dirty_state []) = Ok (tt, s') /\
    (forall k, 0 <= k < KCONSOLE_HISTORY ->
       history_string s' (k * MAX_CMDLINE) = []) /\
    (forall i, 0 <= i -> i mod MAX_CMDLINE <> 0 ->
       load (history s') i =
       load (history (sample_dirty_state [256; 512; 768])) i) /\
    s' = set_history (history s') (sample_dirty_state [256; 512; 768]).
Proof.
  assert (sample_cmd_init (sample_dirty_state []) =
            Ok (tt, sample_dirty_state [256; 512; 768])) as Hinit
    by (vm_compute; reflexivity).
  split; [exact Hinit|].
  exact (kconsole_init_clears_history (P := sample_platform) sample_cmd_init
           (sample_dirty_state []) (sample_dirty_state [256; 512; 768])
           ltac:(reflexivity) ltac:(by vm_compute) Hinit ltac:(reflexivity)).
Defined.

(** X2: [dumpall] is registered beside [dump]. *)
Lemma cmd_register_keeps_names_distinct_witness :
  exists r s',
    cmd_register 512 (sample_state [256]) = Ok (r, s') /\
    names_distinct s' /\
    (r = 1 -> 512 ∈ cmd_head s' /\ 512 ∉ cmd_head (sample_state [256])).
Proof.
  assert (registry_ready (sample_state [256]) 512) as Hready
    by (apply sample_registry_ready, sample_listed; reflexivity).
  assert (names_distinct (sample_state [256])) as Hnames.
  { split; [apply NoDup_singleton|].
    intros a b h h' Ha Hb Hab.
    change (a ∈ [256]) in Ha. change (b ∈ [256]) in Hb.
    apply list_elem_of_singleton in Ha, Hb. congruence. }
  exact (cmd_register_keeps_names_distinct (sample_state [256]) 512
           Hready Hnames).
Defined.

(** X3: [dumpall] is registered beside [dump], and then called. *)
Lemma cmd_register_then_parse_cmdline_witness :
  exists r s',
    cmd_register 512 (sample_state [256]) = Ok (r, s') /\
    (r = 1 ->
     parse_cmdline (chars "dumpall") (strlen (chars "dumpall")) s' =
       Ok (Some 512, s')).
Proof.
  assert (parser_ready (sample_state [256])) as Hready
    by (apply sample_parser_ready, sample_listed; reflexivity).
  assert (linked_ok (sample_state [256]) 512) as Hlinked.
  { eexists. split; [reflexivity|]. split; [reflexivity|].
    split; [by vm_compute|repeat constructor]. }
  assert (one_word (cstr (name (sample_cmd "dumpall" [])))) as Hword
    by (apply (sample_Forall (fun c => isspace c = false)); reflexivity).
  exact (cmd_register_then_parse_cmdline (P := sample_platform) (sample_state [256]) 512
           (sample_cmd "dumpall" []) (chars "dumpall")
           Hready Hlinked eq_refl eq_refl ltac:(discriminate) Hword
           ltac:(reflexivity) eq_refl).
Defined.

(** X4: [u] is put into [dmp]; the string that is read back is [dumpxy],
    for [p] has taken the place of the terminator. *)
Lemma insert_char_overwrites_terminator_witness :
  exists h',
    insert_char 0 117 1 sample_two_strings =
      Ok (tt, set_history h' sample_two_strings) /\
    h' = chars "dumpxy" ++ repeat 0 2554 /\
    length h' = length (history sample_two_strings) /\
    history_string (set_history h' sample_two_strings) 0 = chars "dumpxy".
Proof.
  exact (insert_char_overwrites_terminator 0 117 1 3 sample_two_strings
           eq_refl ltac:(lia) ltac:(discriminate)).
Defined.

(** X5: the search for [dump] among [call], [dump] and [dumpall] passes
    [call] and stops at [dump]. *)
Lemma cmdtab_search_one_first_match_witness :
  exists r,
    cmdtab_search_one (chars "dump") None (sample_state [768; 256; 512]) =
      Ok (r, sample_state [768; 256; 512]) /\
    match r with
    | (Some rest, cur) =>
        exists before hlp after h,
          [768; 256; 512] = before ++ cur /\
          cur = hlp :: after /\
          cmds (sample_state [768; 256; 512]) !! hlp = Some h /\
          cstr (chars "dump") ++ cstr rest = cstr (name h) /\
          Forall (fun a => ~ begins_with (sample_state [768; 256; 512])
                               (chars "dump") a) before
    | (None, _) =>
        Forall (fun a => ~ begins_with (sample_state [768; 256; 512])
                             (chars "dump") a) [768; 256; 512]
    end.
Proof.
  assert (Forall (fun a => is_Some (cmds (sample_state [768; 256; 512]) !! a))
            (default (cmd_head (sample_state [768; 256; 512])) None))
    as Hall.
  { repeat (apply Forall_cons; split; [by eexists|]). apply Forall_nil_2. }
  exact (proj2 (cmdtab_search_one_first_match (chars "dump") None
                  (sample_state [768; 256; 512]) Hall) eq_refl).
Defined.


(** X7: the keys of [sample_keys] make the line [dump]; the bytes typed
    ahead stay at the input device. *)
Lemma clever_readline_edits_line_witness :
  exists s',
    clever_readline (chars "kconsole")
      (set_stdin (script_bytes sample_keys ++ 10 :: chars "dump")
         statics_at_boot) = Ok (0, s') /\
    history_string s' 0 = chars "dump" /\
    stdin s' = chars "dump" /\
    (chars "dump" = [] -> histposition s' = 0) /\
    (chars "dump" <> [] -> histposition s' = Z.rem (0 + 1) KCONSOLE_HISTORY) /\
    other_rows_kept 0 (history statics_at_boot) (history s') /\
    editor_only
      (set_stdin (script_bytes sample_keys ++ 10 :: chars "dump")
         statics_at_boot) s'.
Proof.
  assert (Forall key_ok sample_keys) as Hkeys.
  { unfold sample_keys.
    repeat (apply Forall_cons; split; [by vm_compute|]). apply Forall_nil_2. }
  exact (clever_readline_edits_line (P := sample_platform) (chars "kconsole") sample_keys []
           (chars "dump")
           (set_stdin (script_bytes sample_keys ++ 10 :: chars "dump")
              statics_at_boot)
           ltac:(by vm_compute)
           (sample_row [] 2560 0 ltac:(lia) ltac:(lia) ltac:(by left)
              ltac:(simpl; lia))
           (Forall_nil_2 _) Hkeys ltac:(by vm_compute) eq_refl).
Defined.

(** X8: "up" on a fresh console goes from row 0 to row 9. *)
Lemma rl_iteration_history_key_witness :
  rl_iteration (chars "kconsole") (mk_rl_vars 0 0 0)
    (set_stdin [27; 91; 65] statics_at_boot) =
  Ok (Continue (mk_rl_vars (9 * MAX_CMDLINE) 0 0),
      set_console []
        (set_histposition 9 (set_stdin [] (set_stdin [27; 91; 65]
                                             statics_at_boot)))).
Proof.
  exact (rl_iteration_history_key (P := sample_platform) (chars "kconsole") (mk_rl_vars 0 0 0) 65
           [] [] (set_stdin [27; 91; 65] statics_at_boot)
           ltac:(reflexivity) ltac:(by vm_compute) ltac:(by left)
           (sample_row [] 2560 9 ltac:(lia) ltac:(lia) ltac:(by right)
              ltac:(simpl; lia))
           (Forall_nil_2 _) ltac:(reflexivity) eq_refl).
Defined.




(** X12: the console thread is woken by a key, reads the line [dump] and
    has not returned. *)
Lemma kconsole_kcon_never_returns_witness :
  exists r s',
    kconsole_thread true (fun _ => ret tt) 1
      (sample_console (120 :: chars "dump" ++ [10])) = Ok (r, s') /\
    r = false.
Proof.
  destruct (kconsole_thread true (fun _ => ret tt) 1
              (sample_console (120 :: chars "dump" ++ [10])))
    as [[r s']|e] eqn:Hrun.
  - exists r, s'. split; [reflexivity|].
    exact (proj2 (kconsole_kcon_never_returns (P := sample_platform)
                    (fun _ => ret tt) (chars "kconsole") None 1
                    (sample_console (120 :: chars "dump" ++ [10])) s' r)
             Hrun).
  - vm_compute in Hrun. discriminate.
Defined.

(** X13 on a line that begins with two blanks. *)
Lemma parse_argument_delimits_word_witness :
  (parse_argument (chars "  call 42") 9 0 = (false, 9, wrap (9 - 1)) /\
   forall j, 0 <= j < 9 ->
     isspace (char_at (chars "  call 42") (Z.to_nat j)) = true)
  \/
  (exists start' end',
     parse_argument (chars "  call 42") 9 0 = (true, start', end') /\
     0 <= start' <= end' /\ end' < 9 /\
     (forall j, 0 <= j < start' ->
        isspace (char_at (chars "  call 42") (Z.to_nat j)) = true) /\
     (forall j, start' <= j <= end' ->
        isspace (char_at (chars "  call 42") (Z.to_nat j)) = false) /\
     (end' + 1 < 9 ->
      isspace (char_at (chars "  call 42") (Z.to_nat (end' + 1))) = true)).
Proof.
  exact (parse_argument_delimits_word (P := sample_platform)
           (chars "  call 42") 9 0 ltac:(lia) ltac:(reflexivity)).
Defined.

(** X14 on a line of three blanks. *)
Lemma parse_cmdline_blank_line_witness :
  parse_cmdline (chars "   ") 3 (sample_state [256]) =
    Ok (None, sample_state [256]).
Proof.
  assert (forall j, 0 <= j < 3 ->
            isspace (char_at (chars "   ") (Z.to_nat j)) = true) as Hblank.
  { intros j Hj. assert (j = 0 \/ j = 1 \/ j = 2) as [->|[->| ->]] by lia;
      reflexivity. }
  exact (parse_cmdline_blank_line (P := sample_platform) (chars "   ") 3
           (sample_state [256]) Hblank).
Defined.

(** X15 on the line [dum], which no command bears as its name. *)
Lemma parse_cmdline_selects_by_name_witness :
  exists r s',
    parse_cmdline (chars "dum") (strlen (chars "dum"))
      (sample_state [256; 512; 768]) = Ok (r, s') /\
    r = None /\
    s' = printed msg_unknown_command (sample_state [256; 512; 768]).
Proof.
  assert (parser_ready (sample_state [256; 512; 768])) as Hready
    by (apply sample_parser_ready, sample_listed; reflexivity).
  assert (forall hlp h, hlp ∈ cmd_head (sample_state [256; 512; 768]) ->
            cmds (sample_state [256; 512; 768]) !! hlp = Some h ->
            one_word (cstr (name h))) as Hwords.
  { intros hlp h Hin Hh. change (hlp ∈ [256; 512; 768]) in Hin.
    repeat (apply elem_of_cons in Hin as [->|Hin];
            [vm_compute in Hh; injection Hh as <-;
             by apply (sample_Forall (fun c => isspace c = false))|]).
    by apply elem_of_nil in Hin. }
  assert (forall hlp h, hlp ∈ cmd_head (sample_state [256; 512; 768]) ->
            cmds (sample_state [256; 512; 768]) !! hlp = Some h ->
            cstr (name h) <> word_at (chars "dum") 0 2) as Hnone.
  { intros hlp h Hin Hh. change (hlp ∈ [256; 512; 768]) in Hin.
    repeat (apply elem_of_cons in Hin as [->|Hin];
            [vm_compute in Hh; injection Hh as <-; by vm_compute|]).
    by apply elem_of_nil in Hin. }
  destruct (parse_cmdline_selects_by_name (P := sample_platform) (chars "dum")
              0 2 (sample_state [256; 512; 768]) ltac:(reflexivity) Hready
              Hwords eq_refl) as (r & s' & Hrun & Hunknown & _).
  exists r, s'. split; [exact Hrun|]. exact (Hunknown Hnone).
Defined.

(** X16: [configuration] is cut to the seven bytes that fit. *)
Lemma parse_cmdline_convert_string_witness :
  exists buf,
    parse_cmdline_convert (chars "set configuration 7") 1280 0 4 16
      sample_set_state =
      Ok (0, set_cmds
               (<[1280 := set_argv
                            (<[O := set_buffer buf sample_string_arg]>
                               [sample_string_arg; sample_var_arg])
                            (sample_cmd "set"
                               [sample_string_arg; sample_var_arg])]>
                  (cmds sample_set_state)) sample_set_state) /\
    length buf = 8%nat /\
    cstr buf = chars "configu".
Proof.
  exact (parse_cmdline_convert_string (P := sample_platform)
           (chars "set configuration 7") 1280 0 4 16
           (sample_cmd "set" [sample_string_arg; sample_var_arg])
           sample_string_arg sample_set_state
           eq_refl eq_refl eq_refl ltac:(by vm_compute) ltac:(reflexivity)
           ltac:(lia) ltac:(reflexivity) ltac:(reflexivity)).
Defined.

(** X17: the argument [abc] between double quotes. *)
Lemma parse_cmdline_convert_quoted_witness :
  exists buf,
    parse_cmdline_convert (chars "set x " ++ 34 :: chars "abc" ++ [34])
      1280 1 6 10 sample_set_state =
      Ok (0, set_cmds
               (<[1280 := set_argv
                            (<[1%nat :=
                                 set_vartype ARG_TYPE_STRING
                                   (set_intval 8192
                                      (set_buffer buf sample_var_arg))]>
                               [sample_string_arg; sample_var_arg])
                            (sample_cmd "set"
                               [sample_string_arg; sample_var_arg])]>
                  (cmds sample_set_state)) sample_set_state) /\
    length buf = 8%nat /\
    cstr buf = chars "abc".
Proof.
  exact (parse_cmdline_convert_quoted (P := sample_platform)
           (chars "set x " ++ 34 :: chars "abc" ++ [34]) 1280 1 6 10
           (sample_cmd "set" [sample_string_arg; sample_var_arg])
           sample_var_arg sample_set_state
           eq_refl eq_refl eq_refl ltac:(by vm_compute) ltac:(reflexivity)
           ltac:(lia) ltac:(reflexivity) ltac:(reflexivity)
           eq_refl eq_refl).
Defined.

(** X18: the argument [*4096]; the word at 4096 is 8192. *)
Lemma parse_cmdline_convert_number_witness :
  parse_cmdline_convert (chars "call *4096") 768 0 5 9
    (sample_state [256; 512; 768]) =
    Ok (0, set_cmds
             (<[768 := set_argv
                         (<[O := set_intval 8192 sample_int_arg]>
                            [sample_int_arg])
                         (sample_cmd "call" [sample_int_arg])]>
                (cmds (sample_state [256; 512; 768])))
             (sample_state [256; 512; 768])).
Proof.
  exact (parse_cmdline_convert_number (P := sample_platform)
           (chars "call *4096") 768 0 5 9
           (sample_cmd "call" [sample_int_arg]) sample_int_arg
           (sample_state [256; 512; 768])
           eq_refl eq_refl ltac:(by left) ltac:(by vm_compute)).
Defined.

(** X19: the symbol [nosuch] is not known. *)
Lemma parse_int_arg_symbol_witness :
  exists buf,
    length buf = length (symname (sample_state [])) /\
    cstr buf = chars "nosuch" /\
    parse_int_arg (chars "&nosuch") 7 99 (sample_state []) =
      Ok ((-1, 99),
          set_console (msg_symbol_not_found buf)
            (set_symname buf (sample_state []))).
Proof.
  destruct (parse_int_arg_symbol (P := sample_platform) (chars "&nosuch") 7
              99 (sample_state []) ltac:(by vm_compute) ltac:(by vm_compute)
              ltac:(reflexivity) ltac:(right; reflexivity))
    as (buf & Hlen & Hstr & Hrun).
  exists buf. split; [exact Hlen|]. split; [exact Hstr|].
  rewrite Hrun. cbv zeta. rewrite Hstr. reflexivity.
Defined.

(** X20 on the line [call 42]. *)
Lemma parse_cmdline_keeps_parser_ready_witness :
  exists r s',
    parse_cmdline (chars "call 42") 7 (sample_state [256; 512; 768]) =
      Ok (r, s') /\
    parser_ready s' /\
    cmd_head s' = cmd_head (sample_state [256; 512; 768]) /\
    (forall a d, cmds (sample_state [256; 512; 768]) !! a = Some d ->
       exists d', cmds s' !! a = Some d' /\ same_shape d d') /\
    (exists out, console s' = console (sample_state [256; 512; 768]) ++ out).
Proof.
  assert (parser_ready (sample_state [256; 512; 768])) as Hready
    by (apply sample_parser_ready, sample_listed; reflexivity).
  exact (parse_cmdline_keeps_parser_ready (P := sample_platform)
           (chars "call 42") 7 (sample_state [256; 512; 768])
           ltac:(by vm_compute) ltac:(reflexivity) Hready).
Defined.

(** X21: Tab behind [ex] changes nothing but [tmp] and [output]. *)
Lemma rl_iteration_tab_no_match_witness :
  exists t',
    rl_iteration (chars "kconsole") (mk_rl_vars 0 2 2) sample_tab_miss_state =
      Ok (Continue (mk_rl_vars 0 2 2),
          set_console []
            (set_tmp t' (set_output (<[O := 0]> (output sample_tab_miss_state))
               (set_stdin [] sample_tab_miss_state)))) /\
    length t' = length (tmp sample_tab_miss_state) /\
    cstr t' = chars "ex".
Proof.
  assert (editing sample_tab_miss_state 0 (chars "ex") (mk_rl_vars 0 2 2))
    as Hed.
  { split; [done|]. split; [done|].
    split; [exact (sample_row (chars "ex") 2558 0 ltac:(lia) ltac:(lia)
                     ltac:(by left) ltac:(simpl; lia))|].
    split; [by apply (sample_Forall (fun c => c <> 0))|].
    by vm_compute. }
  assert (Forall (fun a => is_Some (cmds sample_tab_miss_state !! a))
            (cmd_head sample_tab_miss_state)) as Hall.
  { repeat (apply Forall_cons; split; [by eexists|]). apply Forall_nil_2. }
  assert (Forall (fun a => ~ begins_with sample_tab_miss_state (chars "ex") a)
            (cmd_head sample_tab_miss_state)) as Hnone.
  { repeat (apply Forall_cons; split;
            [intros (d & Hd & k & Hk); vm_compute in Hd;
             injection Hd as <-; vm_compute in Hk; discriminate|]).
    apply Forall_nil_2. }
  exact (rl_iteration_tab_no_match (P := sample_platform) (chars "kconsole")
           0 (chars "ex") (mk_rl_vars 0 2 2) [] sample_tab_miss_state
           Hed eq_refl
           (sample_Forall (fun c => c <> 32) (chars "ex") eq_refl)
           eq_refl eq_refl Hall ltac:(discriminate) ltac:(discriminate)
           ltac:(by vm_compute) ltac:(reflexivity) ltac:(simpl; lia) Hnone).
Defined.
End OnTheSample.
